(** * ReactOS: the GDI object table (win32k/gre/gdiobj.c) and the view cache
      (ntoskrnl/cc/view.c)

    A shallow embedding of the handle-table routines and of the cache-view
    routines, followed by the properties of the specification that were
    checked against them.

    Conventions of the embedding.
    - ULONG, LONG, ULONG_PTR, HANDLE and PVOID are 32-bit words (x86); a word
      is a [Z] in [0, 2^32) and every operation that can leave that range is
      wrapped with [to_ULONG] (or read back as signed with [to_LONG]).
    - Pointers are words; a pool of bodies is a finite map from addresses.
    - The routines are read sequentially: a compare-and-swap succeeds or
      fails on the value the slot holds, and a retry loop that waits for
      somebody else to clear a lock bit does not return ([Spins]).
    - ASSERT is the free-build ASSERT (no code); DPRINT and the GDIDBG_*
      tracing macros and the audit counters have no effect on the tables. *)

From Stdlib Require Import ZArith List Bool Lia.
From stdpp Require Import base option list gmap.

Open Scope Z_scope.

(** ** Machine words *)

Definition to_ULONG (z : Z) : Z := z mod 2 ^ 32.

Definition to_LONG (z : Z) : Z := (z + 2 ^ 31) mod 2 ^ 32 - 2 ^ 31.

(** [x << n] on a 32-bit operand. *)
Definition shl32 (x n : Z) : Z := to_ULONG (Z.shiftl x n).

(** [x & ~m] on 32-bit operands. *)
Definition clear_bits (x m : Z) : Z := to_ULONG (Z.land x (Z.lnot m)).

(** ** How a routine can end *)

Inductive Outcome (S A : Type) : Type :=
| Returns (a : A) (s : S)      (* the routine returns [a], leaving state [s] *)
| Spins                        (* it waits for a lock another actor holds,
                                  or walks on beyond the fuel it was given   *)
| Faults                       (* it reads or calls through a bad pointer,
                                  or frees a block that is not allocated     *)
| BugChecks (code : Z).        (* KeBugCheck                                 *)

Arguments Returns {S A} a s.
Arguments Spins {S A}.
Arguments Faults {S A}.
Arguments BugChecks {S A} code.

(** ** gdiobj.c: data *)

(** One cell of the handle table (GDI_TABLE_ENTRY). The field the source calls
    [Type] is [Type_] here, [Type] being reserved. *)
Record GDI_TABLE_ENTRY : Type := mkEntry {
  KernelData : Z;
  ProcessId : Z;
  Type_ : Z;
  UserData : Z
}.

(** The header every body starts with (BASEOBJECT). *)
Record BASEOBJECT : Type := mkBody {
  hHmgr : Z;
  ulShareCount : Z;
  cExclusiveLock : Z;
  Tid : Z;
  BaseFlags : Z
}.

(** The handle table together with the pool the bodies live in and the handle
    count of the calling process ([None] when the process has no Win32
    process block, the case the source tests with [W32Process != NULL]). *)
Record GDI_STATE : Type := mkGdi {
  Entries : list GDI_TABLE_ENTRY;
  FirstFree : Z;
  FirstUnused : Z;
  Objects : gmap Z BASEOBJECT;
  GDIHandleCount : option Z
}.

(** What the routines take from their surroundings: the two sizes of the
    table that the handle header fixes (the table size and the mask that
    extracts the slot index from a handle), the identity of the caller, and
    the per-type cleanup routines of the type table. *)
Record GDI_ENV : Type := mkGdiEnv {
  GDI_HANDLE_COUNT : Z;
  GDI_HANDLE_INDEX_MASK : Z;
  PsGetCurrentProcessId : Z;
  PsGetCurrentThreadWin32Thread : Z;
  DC_Cleanup : BASEOBJECT -> bool;
  SURFACE_Cleanup : BASEOBJECT -> bool;
  BRUSH_Cleanup : BASEOBJECT -> bool
}.

Definition RESERVE_ENTRIES_COUNT : Z := 10.
Definition BASE_OBJTYPE_COUNT : Z := 32.

(** Modelled from the spec: the header that lays out handles and slot type
    fields (ntgdihdl.h) is not among the sources. The spec fixes the shift
    (a handle's upper 16 bits are the slot's type field shifted left by 16),
    the parts the upper bits are made of (type, stock-object flag and reuse
    counter) and the parts of the type field (a base type in the upper half,
    a reuse counter that is incremented on free); the positions below are
    the ones of the ReactOS header, which the source agrees with (it builds
    a handle as [(Index & 0xFFFF) | (TypeInfo << GDI_ENTRY_UPPER_SHIFT)] and
    indexes the 32-entry type table with the base type). *)
Definition GDI_HANDLE_TYPE_MASK : Z := 0x007f0000.
Definition GDI_HANDLE_BASETYPE_MASK : Z := 0x001f0000.
Definition GDI_HANDLE_STOCK_MASK : Z := 0x00800000.
Definition GDI_HANDLE_REUSE_MASK : Z := 0xff000000.
Definition GDI_HANDLE_UPPER_MASK : Z :=
  Z.lor (Z.lor GDI_HANDLE_TYPE_MASK GDI_HANDLE_STOCK_MASK) GDI_HANDLE_REUSE_MASK.
Definition GDI_HANDLE_BASETYPE_SHIFT : Z := 16.
Definition GDI_ENTRY_BASETYPE_MASK : Z := 0x001f0000.
Definition GDI_ENTRY_UPPER_SHIFT : Z := 16.
Definition GDI_ENTRY_REUSE_MASK : Z := 0x0000ff00.
Definition GDI_ENTRY_REUSE_INC : Z := 0x00000100.
Definition GDI_ENTRY_REUSECNT_SHIFT : Z := 8.
Definition GDI_OBJECT_TYPE_BRUSH : Z := 0x00100000.
Definition GDI_OBJECT_TYPE_DONTCARE : Z := 0x007f0000.
Definition GDI_OBJECT_TYPE_SILENT : Z := 0x80000000.
Definition BASEFLAG_READY_TO_DIE : Z := 0x1000.

Definition GDI_HANDLE_GET_INDEX (E : GDI_ENV) (h : Z) : Z :=
  Z.land h (GDI_HANDLE_INDEX_MASK E).
Definition GDI_HANDLE_GET_TYPE (h : Z) : Z := Z.land h GDI_HANDLE_TYPE_MASK.
Definition GDI_HANDLE_GET_UPPER (h : Z) : Z := Z.land h GDI_HANDLE_UPPER_MASK.
Definition GDI_HANDLE_IS_STOCKOBJ (h : Z) : bool :=
  negb (Z.land h GDI_HANDLE_STOCK_MASK =? 0).
Definition GDI_ENTRY_GET_REUSECNT (e : Z) : Z :=
  Z.shiftr (Z.land e GDI_ENTRY_REUSE_MASK) GDI_ENTRY_REUSECNT_SHIFT.
Definition GDI_OBJECT_GET_TYPE_INDEX (t : Z) : Z :=
  Z.shiftr (Z.land t GDI_HANDLE_BASETYPE_MASK) GDI_HANDLE_BASETYPE_SHIFT.

(** [&GdiHandleTable->Entries[i]]: [None] when [i] is outside the array. *)
Definition entry_at (s : GDI_STATE) (i : Z) : option GDI_TABLE_ENTRY :=
  if i <? 0 then None else Entries s !! Z.to_nat i.

Definition set_entry (s : GDI_STATE) (i : Z) (e : GDI_TABLE_ENTRY) : GDI_STATE :=
  mkGdi (<[Z.to_nat i := e]> (Entries s)) (FirstFree s) (FirstUnused s)
        (Objects s) (GDIHandleCount s).

Definition set_object (s : GDI_STATE) (p : Z) (o : BASEOBJECT) : GDI_STATE :=
  mkGdi (Entries s) (FirstFree s) (FirstUnused s) (<[p := o]> (Objects s))
        (GDIHandleCount s).

Definition free_object (s : GDI_STATE) (p : Z) : GDI_STATE :=
  mkGdi (Entries s) (FirstFree s) (FirstUnused s) (delete p (Objects s))
        (GDIHandleCount s).

(** [InterlockedIncrement] / [InterlockedDecrement] on the LONG handle count
    of the process block, when there is one. *)
Definition bump_handle_count (d : Z) (s : GDI_STATE) : GDI_STATE :=
  mkGdi (Entries s) (FirstFree s) (FirstUnused s) (Objects s)
        (option_map (fun c => to_LONG (c + d)) (GDIHandleCount s)).

(** The type table [ObjTypeInfo]: only DC (01), SURFACE (05), PALETTE (08)
    and BRUSH (10) carry a cleanup routine, every other entry is reserved
    and its [CleanupProc] is NULL. [GDI_CleanupDummy] returns TRUE. *)
Definition GDI_CleanupDummy (_ : BASEOBJECT) : bool := true.

Definition CleanupProc (E : GDI_ENV) (TypeIndex : Z) : option (BASEOBJECT -> bool) :=
  if TypeIndex =? 0x01 then Some (DC_Cleanup E)
  else if TypeIndex =? 0x05 then Some (SURFACE_Cleanup E)
  else if TypeIndex =? 0x08 then Some GDI_CleanupDummy
  else if TypeIndex =? 0x10 then Some (BRUSH_Cleanup E)
  else None.

(** ** gdiobj.c: routines *)

(** InterlockedPopFreeEntry. With an empty free list the frontier
    [FirstUnused] is bumped (also when the table is full, in which case 0 is
    returned); otherwise the head of the free list is locked, unlinked and
    unlocked. A head that is locked or owned makes the routine wait. *)
Definition InterlockedPopFreeEntry (E : GDI_ENV) (s : GDI_STATE) : Outcome GDI_STATE Z :=
  let idxFirst := FirstFree s in
  if idxFirst =? 0 then
    let bumped := to_ULONG (FirstUnused s + 1) in
    let s' := mkGdi (Entries s) (FirstFree s) bumped (Objects s) (GDIHandleCount s) in
    let idxFirst := to_ULONG (bumped - 1) in
    if GDI_HANDLE_COUNT E <=? idxFirst then Returns 0 s' else Returns idxFirst s'
  else
    match entry_at s idxFirst with
    | None => Faults
    | Some pEntry =>
        if negb (ProcessId pEntry =? 0) then Spins
        else
          let idxNext := KernelData pEntry in
          Returns idxFirst
            (mkGdi (Entries s) idxNext (FirstUnused s) (Objects s) (GDIHandleCount s))
    end.

(** InterlockedPushFreeEntry: the slot's user data is cleared, its
    [KernelData] takes the old head and the slot becomes the head. *)
Definition InterlockedPushFreeEntry (s : GDI_STATE) (idxToFree : Z) : Outcome GDI_STATE unit :=
  match entry_at s idxToFree with
  | None => Faults
  | Some pFreeEntry =>
      let idxFirstFree := FirstFree s in
      let e := mkEntry idxFirstFree (ProcessId pFreeEntry) (Type_ pFreeEntry) 0 in
      let s1 := set_entry s idxToFree e in
      Returns tt (mkGdi (Entries s1) idxToFree (FirstUnused s1) (Objects s1)
                        (GDIHandleCount s1))
  end.

(** GDIOBJ_ValidateHandle. The slot is read only when the handle's type bits
    equal the expected type ([&&] short-circuits); [None] is a read outside
    the table. *)
Definition GDIOBJ_ValidateHandle (E : GDI_ENV) (s : GDI_STATE) (hObj ObjectType : Z)
  : option bool :=
  if Z.land hObj GDI_HANDLE_TYPE_MASK =? ObjectType then
    match entry_at s (GDI_HANDLE_GET_INDEX E hObj) with
    | None => None
    | Some Entry =>
        if shl32 (Type_ Entry) GDI_ENTRY_UPPER_SHIFT =? GDI_HANDLE_GET_UPPER hObj then
          let pid := Z.land (ProcessId Entry) (Z.lnot 1) in
          Some ((pid =? 0) || (pid =? PsGetCurrentProcessId E))
        else Some false
    end
  else Some false.

(** GDIOBJ_AllocObj: the pool hands out [block] (0 when it is exhausted; no
    type uses a lookaside list) and the body is zeroed. *)
Definition GDIOBJ_AllocObj (s : GDI_STATE) (block : Z) : Z * GDI_STATE :=
  if block =? 0 then (0, s) else (block, set_object s block (mkBody 0 0 0 0 0)).

(** GDIOBJ_FreeObj: the body goes back to the pool. *)
Definition GDIOBJ_FreeObj (s : GDI_STATE) (Object : Z) : GDI_STATE :=
  free_object s Object.

(** GDIOBJ_AllocObjWithHandle. [block] is what the pool hands out for the
    body. The result is the body's address, 0 for NULL. *)
Definition GDIOBJ_AllocObjWithHandle (E : GDI_ENV) (s : GDI_STATE) (ObjectType block : Z)
  : Outcome GDI_STATE Z :=
  if match GDIHandleCount s with Some c => 0x2710 <=? c | None => false end
  then Returns 0 s
  else
    let TypeIndex := GDI_OBJECT_GET_TYPE_INDEX ObjectType mod 2 ^ 8 in
    let '(newObject, s0) := GDIOBJ_AllocObj s block in
    if newObject =? 0 then Returns 0 s0
    else
      let CurrentProcessId := PsGetCurrentProcessId E in
      let TypeInfo :=
        Z.lor (Z.land ObjectType GDI_HANDLE_BASETYPE_MASK)
              (Z.shiftr ObjectType GDI_ENTRY_UPPER_SHIFT) in
      match InterlockedPopFreeEntry E s0 with
      | Returns Index s1 =>
          if negb (Index =? 0) then
            match entry_at s1 Index with
            | None => Faults
            | Some Entry =>
                if ProcessId Entry =? 0 then
                  let Thread := PsGetCurrentThreadWin32Thread E in
                  let TypeInfo := Z.lor TypeInfo (Z.land (Type_ Entry) GDI_ENTRY_REUSE_MASK) in
                  let Handle := Z.lor (Z.land Index 0xFFFF) (shl32 TypeInfo GDI_ENTRY_UPPER_SHIFT) in
                  let s2 := set_entry s1 Index
                              (mkEntry newObject CurrentProcessId TypeInfo (UserData Entry)) in
                  match Objects s2 !! newObject with
                  | None => Faults
                  | Some body =>
                      let s3 := set_object s2 newObject
                                  (mkBody Handle 0 1 Thread (BaseFlags body)) in
                      Returns newObject (bump_handle_count 1 s3)
                  end
                else Spins
            end
          else Returns 0 (GDIOBJ_FreeObj s1 newObject)
      | Spins => Spins
      | Faults => Faults
      | BugChecks c => BugChecks c
      end.

(** GDIOBJ_FreeObjByHandle. [ExpectedType] may carry GDI_OBJECT_TYPE_SILENT,
    which only silences the log. *)
Definition GDIOBJ_FreeObjByHandle (E : GDI_ENV) (s : GDI_STATE) (hObj ExpectedType : Z)
  : Outcome GDI_STATE bool :=
  if GDI_HANDLE_IS_STOCKOBJ hObj then Returns false s
  else
    let ProcessId_ := PsGetCurrentProcessId E in
    let LockedProcessId := Z.lor ProcessId_ 1 in
    let ExpectedType := clear_bits ExpectedType GDI_OBJECT_TYPE_SILENT in
    let HandleType := GDI_HANDLE_GET_TYPE hObj in
    let HandleUpper := GDI_HANDLE_GET_UPPER hObj in
    if (negb (ExpectedType =? GDI_OBJECT_TYPE_DONTCARE) && negb (HandleType =? ExpectedType))
       || (HandleType =? 0)
    then Returns false s
    else
      let idx := GDI_HANDLE_GET_INDEX E hObj in
      match entry_at s idx with
      | None => Faults
      | Some Entry =>
          let PrevProcId := ProcessId Entry in
          if PrevProcId =? ProcessId_ then
            if negb (KernelData Entry =? 0)
               && (shl32 (Type_ Entry) GDI_ENTRY_UPPER_SHIFT =? HandleUpper)
               && (Z.land (Type_ Entry) GDI_ENTRY_BASETYPE_MASK
                   =? Z.land HandleUpper GDI_ENTRY_BASETYPE_MASK)
            then
              match Objects s !! KernelData Entry with
              | None => Faults
              | Some Object =>
                  if ((cExclusiveLock Object =? 0)
                      || (Tid Object =? PsGetCurrentThreadWin32Thread E))
                     && (ulShareCount Object =? 0)
                  then
                    (* clear the base type, increment the reuse counter, unlock *)
                    let freed :=
                      mkEntry (KernelData Entry) 0
                              (clear_bits (to_ULONG (Type_ Entry + GDI_ENTRY_REUSE_INC))
                                          GDI_ENTRY_BASETYPE_MASK)
                              (UserData Entry) in
                    match InterlockedPushFreeEntry (set_entry s idx freed) idx with
                    | Returns _ s1 =>
                        let dead := mkBody 0 (ulShareCount Object) (cExclusiveLock Object)
                                           (Tid Object) (BaseFlags Object) in
                        let s2 := bump_handle_count (-1) (set_object s1 (KernelData Entry) dead) in
                        let TypeIndex := GDI_OBJECT_GET_TYPE_INDEX HandleType in
                        match CleanupProc E TypeIndex with
                        | None => Faults
                        | Some cleanup =>
                            let Ret := cleanup dead in
                            Returns Ret (GDIOBJ_FreeObj s2 (KernelData Entry))
                        end
                    | Spins => Spins
                    | Faults => Faults
                    | BugChecks c => BugChecks c
                    end
                  else if negb (ulShareCount Object =? 0) then
                    let marked := mkBody (hHmgr Object) (ulShareCount Object)
                                         (cExclusiveLock Object) (Tid Object)
                                         (Z.lor (BaseFlags Object) BASEFLAG_READY_TO_DIE) in
                    Returns false
                      (set_object (set_entry s idx
                                     (mkEntry (KernelData Entry) PrevProcId (Type_ Entry)
                                              (UserData Entry)))
                                  (KernelData Entry) marked)
                  else
                    (* exclusively locked by another thread: unlock, delay, retry *)
                    Spins
              end
            else
              Returns false
                (set_entry s idx
                   (mkEntry (KernelData Entry) PrevProcId (Type_ Entry) (UserData Entry)))
          else if PrevProcId =? LockedProcessId then Spins
          else Returns false s
      end.

(** GDIOBJ_UnlockObjByPtr: [InterlockedDecrement] on the lock depth. The
    result is the new depth read as a signed number ([cLocks]). *)
Definition GDIOBJ_UnlockObjByPtr (s : GDI_STATE) (Object : Z) : Outcome GDI_STATE Z :=
  match Objects s !! Object with
  | None => Faults
  | Some body =>
      let stored := to_ULONG (cExclusiveLock body - 1) in
      let cLocks := to_LONG stored in
      Returns cLocks
        (set_object s Object
           (mkBody (hHmgr body) (ulShareCount body) stored (Tid body) (BaseFlags body)))
  end.

(** The test on the expected type that GDIOBJ_LockObj and
    GDIOBJ_ShareLockObj share. *)
Definition lock_type_mismatch (hObj ExpectedType : Z) : bool :=
  (negb (ExpectedType =? GDI_OBJECT_TYPE_DONTCARE)
   && negb (GDI_HANDLE_GET_TYPE hObj =? ExpectedType))
  || (GDI_HANDLE_GET_TYPE hObj =? 0).

(** GDIOBJ_LockObj: the body's address, 0 for NULL. *)
Definition GDIOBJ_LockObj (E : GDI_ENV) (s : GDI_STATE) (hObj ExpectedType : Z)
  : Outcome GDI_STATE Z :=
  let HandleIndex := GDI_HANDLE_GET_INDEX E hObj in
  let HandleUpper := GDI_HANDLE_GET_UPPER hObj in
  if GDI_HANDLE_COUNT E <=? HandleIndex then Returns 0 s
  else if lock_type_mismatch hObj ExpectedType then Returns 0 s
  else
    match entry_at s HandleIndex with
    | None => Faults
    | Some Entry =>
        let ProcessId_ := Z.land (PsGetCurrentProcessId E) (Z.lnot 1) in
        let HandleProcessId := Z.land (ProcessId Entry) (Z.lnot 1) in
        if negb (ProcessId_ =? HandleProcessId) && negb (HandleProcessId =? 0)
        then Returns 0 s
        else
          let PrevProcId := ProcessId Entry in
          if PrevProcId =? HandleProcessId then
            if negb (KernelData Entry =? 0)
               && (shl32 (Type_ Entry) GDI_ENTRY_UPPER_SHIFT =? HandleUpper)
            then
              match Objects s !! KernelData Entry with
              | None => Faults
              | Some Object =>
                  let Thread := PsGetCurrentThreadWin32Thread E in
                  if cExclusiveLock Object =? 0 then
                    Returns (KernelData Entry)
                      (set_object s (KernelData Entry)
                         (mkBody (hHmgr Object) (ulShareCount Object) 1 Thread
                                 (BaseFlags Object)))
                  else if negb (Tid Object =? Thread) then Spins
                  else
                    Returns (KernelData Entry)
                      (set_object s (KernelData Entry)
                         (mkBody (hHmgr Object) (ulShareCount Object)
                                 (to_ULONG (cExclusiveLock Object + 1)) (Tid Object)
                                 (BaseFlags Object)))
              end
            else Returns 0 s
          else Spins
    end.

(** GDIOBJ_ShareLockObj: the body's address, 0 for NULL. *)
Definition GDIOBJ_ShareLockObj (E : GDI_ENV) (s : GDI_STATE) (hObj ExpectedType : Z)
  : Outcome GDI_STATE Z :=
  let HandleIndex := GDI_HANDLE_GET_INDEX E hObj in
  let HandleUpper := GDI_HANDLE_GET_UPPER hObj in
  if GDI_HANDLE_COUNT E <=? HandleIndex then Returns 0 s
  else if lock_type_mismatch hObj ExpectedType then Returns 0 s
  else
    match entry_at s HandleIndex with
    | None => Faults
    | Some Entry =>
        let ProcessId_ := Z.land (PsGetCurrentProcessId E) (Z.lnot 1) in
        let HandleProcessId := Z.land (ProcessId Entry) (Z.lnot 1) in
        if negb (ProcessId_ =? HandleProcessId) && negb (HandleProcessId =? 0)
        then Returns 0 s
        else
          let PrevProcId := ProcessId Entry in
          if PrevProcId =? HandleProcessId then
            if negb (KernelData Entry =? 0)
               && (HandleUpper =? shl32 (Type_ Entry) GDI_ENTRY_UPPER_SHIFT)
            then
              match Objects s !! KernelData Entry with
              | None => Faults
              | Some Object =>
                  Returns (KernelData Entry)
                    (set_object s (KernelData Entry)
                       (mkBody (hHmgr Object) (to_ULONG (ulShareCount Object + 1))
                               (cExclusiveLock Object) (Tid Object) (BaseFlags Object)))
              end
            else Returns 0 s
          else Spins
    end.

(** ** view.c: data *)

(** One mapped window of a file (ROS_VACB). The three list hooks of the
    source are the positions of the VACB's address in the three lists
    below; the memory area belongs to the memory manager. *)
Record ROS_VACB : Type := mkVacb {
  BaseAddress : Z;
  Valid : bool;
  Dirty : bool;
  PageOut : bool;
  MappedCount : Z;
  FileOffset : Z;
  SharedCacheMap : Z;
  ReferenceCount : Z;
  PinCount : Z
}.

(** The per-file aggregate (ROS_SHARED_CACHE_MAP), with the flags of its
    file object. [CacheMapVacbListHead] lists the addresses of its VACBs. *)
Record ROS_SHARED_CACHE_MAP : Type := mkMap {
  SectionSize : Z;
  FileSize : Z;
  DirtyPages : Z;
  CacheMapVacbListHead : list Z;
  FileObjectFlags : Z;
  LazyWriteContext : Z
}.

(** The globals of view.c, the two pools, and the flag of the lazy writer. *)
Record CC_STATE : Type := mkCc {
  Vacbs : gmap Z ROS_VACB;
  CacheMaps : gmap Z ROS_SHARED_CACHE_MAP;
  DirtyVacbListHead : list Z;
  VacbLruListHead : list Z;
  CcTotalDirtyPages : Z;
  LazyWriterScanActive : bool
}.

(** What view.c takes from its surroundings: the two compile-time sizes, the
    lazy-write callback of the file system, the write-back of a window, and
    the memory manager. Each answer may depend on the state of the cache. *)
Record CC_ENV : Type := mkCcEnv {
  VACB_MAPPING_GRANULARITY : Z;
  PAGE_SIZE : Z;
  AcquireForLazyWrite : CC_STATE -> Z -> bool -> bool;
  CcWriteVirtualAddress : CC_STATE -> Z -> Z;
  MmCreateMemoryArea : CC_STATE -> Z -> Z * Z;
  MmRequestPageMemoryConsumer : CC_STATE -> Z -> Z;
  MmCreateVirtualMapping : CC_STATE -> Z -> Z -> Z
}.

(** Modelled from the spec: the status codes, NT_SUCCESS, the bug-check
    codes and the flag of a temporary file are declared in headers that are
    not among the sources. The spec names the statuses (ok,
    invalid_parameter, end_of_file, media_write_protected, unsuccessful); the
    values are the ones of NT. NTSTATUS is a LONG, read here as a signed
    number, and a status is a success when it is not negative. *)
Definition STATUS_SUCCESS : Z := 0.
Definition STATUS_UNSUCCESSFUL : Z := to_LONG 0xC0000001.
Definition STATUS_INVALID_PARAMETER : Z := to_LONG 0xC000000D.
Definition STATUS_END_OF_FILE : Z := to_LONG 0xC0000011.
Definition STATUS_MEDIA_WRITE_PROTECTED : Z := to_LONG 0xC00000A2.
Definition NT_SUCCESS (Status : Z) : bool := 0 <=? Status.
Definition CACHE_MANAGER : Z := 0x34.
Definition MEMORY_MANAGEMENT : Z := 0x1A.
Definition FO_TEMPORARY_FILE : Z := 0x8000.
Definition BooleanFlagOn (Flags Flag : Z) : bool := negb (Z.land Flags Flag =? 0).

(** [VACB_MAPPING_GRANULARITY / PAGE_SIZE], the pages of one window. *)
Definition PagesPerVacb (E : CC_ENV) : Z :=
  Z.quot (VACB_MAPPING_GRANULARITY E) (PAGE_SIZE E).

(** Modelled from the spec: the helpers IsPointInRange, ROUND_DOWN and
    BYTES_TO_PAGES come from headers that are not among the sources. A
    window covers the [G] bytes that start at its file offset, and a file
    offset is aligned down to the mapping granularity. *)
Definition IsPointInRange (Offset1 Length1 Point : Z) : bool :=
  (Offset1 <=? Point) && (Point <? Offset1 + Length1).
Definition ROUND_DOWN (n align : Z) : Z := n / align * align.
Definition BYTES_TO_PAGES (E : CC_ENV) (Size : Z) : Z :=
  Z.quot (Size + PAGE_SIZE E - 1) (PAGE_SIZE E).

(** Modelled from the spec: CcScheduleLazyWriteScan lives in another file;
    marking a window dirty schedules the lazy writer, which is then active. *)
Definition CcScheduleLazyWriteScan (s : CC_STATE) : CC_STATE :=
  mkCc (Vacbs s) (CacheMaps s) (DirtyVacbListHead s) (VacbLruListHead s)
       (CcTotalDirtyPages s) true.

(** Sequencing of routines that thread the state. *)
Definition bind {S A B : Type} (m : Outcome S A) (k : A -> S -> Outcome S B)
  : Outcome S B :=
  match m with
  | Returns a s => k a s
  | Spins => Spins
  | Faults => Faults
  | BugChecks c => BugChecks c
  end.

Notation "'call' x 'in' s <- m ; k" := (bind m (fun x s => k))
  (at level 10, x name, s name, m at level 100, k at level 200, only parsing).

(** The intrusive lists, as lists of addresses. *)
Definition InsertTailList (l : list Z) (p : Z) : list Z := l ++ [p].
Definition InsertHeadList (l : list Z) (p : Z) : list Z := p :: l.
Definition RemoveEntryList (l : list Z) (p : Z) : list Z :=
  List.filter (fun q => negb (q =? p)) l.

(** [InsertHeadList(&previous->CacheMapVacbListEntry, entry)]: right after
    [previous]. *)
Fixpoint InsertAfter (l : list Z) (previous p : Z) : list Z :=
  match l with
  | [] => [p]
  | q :: rest => if q =? previous then q :: p :: rest
                 else q :: InsertAfter rest previous p
  end.

Definition set_vacb (s : CC_STATE) (p : Z) (v : ROS_VACB) : CC_STATE :=
  mkCc (<[p := v]> (Vacbs s)) (CacheMaps s) (DirtyVacbListHead s)
       (VacbLruListHead s) (CcTotalDirtyPages s) (LazyWriterScanActive s).

Definition set_map (s : CC_STATE) (p : Z) (m : ROS_SHARED_CACHE_MAP) : CC_STATE :=
  mkCc (Vacbs s) (<[p := m]> (CacheMaps s)) (DirtyVacbListHead s)
       (VacbLruListHead s) (CcTotalDirtyPages s) (LazyWriterScanActive s).

Definition set_dirty_list (s : CC_STATE) (l : list Z) : CC_STATE :=
  mkCc (Vacbs s) (CacheMaps s) l (VacbLruListHead s) (CcTotalDirtyPages s)
       (LazyWriterScanActive s).

Definition set_lru_list (s : CC_STATE) (l : list Z) : CC_STATE :=
  mkCc (Vacbs s) (CacheMaps s) (DirtyVacbListHead s) l (CcTotalDirtyPages s)
       (LazyWriterScanActive s).

Definition set_total_dirty (s : CC_STATE) (n : Z) : CC_STATE :=
  mkCc (Vacbs s) (CacheMaps s) (DirtyVacbListHead s) (VacbLruListHead s) n
       (LazyWriterScanActive s).

Definition with_ReferenceCount (v : ROS_VACB) (n : Z) : ROS_VACB :=
  mkVacb (BaseAddress v) (Valid v) (Dirty v) (PageOut v) (MappedCount v)
         (FileOffset v) (SharedCacheMap v) n (PinCount v).
Definition with_MappedCount (v : ROS_VACB) (n : Z) : ROS_VACB :=
  mkVacb (BaseAddress v) (Valid v) (Dirty v) (PageOut v) n
         (FileOffset v) (SharedCacheMap v) (ReferenceCount v) (PinCount v).
Definition with_Valid (v : ROS_VACB) (b : bool) : ROS_VACB :=
  mkVacb (BaseAddress v) b (Dirty v) (PageOut v) (MappedCount v)
         (FileOffset v) (SharedCacheMap v) (ReferenceCount v) (PinCount v).
Definition with_Dirty (v : ROS_VACB) (b : bool) : ROS_VACB :=
  mkVacb (BaseAddress v) (Valid v) b (PageOut v) (MappedCount v)
         (FileOffset v) (SharedCacheMap v) (ReferenceCount v) (PinCount v).
Definition with_BaseAddress (v : ROS_VACB) (a : Z) : ROS_VACB :=
  mkVacb a (Valid v) (Dirty v) (PageOut v) (MappedCount v)
         (FileOffset v) (SharedCacheMap v) (ReferenceCount v) (PinCount v).
Definition with_DirtyPages (m : ROS_SHARED_CACHE_MAP) (n : Z) : ROS_SHARED_CACHE_MAP :=
  mkMap (SectionSize m) (FileSize m) n (CacheMapVacbListHead m)
        (FileObjectFlags m) (LazyWriteContext m).
Definition with_VacbList (m : ROS_SHARED_CACHE_MAP) (l : list Z) : ROS_SHARED_CACHE_MAP :=
  mkMap (SectionSize m) (FileSize m) (DirtyPages m) l
        (FileObjectFlags m) (LazyWriteContext m).

(** ** view.c: routines *)

(** CcRosInternalFreeVacb: the window goes back to the lookaside list (its
    memory area, which belongs to the memory manager, is handed to
    MmFreeMemoryArea). *)
Definition CcRosInternalFreeVacb (s : CC_STATE) (Vacb : Z) : CC_STATE :=
  mkCc (delete Vacb (Vacbs s)) (CacheMaps s) (DirtyVacbListHead s)
       (VacbLruListHead s) (CcTotalDirtyPages s) (LazyWriterScanActive s).

Definition CcRosVacbIncRefCount (s : CC_STATE) (vacb : Z) : Outcome CC_STATE Z :=
  match Vacbs s !! vacb with
  | None => Faults
  | Some v =>
      let Refs := to_ULONG (ReferenceCount v + 1) in
      Returns Refs (set_vacb s vacb (with_ReferenceCount v Refs))
  end.

Definition CcRosVacbDecRefCount (s : CC_STATE) (vacb : Z) : Outcome CC_STATE Z :=
  match Vacbs s !! vacb with
  | None => Faults
  | Some v =>
      let Refs := to_ULONG (ReferenceCount v - 1) in
      let s1 := set_vacb s vacb (with_ReferenceCount v Refs) in
      if Refs =? 0 then Returns Refs (CcRosInternalFreeVacb s1 vacb)
      else Returns Refs s1
  end.

Definition CcRosVacbGetRefCount (s : CC_STATE) (vacb : Z) : Outcome CC_STATE Z :=
  match Vacbs s !! vacb with
  | None => Faults
  | Some v => Returns (ReferenceCount v) s
  end.

(** CcRosMarkDirtyVacb. *)
Definition CcRosMarkDirtyVacb (E : CC_ENV) (s : CC_STATE) (Vacb : Z) : Outcome CC_STATE unit :=
  match Vacbs s !! Vacb with
  | None => Faults
  | Some v =>
      match CacheMaps s !! SharedCacheMap v with
      | None => Faults
      | Some m =>
          let s1 := set_dirty_list s (InsertTailList (DirtyVacbListHead s) Vacb) in
          let s2 := set_total_dirty s1 (to_ULONG (CcTotalDirtyPages s1 + PagesPerVacb E)) in
          let s3 := set_map s2 (SharedCacheMap v)
                      (with_DirtyPages m (to_ULONG (DirtyPages m + PagesPerVacb E))) in
          call _ in s4 <- CcRosVacbIncRefCount s3 Vacb;
          let s5 := set_lru_list s4
                      (InsertTailList (RemoveEntryList (VacbLruListHead s4) Vacb) Vacb) in
          match Vacbs s5 !! Vacb with
          | None => Faults
          | Some v5 =>
              let s6 := set_vacb s5 Vacb (with_Dirty v5 true) in
              Returns tt (if LazyWriterScanActive s6 then s6
                          else CcScheduleLazyWriteScan s6)
          end
      end
  end.

(** CcRosUnmarkDirtyVacb (the locks taken under [LockViews] have no effect
    on the state). *)
Definition CcRosUnmarkDirtyVacb (E : CC_ENV) (s : CC_STATE) (Vacb : Z) : Outcome CC_STATE unit :=
  match Vacbs s !! Vacb with
  | None => Faults
  | Some v =>
      let s1 := set_vacb s Vacb (with_Dirty v false) in
      let s2 := set_dirty_list s1 (RemoveEntryList (DirtyVacbListHead s1) Vacb) in
      let s3 := set_total_dirty s2 (to_ULONG (CcTotalDirtyPages s2 - PagesPerVacb E)) in
      match CacheMaps s3 !! SharedCacheMap v with
      | None => Faults
      | Some m =>
          let s4 := set_map s3 (SharedCacheMap v)
                      (with_DirtyPages m (to_ULONG (DirtyPages m - PagesPerVacb E))) in
          call _ in s5 <- CcRosVacbDecRefCount s4 Vacb;
          Returns tt s5
      end
  end.

(** CcRosFlushVacb. *)
Definition CcRosFlushVacb (E : CC_ENV) (s : CC_STATE) (Vacb : Z) : Outcome CC_STATE Z :=
  let Status := CcWriteVirtualAddress E s Vacb in
  if NT_SUCCESS Status then
    call _ in s1 <- CcRosUnmarkDirtyVacb E s Vacb;
    Returns Status s1
  else Returns Status s.

(** CcRosReleaseVacb. *)
Definition CcRosReleaseVacb (E : CC_ENV) (s : CC_STATE) (SharedCacheMap_ Vacb : Z)
  (Valid_ Dirty_ Mapped : bool) : Outcome CC_STATE Z :=
  match Vacbs s !! Vacb with
  | None => Faults
  | Some v =>
      let s1 := set_vacb s Vacb (with_Valid v Valid_) in
      call _ in s2 <- (if Dirty_ && negb (Dirty v) then CcRosMarkDirtyVacb E s1 Vacb
                       else Returns tt s1);
      call _ in s3 <-
        (if Mapped then
           match Vacbs s2 !! Vacb with
           | None => Faults
           | Some v2 =>
               let n := to_ULONG (MappedCount v2 + 1) in
               let s2' := set_vacb s2 Vacb (with_MappedCount v2 n) in
               if n =? 1 then
                 call _ in s2'' <- CcRosVacbIncRefCount s2' Vacb; Returns tt s2''
               else Returns tt s2'
           end
         else Returns tt s2);
      call Refs in s4 <- CcRosVacbDecRefCount s3 Vacb;
      Returns STATUS_SUCCESS s4
  end.

(** The walk of CcRosLookupVacb over the list of a map. *)
Fixpoint lookup_walk (E : CC_ENV) (s : CC_STATE) (l : list Z) (FileOffset_ : Z)
  : Outcome CC_STATE Z :=
  match l with
  | [] => Returns 0 s
  | current :: rest =>
      match Vacbs s !! current with
      | None => Faults
      | Some c =>
          if IsPointInRange (FileOffset c) (VACB_MAPPING_GRANULARITY E) FileOffset_ then
            call _ in s1 <- CcRosVacbIncRefCount s current;
            Returns current s1
          else if FileOffset_ <? FileOffset c then Returns 0 s
          else lookup_walk E s rest FileOffset_
      end
  end.

(** CcRosLookupVacb: the window of the map that covers the offset, with one
    more reference, or NULL (0). *)
Definition CcRosLookupVacb (E : CC_ENV) (s : CC_STATE) (SharedCacheMap_ FileOffset_ : Z)
  : Outcome CC_STATE Z :=
  match CacheMaps s !! SharedCacheMap_ with
  | None => Faults
  | Some m => lookup_walk E s (CacheMapVacbListHead m) FileOffset_
  end.

(** CcRosMarkDirtyFile. *)
Definition CcRosMarkDirtyFile (E : CC_ENV) (s : CC_STATE) (SharedCacheMap_ FileOffset_ : Z)
  : Outcome CC_STATE Z :=
  call Vacb in s1 <- CcRosLookupVacb E s SharedCacheMap_ FileOffset_;
  if Vacb =? 0 then BugChecks CACHE_MANAGER
  else
    match Vacbs s1 !! Vacb with
    | None => Faults
    | Some v =>
        call _ in s2 <- CcRosReleaseVacb E s1 SharedCacheMap_ Vacb (Valid v) true false;
        Returns STATUS_SUCCESS s2
    end.

(** The page loop of CcRosMapVacbInKernelSpace: [n] pages from page [i] on.
    A page that cannot be had or mapped is a bug check. *)
Fixpoint map_pages (E : CC_ENV) (s : CC_STATE) (Base i : Z) (n : nat) : option Z :=
  match n with
  | O => None
  | S n' =>
      let PageFrameNumber := MmRequestPageMemoryConsumer E s i in
      if PageFrameNumber =? 0 then Some MEMORY_MANAGEMENT
      else if negb (NT_SUCCESS (MmCreateVirtualMapping E s (Base + i * PAGE_SIZE E)
                                                       PageFrameNumber))
      then Some MEMORY_MANAGEMENT
      else map_pages E s Base (i + 1) n'
  end.

(** CcRosMapVacbInKernelSpace. *)
Definition CcRosMapVacbInKernelSpace (E : CC_ENV) (s : CC_STATE) (Vacb : Z)
  : Outcome CC_STATE Z :=
  match Vacbs s !! Vacb with
  | None => Faults
  | Some v =>
      let '(Status, BaseAddress_) := MmCreateMemoryArea E s Vacb in
      let s1 := set_vacb s Vacb (with_BaseAddress v BaseAddress_) in
      if negb (NT_SUCCESS Status) then Returns Status s1
      else
        let NumberOfPages := BYTES_TO_PAGES E (VACB_MAPPING_GRANULARITY E) in
        match map_pages E s1 BaseAddress_ 0 (Z.to_nat NumberOfPages) with
        | Some code => BugChecks code
        | None => Returns STATUS_SUCCESS s1
        end
  end.

(** The second look of CcRosCreateVacb over the list of the map, under the
    locks: an existing window that covers the offset ([inl]), or the last
    window below the offset, after which the new one goes ([inr]). *)
Fixpoint create_walk (E : CC_ENV) (s : CC_STATE) (l : list Z) (FileOffset_ previous : Z)
  : option (Z + Z) :=
  match l with
  | [] => Some (inr previous)
  | current :: rest =>
      match Vacbs s !! current with
      | None => None
      | Some c =>
          if IsPointInRange (FileOffset c) (VACB_MAPPING_GRANULARITY E) FileOffset_
          then Some (inl current)
          else
            let previous := if FileOffset c <? FileOffset_ then current else previous in
            if FileOffset_ <? FileOffset c then Some (inr previous)
            else create_walk E s rest FileOffset_ previous
      end
  end.

(** [ExFreeToNPagedLookasideList(&VacbLookasideList, ...)]: the block goes
    back to the lookaside list. A block that is not allocated cannot be
    given back. *)
Definition ExFreeToNPagedLookasideList (s : CC_STATE) (Vacb : Z) : Outcome CC_STATE unit :=
  match Vacbs s !! Vacb with
  | None => Faults
  | Some _ =>
      Returns tt (mkCc (delete Vacb (Vacbs s)) (CacheMaps s) (DirtyVacbListHead s)
                       (VacbLruListHead s) (CcTotalDirtyPages s) (LazyWriterScanActive s))
  end.

(** CcRosCreateVacb. [fresh] is the block the lookaside list hands out. The
    result is the status and the window left in [*Vacb] (0 for NULL). When
    the window cannot be mapped the routine drops its reference with
    CcRosVacbDecRefCount, which releases the block as soon as the count is 0
    (CcRosInternalFreeVacb, which also hands the memory area that was never
    created to MmFreeMemoryArea), and then gives the block back itself. *)
Definition CcRosCreateVacb (E : CC_ENV) (s : CC_STATE) (SharedCacheMap_ FileOffset_ fresh : Z)
  : Outcome CC_STATE (Z * Z) :=
  match CacheMaps s !! SharedCacheMap_ with
  | None => Faults
  | Some m =>
      if SectionSize m <=? FileOffset_ then Returns (STATUS_INVALID_PARAMETER, 0) s
      else if fresh =? 0 then Faults
      else
        let new :=
          mkVacb 0 false false false 0
                 (ROUND_DOWN FileOffset_ (VACB_MAPPING_GRANULARITY E))
                 SharedCacheMap_ 0 0 in
        call _ in s1 <- CcRosVacbIncRefCount (set_vacb s fresh new) fresh;
        call Status in s2 <- CcRosMapVacbInKernelSpace E s1 fresh;
        if negb (NT_SUCCESS Status) then
          call _ in s3 <- CcRosVacbDecRefCount s2 fresh;
          call _ in s4 <- ExFreeToNPagedLookasideList s3 fresh;
          Returns (Status, 0) s4
        else
          match CacheMaps s2 !! SharedCacheMap_ with
          | None => Faults
          | Some m2 =>
              match create_walk E s2 (CacheMapVacbListHead m2) FileOffset_ 0 with
              | None => Faults
              | Some (inl current) =>
                  call _ in s3 <- CcRosVacbIncRefCount s2 current;
                  call _ in s4 <- CcRosVacbDecRefCount s3 fresh;
                  Returns (STATUS_SUCCESS, current) s4
              | Some (inr previous) =>
                  let l := if previous =? 0
                           then InsertHeadList (CacheMapVacbListHead m2) fresh
                           else InsertAfter (CacheMapVacbListHead m2) previous fresh in
                  let s3 := set_map s2 SharedCacheMap_ (with_VacbList m2 l) in
                  let s4 := set_lru_list s3 (InsertTailList (VacbLruListHead s3) fresh) in
                  call _ in s5 <- CcRosVacbIncRefCount s4 fresh;
                  Returns (Status, fresh) s5
              end
          end
  end.

(** What CcRosGetVacb hands back through its out-parameters. *)
Record VACB_INFO : Type := mkInfo {
  out_BaseOffset : Z;
  out_BaseAddress : Z;
  out_UptoDate : bool;
  out_Vacb : Z
}.

(** CcRosGetVacb. On failure the out-parameters are left alone (zero here). *)
Definition CcRosGetVacb (E : CC_ENV) (s : CC_STATE) (SharedCacheMap_ FileOffset_ fresh : Z)
  : Outcome CC_STATE (Z * VACB_INFO) :=
  call found in s1 <- CcRosLookupVacb E s SharedCacheMap_ FileOffset_;
  call r in s2 <-
    (if found =? 0 then CcRosCreateVacb E s1 SharedCacheMap_ FileOffset_ fresh
     else Returns (STATUS_SUCCESS, found) s1);
  let '(Status, current) := r in
  if negb (NT_SUCCESS Status) then Returns (Status, mkInfo 0 0 false 0) s2
  else
    call Refs in s3 <- CcRosVacbGetRefCount s2 current;
    let s4 := set_lru_list s3
                (InsertTailList (RemoveEntryList (VacbLruListHead s3) current) current) in
    match Vacbs s4 !! current with
    | None => Faults
    | Some c =>
        Returns (STATUS_SUCCESS,
                 mkInfo (FileOffset c) (BaseAddress c) (Valid c) current) s4
    end.

(** CcRosRequestVacb. An offset that is not a multiple of the granularity is
    a bug check. *)
Definition CcRosRequestVacb (E : CC_ENV) (s : CC_STATE) (SharedCacheMap_ FileOffset_ fresh : Z)
  : Outcome CC_STATE (Z * VACB_INFO) :=
  if negb (Z.rem FileOffset_ (VACB_MAPPING_GRANULARITY E) =? 0)
  then BugChecks CACHE_MANAGER
  else CcRosGetVacb E s SharedCacheMap_ FileOffset_ fresh.

(** The progress accounting of CcRosFlushDirtyPages after a flush that
    returned [Status]: the new [Target] and the new [*Count]. *)
Definition flush_account (E : CC_ENV) (Status Target Count : Z) : Z * Z :=
  if negb (NT_SUCCESS Status)
     && negb (Status =? STATUS_END_OF_FILE)
     && negb (Status =? STATUS_MEDIA_WRITE_PROTECTED)
  then (Target, Count)
  else
    let PagesFreed := PagesPerVacb E in
    let Count := to_ULONG (Count + PagesFreed) in
    if Target <? PagesFreed then (0, Count) else (Target - PagesFreed, Count).

(** One turn of the loop of CcRosFlushDirtyPages on the dirty window
    [current]. The result is the status of the flush when the window was
    flushed ([None] when it was skipped) with the new [Target] and [*Count]. *)
Definition flush_one (E : CC_ENV) (s : CC_STATE) (current : Z) (Target Count : Z)
  (Wait CalledFromLazy : bool) : Outcome CC_STATE (option Z * Z * Z) :=
  call _ in s1 <- CcRosVacbIncRefCount s current;
  match Vacbs s1 !! current with
  | None => Faults
  | Some c =>
      match CacheMaps s1 !! SharedCacheMap c with
      | None => Faults
      | Some m =>
          if CalledFromLazy && BooleanFlagOn (FileObjectFlags m) FO_TEMPORARY_FILE then
            call _ in s2 <- CcRosVacbDecRefCount s1 current;
            Returns (None, Target, Count) s2
          else if negb (AcquireForLazyWrite E s1 (LazyWriteContext m) Wait) then
            call _ in s2 <- CcRosVacbDecRefCount s1 current;
            Returns (None, Target, Count) s2
          else
            call Refs in s2 <- CcRosVacbGetRefCount s1 current;
            if 2 <? Refs then
              call _ in s3 <- CcRosVacbDecRefCount s2 current;
              Returns (None, Target, Count) s3
            else
              call Status in s3 <- CcRosFlushVacb E s2 current;
              call _ in s4 <- CcRosVacbDecRefCount s3 current;
              let '(Target, Count) := flush_account E Status Target Count in
              Returns (Some Status, Target, Count) s4
      end
  end.

(** The loop of CcRosFlushDirtyPages. [pending] is the rest of the dirty
    list from [current_entry] on: a skipped window moves on to the next
    entry, a flushed one restarts from the head of the list. Every restart
    uses one unit of [fuel]. *)
Fixpoint flush_walk (E : CC_ENV) (fuel : nat) (s : CC_STATE) (pending : list Z)
  (Target Count : Z) (Wait CalledFromLazy : bool) {struct fuel} : Outcome CC_STATE Z :=
  match fuel with
  | O => Spins
  | S fuel' =>
      (fix skip (s : CC_STATE) (pending : list Z) {struct pending} : Outcome CC_STATE Z :=
         match pending with
         | [] => Returns Count s
         | current :: rest =>
             if negb (0 <? Target) then Returns Count s
             else
               match flush_one E s current Target Count Wait CalledFromLazy with
               | Returns (None, _, _) s' => skip s' rest
               | Returns (Some _, Target', Count') s' =>
                   flush_walk E fuel' s' (DirtyVacbListHead s') Target' Count'
                              Wait CalledFromLazy
               | Spins => Spins
               | Faults => Faults
               | BugChecks c => BugChecks c
               end
         end) s pending
  end.

(** CcRosFlushDirtyPages: the status and [*Count]. *)
Definition CcRosFlushDirtyPages (E : CC_ENV) (fuel : nat) (s : CC_STATE) (Target : Z)
  (Wait CalledFromLazy : bool) : Outcome CC_STATE (Z * Z) :=
  call Count in s' <- flush_walk E fuel s (DirtyVacbListHead s) Target 0 Wait CalledFromLazy;
  Returns (STATUS_SUCCESS, Count) s'.

(** ** Sample surroundings and states *)

(** GDIOBJ_iAllocHandleTable, when the section can be created and mapped:
    a zeroed table, an empty free list and the frontier behind the reserved
    entries. [count] is the handle count of the calling process. *)
Definition GDIOBJ_iAllocHandleTable (E : GDI_ENV) (count : option Z) : GDI_STATE :=
  mkGdi (repeat (mkEntry 0 0 0 0) (Z.to_nat (GDI_HANDLE_COUNT E)))
        0 RESERVE_ENTRIES_COUNT ∅ count.

(** A table of 16384 slots with 16 index bits in a handle, process 4,
    thread 0x30, and cleanup routines that succeed. *)
Definition demo_env : GDI_ENV :=
  mkGdiEnv 16384 0xFFFF 4 0x30 (fun _ => true) (fun _ => true) (fun _ => true).

Definition demo_table : GDI_STATE := GDIOBJ_iAllocHandleTable demo_env (Some 0).

(** The state of an outcome that returned, [s] otherwise. *)
Definition state_of {A : Type} (s : GDI_STATE) (o : Outcome GDI_STATE A) : GDI_STATE :=
  match o with Returns _ s' => s' | _ => s end.

(** The checks GDIOBJ_FreeObjByHandle makes before it touches the slot, the
    checks it makes on the slot it locked, and the test that decides whether
    the body may go. *)
Definition free_type_check (hObj ExpectedType : Z) : bool :=
  let ExpectedType := clear_bits ExpectedType GDI_OBJECT_TYPE_SILENT in
  negb ((negb (ExpectedType =? GDI_OBJECT_TYPE_DONTCARE)
         && negb (GDI_HANDLE_GET_TYPE hObj =? ExpectedType))
        || (GDI_HANDLE_GET_TYPE hObj =? 0)).

Definition free_slot_check (E : GDI_ENV) (hObj : Z) (e : GDI_TABLE_ENTRY) : bool :=
  (ProcessId e =? PsGetCurrentProcessId E)
  && negb (KernelData e =? 0)
  && (shl32 (Type_ e) GDI_ENTRY_UPPER_SHIFT =? GDI_HANDLE_GET_UPPER hObj)
  && (Z.land (Type_ e) GDI_ENTRY_BASETYPE_MASK
      =? Z.land (GDI_HANDLE_GET_UPPER hObj) GDI_ENTRY_BASETYPE_MASK).

Definition body_unlocked (E : GDI_ENV) (o : BASEOBJECT) : bool :=
  ((cExclusiveLock o =? 0) || (Tid o =? PsGetCurrentThreadWin32Thread E))
  && (ulShareCount o =? 0).

(** The slot's type field once GDIOBJ_FreeObjByHandle has let the body go. *)
Definition freed_type (t : Z) : Z :=
  clear_bits (to_ULONG (t + GDI_ENTRY_REUSE_INC)) GDI_ENTRY_BASETYPE_MASK.

(** [n] rounds of allocating a brush in the block [block] and freeing the
    handle the allocation minted. *)
Fixpoint alloc_free_rounds (E : GDI_ENV) (n : nat) (block : Z) (s : GDI_STATE) : GDI_STATE :=
  match n with
  | O => s
  | S n' =>
      let s1 := state_of s (GDIOBJ_AllocObjWithHandle E s GDI_OBJECT_TYPE_BRUSH block) in
      let h := match Objects s1 !! block with Some b => hHmgr b | None => 0 end in
      let s2 := state_of s1 (GDIOBJ_FreeObjByHandle E s1 h GDI_OBJECT_TYPE_BRUSH) in
      alloc_free_rounds E n' block s2
  end.

(** A cache with windows of 256 KiB and pages of 4 KiB, a file system that
    always grants the lazy write, a memory manager that never runs out, and
    a write-back that returns [write_status]. *)
Definition demo_cc_env (write_status : Z) : CC_ENV :=
  mkCcEnv 0x40000 0x1000
          (fun _ _ _ => true)
          (fun _ _ => write_status)
          (fun _ vacb => (STATUS_SUCCESS, 0x80000000 + vacb * 0x100))
          (fun _ i => i + 1)
          (fun _ _ _ => STATUS_SUCCESS).

(** CcInitView followed by the creation of one shared cache map at address
    0x500 for a file of 1 MiB: empty lists, no dirty pages. *)
Definition demo_cache : CC_STATE :=
  mkCc ∅ {[ 0x500 := mkMap 0x100000 0x100000 0 [] 0 0 ]} [] [] 0 false.

(** The state an outcome of view.c left, [s] when it did not return. *)
Definition cc_state_of {A : Type} (s : CC_STATE) (o : Outcome CC_STATE A) : CC_STATE :=
  match o with Returns _ s' => s' | _ => s end.

(** The statuses CcRosFlushDirtyPages counts as progress. *)
Definition flush_credited (Status : Z) : bool :=
  NT_SUCCESS Status || (Status =? STATUS_END_OF_FILE)
  || (Status =? STATUS_MEDIA_WRITE_PROTECTED).

(** The window CcRosReleaseVacb leaves behind, as long as a reference
    remains: [newly] says that the release made the window dirty and
    [first_map] that it took the mapped count from 0 to 1. *)
Definition released_vacb (v : ROS_VACB) (Valid_ Dirty_ Mapped : bool) : ROS_VACB :=
  let newly := Dirty_ && negb (Dirty v) in
  let mapped := if Mapped then to_ULONG (MappedCount v + 1) else MappedCount v in
  let first_map := Mapped && (to_ULONG (MappedCount v + 1) =? 1) in
  mkVacb (BaseAddress v) Valid_ (Dirty v || Dirty_) (PageOut v) mapped
         (FileOffset v) (SharedCacheMap v)
         (to_ULONG (ReferenceCount v + Z.b2z newly + Z.b2z first_map - 1))
         (PinCount v).

(** A dirty window that holds a single reference, on the lists of its map,
    of the dirty windows and of the LRU. *)
Definition flush_ready : CC_STATE :=
  mkCc {[ 0x900 := mkVacb 0x80090000 true true false 0 0 0x500 1 0 ]}
       {[ 0x500 := mkMap 0x100000 0x100000 64 [0x900] 0 0 ]}
       [0x900] [0x900] 64 true.

(** Two windows of the file at 0x500, each requested and released dirty,
    which leaves a window two references; the second window has then given
    one of them back (CcRosVacbDecRefCount) and is dirty with the single
    reference at which the walk of CcRosFlushDirtyPages writes a window
    back. *)
Definition dirty_pair (E : CC_ENV) : CC_STATE :=
  let s0 := cc_state_of demo_cache (CcRosRequestVacb E demo_cache 0x500 0 0x900) in
  let s1 := cc_state_of s0 (CcRosReleaseVacb E s0 0x500 0x900 true true false) in
  let s2 := cc_state_of s1 (CcRosRequestVacb E s1 0x500 0x40000 0x901) in
  let s3 := cc_state_of s2 (CcRosReleaseVacb E s2 0x500 0x901 true true false) in
  cc_state_of s3 (CcRosVacbDecRefCount s3 0x901).

(** What a routine returned, if it did. *)
Definition result_of {S A : Type} (o : Outcome S A) : option A :=
  match o with Returns a _ => Some a | _ => None end.

(** The reading of validate_handle the specification gives: it succeeds
    exactly when the index is below the table size, the type field shifted
    left by 16 is the handle's upper part, and the owner without its lock
    bit is the caller's process or null. *)
Definition validate_handle_as_specified (E : GDI_ENV) (s : GDI_STATE) (h ty : Z) : Prop :=
  GDIOBJ_ValidateHandle E s h ty = Some true <->
  (GDI_HANDLE_GET_INDEX E h < GDI_HANDLE_COUNT E
   /\ exists e, entry_at s (GDI_HANDLE_GET_INDEX E h) = Some e
      /\ shl32 (Type_ e) 16 = GDI_HANDLE_GET_UPPER h
      /\ (Z.land (ProcessId e) (Z.lnot 1) = 0
          \/ Z.land (ProcessId e) (Z.lnot 1) = PsGetCurrentProcessId E)).

(** The reading of the specification: on a valid handle, one that
    validate_handle accepts for its own type, whose body has a nonzero share
    count, free_by_handle returns false with ready_to_die set in the body,
    and the slot's owner word, its type field and the handle count of the
    process are as before. *)
Definition free_shared_as_specified (E : GDI_ENV) (s : GDI_STATE) (h ty : Z) : Prop :=
  forall e o,
    GDIOBJ_ValidateHandle E s h (GDI_HANDLE_GET_TYPE h) = Some true ->
    entry_at s (GDI_HANDLE_GET_INDEX E h) = Some e ->
    Objects s !! KernelData e = Some o ->
    ulShareCount o <> 0 ->
    exists s' e' o',
      GDIOBJ_FreeObjByHandle E s h ty = Returns false s'
      /\ Objects s' !! KernelData e = Some o'
      /\ Z.land (BaseFlags o') BASEFLAG_READY_TO_DIE = BASEFLAG_READY_TO_DIE
      /\ entry_at s' (GDI_HANDLE_GET_INDEX E h) = Some e'
      /\ ProcessId e' = ProcessId e
      /\ Type_ e' = Type_ e
      /\ GDIHandleCount s' = GDIHandleCount s.

(** A brush in slot 10 that is share-locked once and belongs to no process:
    the brush is allocated by the calling process and share-locked, and the
    owner word of its slot is then 0, which is how the table marks a global
    object. *)
Definition global_shared_brush : GDI_STATE :=
  let s1 := state_of demo_table
              (GDIOBJ_AllocObjWithHandle demo_env demo_table GDI_OBJECT_TYPE_BRUSH 0x1000) in
  let s2 := state_of s1 (GDIOBJ_ShareLockObj demo_env s1 0x0010000A GDI_OBJECT_TYPE_BRUSH) in
  set_entry s2 10 (mkEntry 0x1000 0 0x100010 0).

(** The reading of the specification: freeing a stock handle is a bug check. *)
Definition free_stock_as_specified (E : GDI_ENV) (s : GDI_STATE) (h ty : Z) : Prop :=
  GDI_HANDLE_IS_STOCKOBJ h = true ->
  exists code, GDIOBJ_FreeObjByHandle E s h ty = BugChecks code.

(** What CcRosMarkDirtyVacb leaves: the window at the tail of the dirty list
    and of the LRU list, one more reference, the two page counts raised by
    the pages of a window, and the lazy writer scheduled. *)
Definition marked_dirty (E : CC_ENV) (s : CC_STATE) (p : Z) (v : ROS_VACB)
  (m : ROS_SHARED_CACHE_MAP) : CC_STATE :=
  mkCc (<[p := with_Dirty (with_ReferenceCount v (to_ULONG (ReferenceCount v + 1))) true]>
          (Vacbs s))
       (<[SharedCacheMap v := with_DirtyPages m (to_ULONG (DirtyPages m + PagesPerVacb E))]>
          (CacheMaps s))
       (InsertTailList (DirtyVacbListHead s) p)
       (InsertTailList (RemoveEntryList (VacbLruListHead s) p) p)
       (to_ULONG (CcTotalDirtyPages s + PagesPerVacb E))
       true.

(** GDIOBJ_OwnedByCurrentProcess; [None] is a read outside the table. *)
Definition GDIOBJ_OwnedByCurrentProcess (E : GDI_ENV) (s : GDI_STATE) (ObjectHandle : Z)
  : option bool :=
  if negb (GDI_HANDLE_IS_STOCKOBJ ObjectHandle) then
    match entry_at s (GDI_HANDLE_GET_INDEX E ObjectHandle) with
    | None => None
    | Some Entry =>
        Some (negb (KernelData Entry =? 0)
              && negb (Z.land (Type_ Entry) GDI_ENTRY_BASETYPE_MASK =? 0)
              && (Z.land (ProcessId Entry) (Z.lnot 1) =? PsGetCurrentProcessId E))
    end
  else Some false.

(** IsObjectDead: the slot's base type is zero. *)
Definition IsObjectDead (E : GDI_ENV) (s : GDI_STATE) (hObject : Z) : option bool :=
  match entry_at s (GDI_HANDLE_GET_INDEX E hObject) with
  | None => None
  | Some Entry => Some (Z.land (Type_ Entry) GDI_ENTRY_BASETYPE_MASK =? 0)
  end.

(** The free list as the source threads it: from the head [i] through the
    [KernelData] of each free slot, down to 0. *)
Fixpoint free_chain (s : GDI_STATE) (i : Z) (l : list Z) : Prop :=
  match l with
  | [] => i = 0
  | j :: l' =>
      i = j /\ j <> 0
      /\ exists e, entry_at s j = Some e /\ free_chain s (KernelData e) l'
  end.

(** The shape of the table that GDIOBJ_iAllocHandleTable sets up and that
    allocation and freeing keep: the table has GDI_HANDLE_COUNT slots; the
    frontier is behind the reserved entries; the free list is a chain
    without repetition of unowned slots between the reserved entries and the
    frontier, each with a zero base type; and no slot outside that range has
    an owner. *)
Definition table_inv (E : GDI_ENV) (s : GDI_STATE) : Prop :=
  Z.of_nat (length (Entries s)) = GDI_HANDLE_COUNT E
  /\ RESERVE_ENTRIES_COUNT <= FirstUnused s < 2 ^ 32 - 1
  /\ (forall i e, entry_at s i = Some e ->
        i < RESERVE_ENTRIES_COUNT \/ FirstUnused s <= i -> ProcessId e = 0)
  /\ exists l,
       NoDup l /\ free_chain s (FirstFree s) l
       /\ forall i, In i l ->
            RESERVE_ENTRIES_COUNT <= i < FirstUnused s
            /\ exists e, entry_at s i = Some e /\ ProcessId e = 0
                         /\ Z.land (Type_ e) GDI_ENTRY_BASETYPE_MASK = 0.

(** A table of 12 slots: two past the reserved entries. *)
Definition tiny_env : GDI_ENV :=
  mkGdiEnv 12 0xFFFF 4 0x30 (fun _ => true) (fun _ => true) (fun _ => true).

(** On such a table, two brushes take the two slots. *)
Definition tiny_full_table : GDI_STATE :=
  let s0 := GDIOBJ_iAllocHandleTable tiny_env (Some 0) in
  let s1 := state_of s0 (GDIOBJ_AllocObjWithHandle tiny_env s0 GDI_OBJECT_TYPE_BRUSH 0x1000) in
  state_of s1 (GDIOBJ_AllocObjWithHandle tiny_env s1 GDI_OBJECT_TYPE_BRUSH 0x2000).

(** The handle header and the table agree: the index mask lies inside the
    low 16 bits of a handle and keeps every index of the table. *)
Definition index_mask_fits (E : GDI_ENV) : Prop :=
  0 <= GDI_HANDLE_INDEX_MASK E < 2 ^ 16
  /\ forall i, 0 <= i < GDI_HANDLE_COUNT E -> Z.land i (GDI_HANDLE_INDEX_MASK E) = i.

(** ** view.c: further routines *)

(** CcRosUnmapVacb. The window is read again after the mapping is dropped:
    when that took its last reference the read is of freed memory. *)
Definition CcRosUnmapVacb (E : CC_ENV) (s : CC_STATE) (SharedCacheMap_ FileOffset_ : Z)
  (NowDirty : bool) : Outcome CC_STATE Z :=
  call Vacb in s1 <- CcRosLookupVacb E s SharedCacheMap_ FileOffset_;
  if Vacb =? 0 then Returns STATUS_UNSUCCESSFUL s1
  else
    match Vacbs s1 !! Vacb with
    | None => Faults
    | Some v =>
        let n := to_ULONG (MappedCount v - 1) in
        let s2 := set_vacb s1 Vacb (with_MappedCount v n) in
        call _ in s3 <- (if n =? 0 then
                           call _ in s2' <- CcRosVacbDecRefCount s2 Vacb; Returns tt s2'
                         else Returns tt s2);
        match Vacbs s3 !! Vacb with
        | None => Faults
        | Some v3 =>
            call _ in s4 <- CcRosReleaseVacb E s3 SharedCacheMap_ Vacb (Valid v3) NowDirty
                              false;
            Returns STATUS_SUCCESS s4
        end
    end.

(** What a failed flush leaves in the status block ([None] when the caller
    passed no block). *)
Definition set_io_status (IoStatus : option (Z * Z)) (Status : Z) : option (Z * Z) :=
  match IoStatus with
  | Some (_, Information) => Some (Status, Information)
  | None => None
  end.

(** The loop of CcFlushCache, window by window. Each turn uses one unit of
    [fuel]. *)
Fixpoint flush_cache_walk (E : CC_ENV) (fuel : nat) (s : CC_STATE)
  (SharedCacheMap_ Offset RemainingLength : Z) (IoStatus : option (Z * Z))
  : Outcome CC_STATE (option (Z * Z)) :=
  if negb (0 <? RemainingLength) then Returns IoStatus s
  else
    match fuel with
    | O => Spins
    | S fuel' =>
        call current in s1 <- CcRosLookupVacb E s SharedCacheMap_ Offset;
        call IoStatus' in s2 <-
          (if current =? 0 then Returns IoStatus s1
           else
             match Vacbs s1 !! current with
             | None => Faults
             | Some c =>
                 call IoStatus' in s2 <-
                   (if Dirty c then
                      call Status in s2 <- CcRosFlushVacb E s1 current;
                      Returns (if negb (NT_SUCCESS Status)
                               then set_io_status IoStatus Status
                               else IoStatus) s2
                    else Returns IoStatus s1);
                 match Vacbs s2 !! current with
                 | None => Faults
                 | Some c2 =>
                     call _ in s3 <- CcRosReleaseVacb E s2 SharedCacheMap_ current
                                       (Valid c2) (Dirty c2) false;
                     Returns IoStatus' s3
                 end
             end);
        flush_cache_walk E fuel' s2 SharedCacheMap_
          (Offset + VACB_MAPPING_GRANULARITY E)
          (RemainingLength - Z.min RemainingLength (VACB_MAPPING_GRANULARITY E))
          IoStatus'
    end.

(** CcFlushCache. [SharedCacheMap_] is the map the section pointers lead to
    (0 when there are no section pointers or no map), [FileOffset_] the
    optional offset and [IoStatus] the status block the caller passed, if
    any, as (Status, Information); the result is the block afterwards. The
    loop takes one turn for every window of the range. *)
Definition CcFlushCache (E : CC_ENV) (s : CC_STATE) (SharedCacheMap_ : Z)
  (FileOffset_ : option Z) (Length : Z) (IoStatus : option (Z * Z))
  : Outcome CC_STATE (option (Z * Z)) :=
  if SharedCacheMap_ =? 0 then Returns (set_io_status IoStatus STATUS_INVALID_PARAMETER) s
  else
    match CacheMaps s !! SharedCacheMap_ with
    | None => Faults
    | Some m =>
        let Offset := match FileOffset_ with Some o => o | None => 0 end in
        let RemainingLength := match FileOffset_ with Some _ => Length | None => FileSize m end in
        let IoStatus := match IoStatus with Some _ => Some (STATUS_SUCCESS, 0) | None => None end in
        flush_cache_walk E (Z.to_nat (RemainingLength / VACB_MAPPING_GRANULARITY E + 1)) s
          SharedCacheMap_ Offset RemainingLength IoStatus
    end.

(** ** Shapes of the view cache *)

(** The window [v] covers the file offset [off]. *)
Definition covers (E : CC_ENV) (v : ROS_VACB) (off : Z) : Prop :=
  FileOffset v <= off < FileOffset v + VACB_MAPPING_GRANULARITY E.

(** The list of a map as CcRosCreateVacb builds it: windows that are not
    NULL, at offsets that are multiples of the granularity, each at least a
    whole window above the one before it ([lo] bounds the first from below). *)
Fixpoint map_list_ok (E : CC_ENV) (vs : gmap Z ROS_VACB) (lo : Z) (l : list Z) : Prop :=
  match l with
  | [] => True
  | p :: rest =>
      p <> 0
      /\ exists v, vs !! p = Some v
           /\ lo <= FileOffset v
           /\ FileOffset v mod VACB_MAPPING_GRANULARITY E = 0
           /\ map_list_ok E vs (FileOffset v + VACB_MAPPING_GRANULARITY E) rest
  end.

(** The dirty list, the dirty flags and the global count of dirty pages
    agree: the list has no repetition, holds exactly the windows whose flag
    is set, and the count is the pages of a window times its length. *)
Definition dirty_inv (E : CC_ENV) (s : CC_STATE) : Prop :=
  NoDup (DirtyVacbListHead s)
  /\ (forall p, In p (DirtyVacbListHead s) ->
        exists v, Vacbs s !! p = Some v /\ Dirty v = true)
  /\ (forall p v, Vacbs s !! p = Some v -> Dirty v = true -> In p (DirtyVacbListHead s))
  /\ CcTotalDirtyPages s
     = to_ULONG (PagesPerVacb E * Z.of_nat (length (DirtyVacbListHead s))).

(** A window with one more reference. *)
Definition referenced (v : ROS_VACB) : ROS_VACB :=
  with_ReferenceCount v (to_ULONG (ReferenceCount v + 1)).

(** ** view.c: trimming *)

(** [current_entry->Flink] on a list: the entry after [c] ([Some None] when
    [c] is the last one), [None] when [c] is not on the list. *)
Fixpoint Flink (l : list Z) (c : Z) : option (option Z) :=
  match l with
  | [] => None
  | q :: rest => if q =? c then Some (head rest) else Flink rest c
  end.

(** The page-out loop of CcRosTrimCache on the window [current]: [n] pages
    from page [i] on. [PageOut] is what the memory manager does to the cache
    when it pages out the frame behind an address of the window. *)
Fixpoint page_out (E : CC_ENV) (PageOut : CC_STATE -> Z -> CC_STATE) (s : CC_STATE)
  (current i : Z) (n : nat) : option CC_STATE :=
  match n with
  | O => Some s
  | S n' =>
      match Vacbs s !! current with
      | None => None
      | Some c =>
          page_out E PageOut (PageOut s (BaseAddress c + i * PAGE_SIZE E)) current (i + 1) n'
      end
  end.

(** The walk of CcRosTrimCache over the LRU list, from [current_entry] on
    ([None] is the list head). The result is [Target], [*NrFreed] and the
    local free list. Every window uses one unit of [fuel]. *)
Fixpoint trim_walk (E : CC_ENV) (PageOut : CC_STATE -> Z -> CC_STATE) (fuel : nat)
  (s : CC_STATE) (current_entry : option Z) (Target NrFreed : Z) (FreeList : list Z)
  : Outcome CC_STATE (Z * Z * list Z) :=
  match current_entry with
  | None => Returns (Target, NrFreed, FreeList) s
  | Some current =>
      match fuel with
      | O => Spins
      | S fuel' =>
          match Flink (VacbLruListHead s) current, Vacbs s !! current with
          | Some next, Some c =>
              match CacheMaps s !! SharedCacheMap c with
              | None => Faults
              | Some _ =>
                  call _ in s1 <- CcRosVacbIncRefCount s current;
                  call _ in s2 <-
                    (if (0 <? to_LONG (MappedCount c)) && negb (Dirty c) then
                       match page_out E PageOut s1 current 0 (Z.to_nat (PagesPerVacb E)) with
                       | None => Faults
                       | Some s' => Returns tt s'
                       end
                     else Returns tt s1);
                  call Refs in s3 <- CcRosVacbDecRefCount s2 current;
                  call r in s4 <-
                    (if Refs <? 2 then
                       match Vacbs s3 !! current with
                       | None => Faults
                       | Some c3 =>
                           match CacheMaps s3 !! SharedCacheMap c3 with
                           | None => Faults
                           | Some m =>
                               let s3a := set_map s3 (SharedCacheMap c3)
                                            (with_VacbList m
                                               (RemoveEntryList (CacheMapVacbListHead m)
                                                  current)) in
                               let s3b := set_lru_list s3a
                                            (RemoveEntryList (VacbLruListHead s3a) current) in
                               let PagesFreed := Z.min (PagesPerVacb E) Target in
                               Returns (to_ULONG (Target - PagesFreed),
                                        to_ULONG (NrFreed + PagesFreed),
                                        InsertHeadList FreeList current) s3b
                           end
                       end
                     else Returns (Target, NrFreed, FreeList) s3);
                  let '(Target, NrFreed, FreeList) := r in
                  trim_walk E PageOut fuel' s4 next Target NrFreed FreeList
              end
          | _, _ => Faults
          end
      end
  end.

(** The last loop of CcRosTrimCache: the windows of the local free list
    lose their last reference. *)
Fixpoint trim_drain (s : CC_STATE) (FreeList : list Z) : Outcome CC_STATE unit :=
  match FreeList with
  | [] => Returns tt s
  | current :: rest =>
      call _ in s1 <- CcRosVacbDecRefCount s current;
      trim_drain s1 rest
  end.

(** CcRosTrimCache: the status and [*NrFreed]. After a first walk that did
    not meet the target the dirty pages are flushed once, and when that
    flushed something the walk is taken again. *)
Definition CcRosTrimCache (E : CC_ENV) (PageOut : CC_STATE -> Z -> CC_STATE) (fuel : nat)
  (s : CC_STATE) (Target : Z) : Outcome CC_STATE (Z * Z) :=
  call r in s1 <- trim_walk E PageOut fuel s (head (VacbLruListHead s)) Target 0 [];
  let '(Target, NrFreed, FreeList) := r in
  call r2 in s2 <-
    (if 0 <? Target then
       call fr in s2 <- CcRosFlushDirtyPages E fuel s1 Target false false;
       let PagesFreed := snd fr in
       let Target := if PagesFreed <? Target then PagesFreed else Target in
       if negb (PagesFreed =? 0) then
         trim_walk E PageOut fuel s2 (head (VacbLruListHead s2)) Target NrFreed FreeList
       else Returns (Target, NrFreed, FreeList) s2
     else Returns (Target, NrFreed, FreeList) s1);
  let '(_, NrFreed, FreeList) := r2 in
  call _ in s3 <- trim_drain s2 FreeList;
  Returns (STATUS_SUCCESS, NrFreed) s3.

(** A window at rest: not mapped, with the one reference of its lists, on a
    map that exists. *)
Definition idle_window (s : CC_STATE) (p : Z) : Prop :=
  exists v m, Vacbs s !! p = Some v /\ ReferenceCount v = 1 /\ MappedCount v = 0
              /\ CacheMaps s !! SharedCacheMap v = Some m.

(** Every map of [cm] is still in [cm'], with a list that has lost windows
    at most. *)
Definition maps_shrunk (cm cm' : gmap Z ROS_SHARED_CACHE_MAP) : Prop :=
  forall k m, cm !! k = Some m ->
    exists m', cm' !! k = Some m'
               /\ forall x, In x (CacheMapVacbListHead m') -> In x (CacheMapVacbListHead m).

(** ** gdiobj.c: stock objects *)

(** Modelled from the spec: the stock flag and the flags of a slot's type
    field are declared in the header that is not among the sources. By the
    spec the lower 16 bits of the type field carry the stock flag, and a
    handle's upper 16 bits are those bits shifted left by 16, which puts the
    flag of the slot at GDI_HANDLE_STOCK_MASK >> 16; the source keeps bits
    24 to 31 of the type field as its flags; a global object has no owner. *)
Definition GDI_ENTRY_STOCK_MASK : Z := 0x00000080.
Definition GDI_ENTRY_FLAGS_MASK : Z := 0xff000000.
Definition GDI_GLOBAL_PROCESS : Z := 0.

(** The type GDIOBJ_ConvertToStockObj expects in the slot of [hObj]. *)
Definition stock_OldType (hObj EntryType : Z) : Z :=
  Z.lor (Z.lor (Z.land (to_ULONG hObj) GDI_HANDLE_BASETYPE_MASK)
               (Z.shiftr (to_ULONG hObj) GDI_ENTRY_UPPER_SHIFT))
        (Z.land EntryType GDI_ENTRY_FLAGS_MASK).

(** The loop of GDIOBJ_ConvertToStockObj from [LockHandle] on. Each pass
    uses one unit of [fuel]. [lookup_ok] says whether
    PsLookupProcessByProcessId finds the process of the caller. *)
Fixpoint convert_loop (E : GDI_ENV) (lookup_ok : bool) (fuel : nat) (s : GDI_STATE)
  (hObj : Z) : Outcome GDI_STATE (bool * Z) :=
  match fuel with
  | O => Spins
  | S fuel' =>
      let ProcessId_ := PsGetCurrentProcessId E in
      let LockedProcessId := Z.lor ProcessId_ 1 in
      let idx := GDI_HANDLE_GET_INDEX E hObj in
      match entry_at s idx with
      | None => Faults
      | Some Entry =>
          let PrevProcId := ProcessId Entry in
          if PrevProcId =? ProcessId_ then
            let OldType := stock_OldType hObj (Type_ Entry) in
            let NewType := Z.lor OldType GDI_ENTRY_STOCK_MASK in
            let PrevType := Type_ Entry in
            let Type1 := if PrevType =? OldType then NewType else PrevType in
            let s1 := set_entry s idx
                        (mkEntry (KernelData Entry) LockedProcessId Type1 (UserData Entry)) in
            if (PrevType =? OldType) && negb (KernelData Entry =? 0) then
              match Objects s1 !! KernelData Entry with
              | None => Faults
              | Some Object =>
                  if (cExclusiveLock Object =? 0)
                     || (Tid Object =? PsGetCurrentThreadWin32Thread E)
                  then
                    let s2 := if negb (PrevProcId =? GDI_GLOBAL_PROCESS) && lookup_ok
                              then bump_handle_count (-1) s1 else s1 in
                    let hObj' := Z.lor (to_ULONG hObj) GDI_HANDLE_STOCK_MASK in
                    let s3 := set_object s2 (KernelData Entry)
                                (mkBody hObj' (ulShareCount Object) (cExclusiveLock Object)
                                        (Tid Object) (BaseFlags Object)) in
                    Returns (true, hObj')
                      (set_entry s3 idx
                         (mkEntry (KernelData Entry) GDI_GLOBAL_PROCESS Type1
                                  (UserData Entry)))
                  else
                    convert_loop E lookup_ok fuel'
                      (set_entry s1 idx
                         (mkEntry (KernelData Entry) PrevProcId Type1 (UserData Entry)))
                      hObj
              end
            else Returns (false, hObj) s1
          else if PrevProcId =? LockedProcessId then Spins
          else Returns (false, hObj) s
      end
  end.

(** GDIOBJ_ConvertToStockObj: the result and the handle left in [*phObj]. *)
Definition GDIOBJ_ConvertToStockObj (E : GDI_ENV) (lookup_ok : bool) (fuel : nat)
  (s : GDI_STATE) (hObj : Z) : Outcome GDI_STATE (bool * Z) :=
  if negb (GDI_HANDLE_IS_STOCKOBJ hObj) then convert_loop E lookup_ok fuel s hObj
  else Returns (false, hObj) s.

(** * Properties *)

(** ** Words *)

Lemma pow2_16_32 : 2 ^ 32 = 2 ^ 16 * 2 ^ 16.
Proof. reflexivity. Qed.

Lemma shl32_16 (t : Z) : shl32 t 16 = (t mod 2 ^ 16) * 2 ^ 16.
Proof.
  unfold shl32, to_ULONG. rewrite Z.shiftl_mul_pow2 by lia.
  rewrite pow2_16_32. rewrite Z.mul_mod_distr_r by lia. reflexivity.
Qed.

Lemma land_low16 (a m : Z) :
  Z.land m (Z.ones 16) = Z.ones 16 -> (Z.land a m) mod 2 ^ 16 = a mod 2 ^ 16.
Proof.
  intros Hm. rewrite <- !Z.land_ones by lia.
  rewrite <- Z.land_assoc, Hm. reflexivity.
Qed.

Lemma mod32_mod16 (a : Z) : (a mod 2 ^ 32) mod 2 ^ 16 = a mod 2 ^ 16.
Proof.
  rewrite <- !Z.land_ones by lia. rewrite <- Z.land_assoc. reflexivity.
Qed.

Lemma freed_type_low16 (t : Z) : freed_type t mod 2 ^ 16 = (t + 256) mod 2 ^ 16.
Proof.
  unfold freed_type, clear_bits, to_ULONG, GDI_ENTRY_REUSE_INC.
  rewrite mod32_mod16. rewrite land_low16 by reflexivity.
  apply mod32_mod16.
Qed.

Lemma reusecnt_div (x : Z) : GDI_ENTRY_GET_REUSECNT x = (x / 2 ^ 8) mod 2 ^ 8.
Proof.
  unfold GDI_ENTRY_GET_REUSECNT, GDI_ENTRY_REUSE_MASK, GDI_ENTRY_REUSECNT_SHIFT.
  rewrite Z.shiftr_land. change (Z.shiftr 65280 8) with (Z.ones 8).
  rewrite Z.land_ones by lia. rewrite Z.shiftr_div_pow2 by lia. reflexivity.
Qed.

Lemma reusecnt_low16 (x : Z) :
  GDI_ENTRY_GET_REUSECNT x = (x mod 2 ^ 16) / 2 ^ 8.
Proof.
  rewrite reusecnt_div.
  change (2 ^ 16) with (2 ^ 8 * 2 ^ 8).
  rewrite Z.rem_mul_r by lia.
  rewrite Z.mul_comm, Z.div_add by lia.
  rewrite (Z.div_small (x mod 2 ^ 8)) by (apply Z.mod_pos_bound; lia).
  reflexivity.
Qed.

Lemma freed_type_basetype (t : Z) : Z.land (freed_type t) GDI_ENTRY_BASETYPE_MASK = 0.
Proof.
  unfold freed_type, clear_bits, to_ULONG.
  rewrite <- Z.land_ones by lia.
  rewrite <- !Z.land_assoc.
  change (Z.land (Z.lnot GDI_ENTRY_BASETYPE_MASK)
            (Z.land (Z.ones 32) GDI_ENTRY_BASETYPE_MASK)) with 0.
  apply Z.land_0_r.
Qed.

Lemma freed_type_reusecnt (t : Z) :
  GDI_ENTRY_GET_REUSECNT (freed_type t) = (GDI_ENTRY_GET_REUSECNT t + 1) mod 2 ^ 8.
Proof.
  rewrite (reusecnt_low16 (freed_type t)), freed_type_low16, reusecnt_div.
  change (2 ^ 16) with 65536. change (2 ^ 8) with 256.
  Z.to_euclidean_division_equations. lia.
Qed.

Lemma freed_type_shl (t : Z) : shl32 (freed_type t) 16 <> shl32 t 16.
Proof.
  rewrite !shl32_16, freed_type_low16.
  change (2 ^ 16) with 65536.
  Z.to_euclidean_division_equations. lia.
Qed.

(** ** The handle table *)

Lemma entry_at_set_entry_eq (s : GDI_STATE) (i : Z) (e e0 : GDI_TABLE_ENTRY) :
  entry_at s i = Some e0 -> entry_at (set_entry s i e) i = Some e.
Proof.
  unfold entry_at, set_entry. simpl.
  destruct (i <? 0); [discriminate|].
  intros H. apply list_lookup_insert_eq. eapply lookup_lt_Some; eauto.
Qed.

Lemma set_entry_same (s : GDI_STATE) (i : Z) (e : GDI_TABLE_ENTRY) :
  entry_at s i = Some e ->
  set_entry s i (mkEntry (KernelData e) (ProcessId e) (Type_ e) (UserData e)) = s.
Proof.
  unfold entry_at, set_entry. destruct (i <? 0); [discriminate|].
  intros H. destruct e; simpl. rewrite list_insert_id by exact H.
  destruct s; reflexivity.
Qed.

(** What GDIOBJ_FreeObjByHandle does on the path that lets the body go. *)
Lemma free_path (E : GDI_ENV) (s : GDI_STATE) (h ty : Z) (e : GDI_TABLE_ENTRY)
  (o : BASEOBJECT) (cleanup : BASEOBJECT -> bool) :
  GDI_HANDLE_IS_STOCKOBJ h = false ->
  free_type_check h ty = true ->
  entry_at s (GDI_HANDLE_GET_INDEX E h) = Some e ->
  free_slot_check E h e = true ->
  Objects s !! KernelData e = Some o ->
  body_unlocked E o = true ->
  CleanupProc E (GDI_OBJECT_GET_TYPE_INDEX (GDI_HANDLE_GET_TYPE h)) = Some cleanup ->
  exists ret s',
    GDIOBJ_FreeObjByHandle E s h ty = Returns ret s'
    /\ entry_at s' (GDI_HANDLE_GET_INDEX E h)
       = Some (mkEntry (FirstFree s) 0 (freed_type (Type_ e)) 0)
    /\ FirstFree s' = GDI_HANDLE_GET_INDEX E h
    /\ Objects s' !! KernelData e = None
    /\ GDIHandleCount s' = option_map (fun c => to_LONG (c - 1)) (GDIHandleCount s).
Proof.
  intros Hstock Hty He Hslot Ho Hun Hcl.
  unfold free_type_check in Hty. apply negb_true_iff in Hty.
  unfold free_slot_check in Hslot.
  apply andb_true_iff in Hslot as [Hslot Hd].
  apply andb_true_iff in Hslot as [Hslot Hc].
  apply andb_true_iff in Hslot as [Ha Hb].
  unfold body_unlocked in Hun.
  unfold GDIOBJ_FreeObjByHandle.
  rewrite Hstock. cbv zeta. rewrite Hty, He, Ha, Hb, Hc, Hd.
  change (true && true && true) with true. cbv iota. rewrite Ho, Hun.
  set (freed := mkEntry (KernelData e) 0 _ (UserData e)).
  unfold InterlockedPushFreeEntry.
  rewrite (entry_at_set_entry_eq s _ freed e He).
  cbv zeta. rewrite Hcl.
  eexists _, _. split; [reflexivity|].
  unfold GDIOBJ_FreeObj, free_object, bump_handle_count, set_object, set_entry,
    entry_at in *.
  cbn [Entries FirstFree FirstUnused Objects GDIHandleCount KernelData
       ProcessId Type_ UserData].
  destruct (GDI_HANDLE_GET_INDEX E h <? 0); [discriminate|].
  assert (Hlt : (Z.to_nat (GDI_HANDLE_GET_INDEX E h) < length (Entries s))%nat)
    by (eapply lookup_lt_Some; eauto).
  repeat split.
  - rewrite list_lookup_insert_eq by (rewrite length_insert; exact Hlt).
    reflexivity.
  - apply lookup_delete_eq.
Qed.

(** C1, as stated, fails: the handle of a live brush of the calling process
    passes the three listed checks, and GDIOBJ_ValidateHandle rejects it when
    it is asked for a DC, because it also compares the handle's type bits
    with the expected type. *)
Lemma C1_validate_handle_counterexample :
  ~ validate_handle_as_specified demo_env
      (state_of demo_table
         (GDIOBJ_AllocObjWithHandle demo_env demo_table GDI_OBJECT_TYPE_BRUSH 0x1000))
      0x0010000A 0x00010000.
Proof.
  unfold validate_handle_as_specified. intros [_ H].
  assert (Hf : GDIOBJ_ValidateHandle demo_env
                 (state_of demo_table
                    (GDIOBJ_AllocObjWithHandle demo_env demo_table
                       GDI_OBJECT_TYPE_BRUSH 0x1000))
                 0x0010000A 0x00010000 = Some false) by (vm_compute; reflexivity).
  rewrite Hf in H. enough (Some false = Some true) by discriminate.
  apply H. split; [vm_compute; reflexivity|].
  exists (mkEntry 0x1000 4 0x100010 0).
  repeat split; try (vm_compute; reflexivity).
  right. vm_compute. reflexivity.
Qed.

(** C1, amended: on a table of GDI_HANDLE_COUNT slots and for a handle whose
    slot index is inside the table, GDIOBJ_ValidateHandle returns, and it
    succeeds exactly when the handle's type bits equal the expected type,
    the slot's type field shifted left by 16 equals the handle's upper part,
    and the slot's owner with the lock bit masked off is null or the calling
    process. *)
Theorem C1_validate_handle_checks (E : GDI_ENV) (s : GDI_STATE) (h ty : Z) :
  Z.of_nat (length (Entries s)) = GDI_HANDLE_COUNT E ->
  0 <= GDI_HANDLE_GET_INDEX E h < GDI_HANDLE_COUNT E ->
  exists e b,
    entry_at s (GDI_HANDLE_GET_INDEX E h) = Some e
    /\ GDIOBJ_ValidateHandle E s h ty = Some b
    /\ (b = true <->
        Z.land h GDI_HANDLE_TYPE_MASK = ty
        /\ shl32 (Type_ e) 16 = GDI_HANDLE_GET_UPPER h
        /\ (Z.land (ProcessId e) (Z.lnot 1) = 0
            \/ Z.land (ProcessId e) (Z.lnot 1) = PsGetCurrentProcessId E)).
Proof.
  intros Hlen Hidx.
  destruct (entry_at s (GDI_HANDLE_GET_INDEX E h)) as [e|] eqn:He.
  2:{ exfalso. unfold entry_at in He.
      destruct (GDI_HANDLE_GET_INDEX E h <? 0) eqn:Hneg; [lia|].
      apply lookup_ge_None in He. lia. }
  exists e. unfold GDIOBJ_ValidateHandle. rewrite He.
  change GDI_ENTRY_UPPER_SHIFT with 16.
  destruct (Z.land h GDI_HANDLE_TYPE_MASK =? ty) eqn:Ht;
    [apply Z.eqb_eq in Ht | apply Z.eqb_neq in Ht].
  2:{ exists false. split; [reflexivity|]. split; [reflexivity|].
      split; [discriminate|]. intros (H & _). contradiction. }
  destruct (shl32 (Type_ e) 16 =? GDI_HANDLE_GET_UPPER h) eqn:Hu;
    [apply Z.eqb_eq in Hu | apply Z.eqb_neq in Hu].
  2:{ exists false. split; [reflexivity|]. split; [reflexivity|].
      split; [discriminate|]. intros (_ & H & _). contradiction. }
  eexists. split; [reflexivity|]. split; [reflexivity|].
  rewrite orb_true_iff, !Z.eqb_eq. tauto.
Qed.

Lemma C1_validate_handle_checks_witness :
  let s := state_of demo_table
             (GDIOBJ_AllocObjWithHandle demo_env demo_table GDI_OBJECT_TYPE_BRUSH 0x1000) in
  exists e b,
    entry_at s (GDI_HANDLE_GET_INDEX demo_env 0x0010000A) = Some e
    /\ GDIOBJ_ValidateHandle demo_env s 0x0010000A GDI_OBJECT_TYPE_BRUSH = Some b
    /\ (b = true <->
        Z.land 0x0010000A GDI_HANDLE_TYPE_MASK = GDI_OBJECT_TYPE_BRUSH
        /\ shl32 (Type_ e) 16 = GDI_HANDLE_GET_UPPER 0x0010000A
        /\ (Z.land (ProcessId e) (Z.lnot 1) = 0
            \/ Z.land (ProcessId e) (Z.lnot 1) = PsGetCurrentProcessId demo_env)).
Proof.
  intros s.
  apply (C1_validate_handle_checks demo_env s 0x0010000A GDI_OBJECT_TYPE_BRUSH).
  - vm_compute. reflexivity.
  - vm_compute. split; [discriminate | reflexivity].
Defined.

(** Outside the table: GDIOBJ_ValidateHandle, which has no test on the
    index, reads past the last slot when the type bits match, where
    GDIOBJ_LockObj and GDIOBJ_ShareLockObj return NULL. *)
Lemma validate_handle_outside_table (E : GDI_ENV) (s : GDI_STATE) (h : Z) :
  Z.of_nat (length (Entries s)) = GDI_HANDLE_COUNT E ->
  GDI_HANDLE_COUNT E <= GDI_HANDLE_GET_INDEX E h ->
  GDIOBJ_ValidateHandle E s h (Z.land h GDI_HANDLE_TYPE_MASK) = None
  /\ GDIOBJ_LockObj E s h (Z.land h GDI_HANDLE_TYPE_MASK) = Returns 0 s
  /\ GDIOBJ_ShareLockObj E s h (Z.land h GDI_HANDLE_TYPE_MASK) = Returns 0 s.
Proof.
  intros Hlen Hidx. unfold GDIOBJ_ValidateHandle, GDIOBJ_LockObj, GDIOBJ_ShareLockObj.
  rewrite Z.eqb_refl. apply Z.leb_le in Hidx as Hb. rewrite Hb.
  repeat split. unfold entry_at.
  destruct (GDI_HANDLE_GET_INDEX E h <? 0); [reflexivity|].
  rewrite (proj2 (lookup_ge_None (Entries s) _)); [reflexivity|]. lia.
Qed.

(** C2, as stated, fails: on the stock handle 0x0090000A the routine returns
    FALSE. *)
Lemma C2_free_stock_counterexample :
  ~ free_stock_as_specified demo_env demo_table 0x0090000A GDI_OBJECT_TYPE_DONTCARE.
Proof.
  intros H. destruct H as [code H]; [vm_compute; reflexivity|].
  assert (Hr : GDIOBJ_FreeObjByHandle demo_env demo_table 0x0090000A
                 GDI_OBJECT_TYPE_DONTCARE = Returns false demo_table)
    by reflexivity.
  rewrite Hr in H. discriminate.
Qed.

(** C2, amended: for every handle whose stock-object bit is set,
    GDIOBJ_FreeObjByHandle returns FALSE and leaves the table, the pool and
    the handle count as they were; it does not bug-check. *)
Theorem C2_free_stock_returns_false (E : GDI_ENV) (s : GDI_STATE) (h ty : Z) :
  GDI_HANDLE_IS_STOCKOBJ h = true ->
  GDIOBJ_FreeObjByHandle E s h ty = Returns false s.
Proof.
  intros H. unfold GDIOBJ_FreeObjByHandle. rewrite H. reflexivity.
Qed.

Lemma C2_free_stock_returns_false_witness :
  GDIOBJ_FreeObjByHandle demo_env demo_table 0x0090000A GDI_OBJECT_TYPE_DONTCARE
  = Returns false demo_table.
Proof.
  apply (C2_free_stock_returns_false demo_env demo_table 0x0090000A
           GDI_OBJECT_TYPE_DONTCARE).
  vm_compute. reflexivity.
Defined.

(** C4, as stated, fails, because the reuse counter is eight bits wide. From
    the zeroed table a brush is allocated and freed 255 times in slot 10 and
    allocated once more; freeing that handle lets the body go (the slot is
    pushed on the free list with its base type cleared) and brings the
    counter back to the value it had when the first allocation minted
    0x0010000A, so that stale handle passes GDIOBJ_ValidateHandle again. *)
Lemma C4_stale_handle_counterexample :
  let s1 := state_of demo_table
              (GDIOBJ_AllocObjWithHandle demo_env demo_table GDI_OBJECT_TYPE_BRUSH 0x1000) in
  let s := alloc_free_rounds demo_env 255 0x1000 demo_table in
  let sa := state_of s
              (GDIOBJ_AllocObjWithHandle demo_env s GDI_OBJECT_TYPE_BRUSH 0x1000) in
  (hHmgr <$> Objects s1 !! 0x1000) = Some 0x0010000A
  /\ (hHmgr <$> Objects sa !! 0x1000) = Some 0xFF10000A
  /\ GDI_HANDLE_GET_INDEX demo_env 0x0010000A = GDI_HANDLE_GET_INDEX demo_env 0xFF10000A
  /\ match GDIOBJ_FreeObjByHandle demo_env sa 0xFF10000A GDI_OBJECT_TYPE_BRUSH with
     | Returns ret s' =>
         ret = true
         /\ FirstFree s' = 10
         /\ Objects s' !! 0x1000 = None
         /\ entry_at s' 10 = Some (mkEntry 0 0 0x10 0)
         /\ GDIOBJ_ValidateHandle demo_env s' 0x0010000A GDI_OBJECT_TYPE_BRUSH = Some true
     | _ => False
     end.
Proof. vm_compute. repeat split; reflexivity. Qed.

(** C4, amended: when GDIOBJ_FreeObjByHandle lets the body go, the reuse
    counter in the slot's type field becomes the old counter plus one modulo
    2^8 (so it differs from the old one), the base-type bits are cleared,
    the handle that was freed fails GDIOBJ_ValidateHandle for every expected
    type, and so does every 32-bit handle of that slot whose reuse counter
    differs from the slot's new counter. *)
Theorem C4_free_bumps_reuse_counter (E : GDI_ENV) (s : GDI_STATE) (h ty : Z)
  (e : GDI_TABLE_ENTRY) (o : BASEOBJECT) (cleanup : BASEOBJECT -> bool) :
  GDI_HANDLE_IS_STOCKOBJ h = false ->
  free_type_check h ty = true ->
  entry_at s (GDI_HANDLE_GET_INDEX E h) = Some e ->
  free_slot_check E h e = true ->
  Objects s !! KernelData e = Some o ->
  body_unlocked E o = true ->
  CleanupProc E (GDI_OBJECT_GET_TYPE_INDEX (GDI_HANDLE_GET_TYPE h)) = Some cleanup ->
  exists ret s' e',
    GDIOBJ_FreeObjByHandle E s h ty = Returns ret s'
    /\ entry_at s' (GDI_HANDLE_GET_INDEX E h) = Some e'
    /\ GDI_ENTRY_GET_REUSECNT (Type_ e') = (GDI_ENTRY_GET_REUSECNT (Type_ e) + 1) mod 2 ^ 8
    /\ GDI_ENTRY_GET_REUSECNT (Type_ e') <> GDI_ENTRY_GET_REUSECNT (Type_ e)
    /\ Z.land (Type_ e') GDI_ENTRY_BASETYPE_MASK = 0
    /\ (forall ty', GDIOBJ_ValidateHandle E s' h ty' = Some false)
    /\ (forall h' ty',
          0 <= h' < 2 ^ 32 ->
          GDI_HANDLE_GET_INDEX E h' = GDI_HANDLE_GET_INDEX E h ->
          Z.shiftr h' 24 <> GDI_ENTRY_GET_REUSECNT (Type_ e') ->
          GDIOBJ_ValidateHandle E s' h' ty' = Some false).
Proof.
  intros Hstock Hty He Hslot Ho Hun Hcl.
  destruct (free_path E s h ty e o cleanup Hstock Hty He Hslot Ho Hun Hcl)
    as (ret & s' & Hrun & He' & _).
  exists ret, s', (mkEntry (FirstFree s) 0 (freed_type (Type_ e)) 0).
  cbn [Type_].
  assert (Hup : shl32 (Type_ e) 16 = GDI_HANDLE_GET_UPPER h).
  { unfold free_slot_check in Hslot.
    apply andb_true_iff in Hslot as [Hslot _].
    apply andb_true_iff in Hslot as [_ Hc]. apply Z.eqb_eq in Hc. exact Hc. }
  split; [exact Hrun|]. split; [exact He'|].
  split; [apply freed_type_reusecnt|].
  split.
  { rewrite freed_type_reusecnt, reusecnt_div. change (2 ^ 8) with 256.
    Z.to_euclidean_division_equations. lia. }
  split; [apply freed_type_basetype|].
  split.
  - intros ty'. unfold GDIOBJ_ValidateHandle. rewrite He'. cbn [Type_ ProcessId].
    change GDI_ENTRY_UPPER_SHIFT with 16.
    destruct (Z.land h GDI_HANDLE_TYPE_MASK =? ty'); [|reflexivity].
    rewrite <- Hup.
    destruct (shl32 (freed_type (Type_ e)) 16 =? shl32 (Type_ e) 16) eqn:Hq;
      [|reflexivity].
    apply Z.eqb_eq in Hq. exfalso. exact (freed_type_shl _ Hq).
  - intros h' ty' Hh' Hidx Hcnt. unfold GDIOBJ_ValidateHandle.
    rewrite Hidx, He'. cbn [Type_ ProcessId].
    change GDI_ENTRY_UPPER_SHIFT with 16.
    destruct (Z.land h' GDI_HANDLE_TYPE_MASK =? ty'); [|reflexivity].
    destruct (shl32 (freed_type (Type_ e)) 16 =? GDI_HANDLE_GET_UPPER h') eqn:Hq;
      [|reflexivity].
    apply Z.eqb_eq in Hq. exfalso. apply Hcnt.
    rewrite reusecnt_low16.
    assert (Hs : Z.shiftr h' 24 = Z.shiftr (GDI_HANDLE_GET_UPPER h') 24).
    { unfold GDI_HANDLE_GET_UPPER. rewrite Z.shiftr_land.
      change (Z.shiftr GDI_HANDLE_UPPER_MASK 24) with (Z.ones 8).
      rewrite Z.land_ones by lia. rewrite Z.shiftr_div_pow2 by lia.
      symmetry. apply Z.mod_small.
      change (2 ^ 24) with 16777216. change (2 ^ 8) with 256.
      change (2 ^ 32) with 4294967296 in Hh'.
      Z.to_euclidean_division_equations. lia. }
    rewrite Hs, <- Hq, shl32_16. rewrite Z.shiftr_div_pow2 by lia.
    change (2 ^ 24) with (2 ^ 8 * 2 ^ 16).
    rewrite Z.div_mul_cancel_r by lia. reflexivity.
Qed.

Lemma C4_free_bumps_reuse_counter_witness :
  let s := state_of demo_table
             (GDIOBJ_AllocObjWithHandle demo_env demo_table GDI_OBJECT_TYPE_BRUSH 0x1000) in
  let e := mkEntry 0x1000 4 0x100010 0 in
  exists ret s' e',
    GDIOBJ_FreeObjByHandle demo_env s 0x0010000A GDI_OBJECT_TYPE_BRUSH = Returns ret s'
    /\ entry_at s' (GDI_HANDLE_GET_INDEX demo_env 0x0010000A) = Some e'
    /\ GDI_ENTRY_GET_REUSECNT (Type_ e') = (GDI_ENTRY_GET_REUSECNT (Type_ e) + 1) mod 2 ^ 8
    /\ GDI_ENTRY_GET_REUSECNT (Type_ e') <> GDI_ENTRY_GET_REUSECNT (Type_ e)
    /\ Z.land (Type_ e') GDI_ENTRY_BASETYPE_MASK = 0
    /\ (forall ty', GDIOBJ_ValidateHandle demo_env s' 0x0010000A ty' = Some false)
    /\ (forall h' ty',
          0 <= h' < 2 ^ 32 ->
          GDI_HANDLE_GET_INDEX demo_env h' = GDI_HANDLE_GET_INDEX demo_env 0x0010000A ->
          Z.shiftr h' 24 <> GDI_ENTRY_GET_REUSECNT (Type_ e') ->
          GDIOBJ_ValidateHandle demo_env s' h' ty' = Some false).
Proof.
  intros s e.
  apply (C4_free_bumps_reuse_counter demo_env s 0x0010000A GDI_OBJECT_TYPE_BRUSH e
           (mkBody 0x0010000A 0 1 0x30 0) (BRUSH_Cleanup demo_env));
    vm_compute; reflexivity.
Defined.

(** C7, as stated, fails on a global object. The handle 0x0010000A of
    [global_shared_brush] is valid (GDIOBJ_ValidateHandle accepts a slot
    without owner) and its body has share count 1, but
    GDIOBJ_FreeObjByHandle only locks a slot whose owner word is the calling
    process: it returns FALSE from its last branch and does not touch the
    body, so BASEFLAG_READY_TO_DIE is not set. *)
Lemma C7_free_global_counterexample :
  ~ free_shared_as_specified demo_env global_shared_brush 0x0010000A GDI_OBJECT_TYPE_BRUSH.
Proof.
  intros H.
  destruct (H (mkEntry 0x1000 0 0x100010 0) (mkBody 0x0010000A 1 1 0x30 0))
    as (s' & e' & o' & Hrun & Ho' & Hflag & _).
  - vm_compute. reflexivity.
  - vm_compute. reflexivity.
  - vm_compute. reflexivity.
  - cbn [ulShareCount]. lia.
  - assert (Hr : GDIOBJ_FreeObjByHandle demo_env global_shared_brush 0x0010000A
                   GDI_OBJECT_TYPE_BRUSH = Returns false global_shared_brush)
      by (vm_compute; reflexivity).
    rewrite Hr in Hrun. injection Hrun as <-.
    assert (Ho : Objects global_shared_brush !! 0x1000
                 = Some (mkBody 0x0010000A 1 1 0x30 0)) by (vm_compute; reflexivity).
    cbn [KernelData] in Ho'. rewrite Ho in Ho'. injection Ho' as <-.
    vm_compute in Hflag. discriminate Hflag.
Qed.

(** C7, amended: GDIOBJ_FreeObjByHandle on a handle that passes its checks
    (not a stock handle, of the expected type, its slot owned by the calling
    process, not locked, holding a body and matching the handle) whose body
    has a nonzero share count returns FALSE with BASEFLAG_READY_TO_DIE set
    in the body; the body stays in the pool, the slot is as it was (owner
    word restored, type field and body pointer unchanged), and so are the
    free list and the handle count of the process. *)
Theorem C7_free_shared_is_deferred (E : GDI_ENV) (s : GDI_STATE) (h ty : Z)
  (e : GDI_TABLE_ENTRY) (o : BASEOBJECT) :
  GDI_HANDLE_IS_STOCKOBJ h = false ->
  free_type_check h ty = true ->
  entry_at s (GDI_HANDLE_GET_INDEX E h) = Some e ->
  free_slot_check E h e = true ->
  Objects s !! KernelData e = Some o ->
  ulShareCount o <> 0 ->
  exists s' o',
    GDIOBJ_FreeObjByHandle E s h ty = Returns false s'
    /\ Objects s' !! KernelData e = Some o'
    /\ BaseFlags o' = Z.lor (BaseFlags o) BASEFLAG_READY_TO_DIE
    /\ Z.land (BaseFlags o') BASEFLAG_READY_TO_DIE = BASEFLAG_READY_TO_DIE
    /\ hHmgr o' = hHmgr o /\ ulShareCount o' = ulShareCount o
    /\ cExclusiveLock o' = cExclusiveLock o /\ Tid o' = Tid o
    /\ Entries s' = Entries s
    /\ entry_at s' (GDI_HANDLE_GET_INDEX E h) = Some e
    /\ ProcessId e = PsGetCurrentProcessId E
    /\ FirstFree s' = FirstFree s
    /\ FirstUnused s' = FirstUnused s
    /\ GDIHandleCount s' = GDIHandleCount s.
Proof.
  intros Hstock Hty He Hslot Ho Hsh.
  unfold free_type_check in Hty. apply negb_true_iff in Hty.
  unfold free_slot_check in Hslot.
  apply andb_true_iff in Hslot as [Hslot Hd].
  apply andb_true_iff in Hslot as [Hslot Hc].
  apply andb_true_iff in Hslot as [Ha Hb].
  apply Z.eqb_neq in Hsh.
  unfold GDIOBJ_FreeObjByHandle.
  rewrite Hstock. cbv zeta. rewrite Hty, He, Ha, Hb, Hc, Hd.
  change (true && true && true) with true. cbv iota. rewrite Ho, Hsh.
  rewrite andb_false_r. cbn [negb].
  rewrite (set_entry_same s _ e He).
  eexists _, _. split; [reflexivity|].
  unfold set_object. cbn [Objects Entries FirstFree FirstUnused GDIHandleCount].
  split; [apply lookup_insert_eq|].
  cbn [BaseFlags hHmgr ulShareCount cExclusiveLock Tid].
  split; [reflexivity|].
  split.
  { apply Z.bits_inj'. intros n _. rewrite Z.land_spec, Z.lor_spec.
    destruct (Z.testbit (BaseFlags o) n), (Z.testbit BASEFLAG_READY_TO_DIE n);
      reflexivity. }
  repeat (split; [reflexivity|]).
  split.
  { unfold entry_at in *. exact He. }
  split; [apply Z.eqb_eq; exact Ha|].
  repeat split.
Qed.

Lemma C7_free_shared_is_deferred_witness :
  let s1 := state_of demo_table
              (GDIOBJ_AllocObjWithHandle demo_env demo_table GDI_OBJECT_TYPE_BRUSH 0x1000) in
  let s := state_of s1 (GDIOBJ_ShareLockObj demo_env s1 0x0010000A GDI_OBJECT_TYPE_BRUSH) in
  let e := mkEntry 0x1000 4 0x100010 0 in
  let o := mkBody 0x0010000A 1 1 0x30 0 in
  exists s' o',
    GDIOBJ_FreeObjByHandle demo_env s 0x0010000A GDI_OBJECT_TYPE_BRUSH = Returns false s'
    /\ Objects s' !! KernelData e = Some o'
    /\ BaseFlags o' = Z.lor (BaseFlags o) BASEFLAG_READY_TO_DIE
    /\ Z.land (BaseFlags o') BASEFLAG_READY_TO_DIE = BASEFLAG_READY_TO_DIE
    /\ hHmgr o' = hHmgr o /\ ulShareCount o' = ulShareCount o
    /\ cExclusiveLock o' = cExclusiveLock o /\ Tid o' = Tid o
    /\ Entries s' = Entries s
    /\ entry_at s' (GDI_HANDLE_GET_INDEX demo_env 0x0010000A) = Some e
    /\ ProcessId e = PsGetCurrentProcessId demo_env
    /\ FirstFree s' = FirstFree s
    /\ FirstUnused s' = FirstUnused s
    /\ GDIHandleCount s' = GDIHandleCount s.
Proof.
  intros s1 s e o.
  apply (C7_free_shared_is_deferred demo_env s 0x0010000A GDI_OBJECT_TYPE_BRUSH e o);
    try (vm_compute; reflexivity).
  vm_compute. discriminate.
Defined.

(** C8, the code at the failing input: a brush is allocated (depth 1) and
    unlocked once (depth 0); the second GDIOBJ_UnlockObjByPtr returns -1 and
    leaves 0xFFFFFFFF, that is -1, in [cExclusiveLock] instead of 0. *)
Lemma C8_unlock_at_depth_zero :
  let s1 := state_of demo_table
              (GDIOBJ_AllocObjWithHandle demo_env demo_table GDI_OBJECT_TYPE_BRUSH 0x1000) in
  let s2 := state_of s1 (GDIOBJ_UnlockObjByPtr s1 0x1000) in
  (cExclusiveLock <$> Objects s1 !! 0x1000) = Some 1
  /\ (cExclusiveLock <$> Objects s2 !! 0x1000) = Some 0
  /\ match GDIOBJ_UnlockObjByPtr s2 0x1000 with
     | Returns cLocks s3 =>
         cLocks = -1
         /\ (cExclusiveLock <$> Objects s3 !! 0x1000) = Some 0xFFFFFFFF
         /\ to_LONG 0xFFFFFFFF = -1
     | _ => False
     end.
Proof. vm_compute. repeat split; reflexivity. Qed.

(** On a body whose depth is positive GDIOBJ_UnlockObjByPtr takes one off
    and returns the new depth, which is not negative. *)
Lemma unlock_positive_depth (s : GDI_STATE) (p : Z) (body : BASEOBJECT) :
  Objects s !! p = Some body ->
  0 < cExclusiveLock body < 2 ^ 31 ->
  exists s',
    GDIOBJ_UnlockObjByPtr s p = Returns (cExclusiveLock body - 1) s'
    /\ (cExclusiveLock <$> Objects s' !! p) = Some (cExclusiveLock body - 1).
Proof.
  intros Hb Hc. unfold GDIOBJ_UnlockObjByPtr. rewrite Hb.
  assert (Hs : to_ULONG (cExclusiveLock body - 1) = cExclusiveLock body - 1).
  { unfold to_ULONG. apply Z.mod_small.
    change (2 ^ 31) with 2147483648 in Hc. change (2 ^ 32) with 4294967296. lia. }
  rewrite Hs.
  assert (Hl : to_LONG (cExclusiveLock body - 1) = cExclusiveLock body - 1).
  { unfold to_LONG. change (2 ^ 31) with 2147483648 in *.
    change (2 ^ 32) with 4294967296. rewrite Z.mod_small by lia. lia. }
  rewrite Hl. eexists. split; [reflexivity|].
  unfold set_object. cbn [Objects]. rewrite lookup_insert_eq. reflexivity.
Qed.

(** ** Allocation *)

Lemma pop_keeps_table (E : GDI_ENV) (s s1 : GDI_STATE) (i : Z) :
  InterlockedPopFreeEntry E s = Returns i s1 ->
  Entries s1 = Entries s /\ Objects s1 = Objects s
  /\ GDIHandleCount s1 = GDIHandleCount s.
Proof.
  unfold InterlockedPopFreeEntry.
  destruct (FirstFree s =? 0).
  - destruct (GDI_HANDLE_COUNT E <=? _); intros [= <- <-]; auto.
  - destruct (entry_at s (FirstFree s)) as [pEntry|]; [|discriminate].
    destruct (negb (ProcessId pEntry =? 0)); [discriminate|].
    intros [= <- <-]; auto.
Qed.

Lemma handle_low (i t : Z) :
  Z.land (Z.lor (Z.land i 0xFFFF) (shl32 t 16)) 0xFFFF = Z.land i 0xFFFF.
Proof.
  rewrite Z.land_lor_distr_l. rewrite <- Z.land_assoc, Z.land_diag.
  rewrite shl32_16. change 65535 with (Z.ones 16).
  rewrite (Z.land_ones (t mod 2 ^ 16 * 2 ^ 16)) by lia.
  rewrite Z.mod_mul by lia. apply Z.lor_0_r.
Qed.

Lemma handle_high (i t : Z) :
  Z.shiftr (Z.lor (Z.land i 0xFFFF) (shl32 t 16)) 16 = Z.land t 0xFFFF.
Proof.
  rewrite Z.shiftr_lor, Z.shiftr_land.
  change (Z.shiftr 65535 16) with 0. rewrite Z.land_0_r, Z.lor_0_l.
  rewrite shl32_16, Z.shiftr_div_pow2 by lia.
  rewrite Z.div_mul by lia. change 65535 with (Z.ones 16).
  rewrite Z.land_ones by lia. reflexivity.
Qed.

Lemma handle_range (i t : Z) :
  0 <= Z.lor (Z.land i 0xFFFF) (shl32 t 16) < 2 ^ 32.
Proof.
  assert (H1 : 0 <= Z.land i 0xFFFF < 2 ^ 32).
  { change 65535 with (Z.ones 16). rewrite Z.land_ones by lia.
    pose proof (Z.mod_pos_bound i (2 ^ 16) eq_refl).
    change (2 ^ 16) with 65536 in *. change (2 ^ 32) with 4294967296. lia. }
  assert (H2 : 0 <= shl32 t 16 < 2 ^ 32).
  { unfold shl32, to_ULONG. apply Z.mod_pos_bound. reflexivity. }
  split.
  - apply Z.lor_nonneg. lia.
  - destruct (Z.eq_dec (Z.lor (Z.land i 65535) (shl32 t 16)) 0) as [->|Hne];
      [reflexivity|].
    apply Z.log2_lt_pow2.
    + assert (0 <= Z.lor (Z.land i 65535) (shl32 t 16)) by (apply Z.lor_nonneg; lia).
      lia.
    + rewrite Z.log2_lor by lia.
      apply Z.max_lub_lt.
      * destruct (Z.eq_dec (Z.land i 65535) 0) as [->|Hn]; [reflexivity|].
        apply Z.log2_lt_pow2; lia.
      * destruct (Z.eq_dec (shl32 t 16) 0) as [->|Hn]; [reflexivity|].
        apply Z.log2_lt_pow2; lia.
Qed.

Lemma alloc_type_reusecnt (ty t0 : Z) :
  0 <= ty < 2 ^ 24 ->
  GDI_ENTRY_GET_REUSECNT
    (Z.lor (Z.lor (Z.land ty GDI_HANDLE_BASETYPE_MASK) (Z.shiftr ty GDI_ENTRY_UPPER_SHIFT))
           (Z.land t0 GDI_ENTRY_REUSE_MASK))
  = GDI_ENTRY_GET_REUSECNT t0.
Proof.
  intros Hty. unfold GDI_ENTRY_GET_REUSECNT. f_equal.
  rewrite !Z.land_lor_distr_l.
  rewrite <- !Z.land_assoc.
  change (Z.land GDI_HANDLE_BASETYPE_MASK GDI_ENTRY_REUSE_MASK) with 0.
  rewrite Z.land_0_r, Z.lor_0_l, Z.land_diag.
  assert (Hs : Z.land (Z.shiftr ty GDI_ENTRY_UPPER_SHIFT) GDI_ENTRY_REUSE_MASK = 0).
  { assert (Hm : Z.shiftr ty GDI_ENTRY_UPPER_SHIFT
                 = Z.land (Z.shiftr ty GDI_ENTRY_UPPER_SHIFT) (Z.ones 8)).
    { rewrite Z.land_ones by lia. symmetry. apply Z.mod_small.
      unfold GDI_ENTRY_UPPER_SHIFT. rewrite Z.shiftr_div_pow2 by lia.
      change (2 ^ 24) with 16777216 in Hty. change (2 ^ 16) with 65536.
      change (2 ^ 8) with 256. Z.to_euclidean_division_equations. lia. }
    rewrite Hm, <- Z.land_assoc.
    change (Z.land (Z.ones 8) GDI_ENTRY_REUSE_MASK) with 0. apply Z.land_0_r. }
  rewrite Hs. apply Z.lor_0_l.
Qed.

(** C5: when GDIOBJ_AllocObjWithHandle returns a body, the body has
    [cExclusiveLock = 1], the calling thread in [Tid] and [ulShareCount = 0];
    the slot it took points to the body and is owned by the calling process;
    and the stored handle is the 32-bit value whose lower 16 bits are the
    slot index (its low 16 bits) and whose upper 16 bits are the low half of
    the slot's type field as the allocation left it. For an object type
    without reuse bits of its own, that field carries the reuse counter the
    slot had before. *)
Theorem C5_alloc_returns_locked_body (E : GDI_ENV) (s s' : GDI_STATE)
  (ObjectType block p : Z) :
  GDIOBJ_AllocObjWithHandle E s ObjectType block = Returns p s' ->
  p <> 0 ->
  exists Index e0 e' body,
    Index <> 0
    /\ entry_at s Index = Some e0
    /\ entry_at s' Index = Some e'
    /\ KernelData e' = p
    /\ ProcessId e' = PsGetCurrentProcessId E
    /\ Objects s' !! p = Some body
    /\ cExclusiveLock body = 1
    /\ Tid body = PsGetCurrentThreadWin32Thread E
    /\ ulShareCount body = 0
    /\ hHmgr body = Z.lor (Z.land Index 0xFFFF) (shl32 (Type_ e') 16)
    /\ 0 <= hHmgr body < 2 ^ 32
    /\ Z.land (hHmgr body) 0xFFFF = Z.land Index 0xFFFF
    /\ (0 <= Index < 2 ^ 16 -> Z.land (hHmgr body) 0xFFFF = Index)
    /\ Z.shiftr (hHmgr body) 16 = Z.land (Type_ e') 0xFFFF
    /\ (0 <= ObjectType < 2 ^ 24 ->
        GDI_ENTRY_GET_REUSECNT (Type_ e') = GDI_ENTRY_GET_REUSECNT (Type_ e0)).
Proof.
  intros H Hp. unfold GDIOBJ_AllocObjWithHandle in H.
  destruct (match GDIHandleCount s with Some c => 10000 <=? c | None => false end);
    [injection H as <- _; contradiction|].
  unfold GDIOBJ_AllocObj in H.
  destruct (block =? 0) eqn:Hblock.
  { change (0 =? 0) with true in H. injection H as <- _. contradiction. }
  rewrite Hblock in H.
  destruct (InterlockedPopFreeEntry E (set_object s block (mkBody 0 0 0 0 0)))
    as [Index s1| | |] eqn:Hpop; try discriminate.
  apply pop_keeps_table in Hpop as (HE & HO & HC).
  destruct (Index =? 0) eqn:HI; cbn [negb] in H.
  { injection H as <- _. contradiction. }
  apply Z.eqb_neq in HI.
  destruct (entry_at s1 Index) as [Entry|] eqn:HEntry; [|discriminate].
  destruct (ProcessId Entry =? 0); [|discriminate].
  unfold set_entry, set_object in H, HO, HE.
  cbn [Objects Entries FirstFree FirstUnused GDIHandleCount] in H, HO, HE.
  rewrite HO, lookup_insert_eq in H.
  injection H as <- <-.
  unfold entry_at in HEntry |- *.
  destruct (Index <? 0) eqn:Hneg; [discriminate|].
  rewrite HE in HEntry.
  assert (Hlt : (Z.to_nat Index < length (Entries s1))%nat).
  { rewrite HE. eapply lookup_lt_Some; eauto. }
  eexists Index, Entry, _, _.
  unfold bump_handle_count.
  cbn [Objects Entries FirstFree FirstUnused GDIHandleCount].
  rewrite Hneg.
  split; [exact HI|]. split; [exact HEntry|].
  split; [apply list_lookup_insert_eq; exact Hlt|].
  cbn [KernelData ProcessId Type_].
  split; [reflexivity|]. split; [reflexivity|].
  split; [apply lookup_insert_eq|].
  cbn [cExclusiveLock Tid ulShareCount hHmgr].
  change GDI_ENTRY_UPPER_SHIFT with 16.
  split; [reflexivity|]. split; [reflexivity|]. split; [reflexivity|].
  split; [reflexivity|].
  split; [apply handle_range|].
  split; [apply handle_low|].
  split.
  { intros HIdx. rewrite handle_low. change 65535 with (Z.ones 16).
    rewrite Z.land_ones by lia. apply Z.mod_small. exact HIdx. }
  split; [apply handle_high|].
  intros Hty. apply (alloc_type_reusecnt ObjectType (Type_ Entry) Hty).
Qed.

Lemma C5_alloc_returns_locked_body_witness :
  exists Index e0 e' body,
    Index <> 0
    /\ entry_at demo_table Index = Some e0
    /\ entry_at (state_of demo_table
                   (GDIOBJ_AllocObjWithHandle demo_env demo_table
                      GDI_OBJECT_TYPE_BRUSH 0x1000)) Index = Some e'
    /\ KernelData e' = 0x1000
    /\ ProcessId e' = PsGetCurrentProcessId demo_env
    /\ Objects (state_of demo_table
                  (GDIOBJ_AllocObjWithHandle demo_env demo_table
                     GDI_OBJECT_TYPE_BRUSH 0x1000)) !! 0x1000 = Some body
    /\ cExclusiveLock body = 1
    /\ Tid body = PsGetCurrentThreadWin32Thread demo_env
    /\ ulShareCount body = 0
    /\ hHmgr body = Z.lor (Z.land Index 0xFFFF) (shl32 (Type_ e') 16)
    /\ 0 <= hHmgr body < 2 ^ 32
    /\ Z.land (hHmgr body) 0xFFFF = Z.land Index 0xFFFF
    /\ (0 <= Index < 2 ^ 16 -> Z.land (hHmgr body) 0xFFFF = Index)
    /\ Z.shiftr (hHmgr body) 16 = Z.land (Type_ e') 0xFFFF
    /\ (0 <= GDI_OBJECT_TYPE_BRUSH < 2 ^ 24 ->
        GDI_ENTRY_GET_REUSECNT (Type_ e') = GDI_ENTRY_GET_REUSECNT (Type_ e0)).
Proof.
  apply (C5_alloc_returns_locked_body demo_env demo_table _ GDI_OBJECT_TYPE_BRUSH
           0x1000 0x1000).
  - vm_compute. reflexivity.
  - discriminate.
Defined.

(** ** The view cache *)

Lemma to_ULONG_idem (z : Z) : to_ULONG (to_ULONG z) = to_ULONG z.
Proof. unfold to_ULONG. apply Z.mod_mod. lia. Qed.

Lemma to_ULONG_add_l (a b : Z) : to_ULONG (to_ULONG a + b) = to_ULONG (a + b).
Proof. unfold to_ULONG. apply Zplus_mod_idemp_l. Qed.

Lemma to_ULONG_sub_l (a b : Z) : to_ULONG (to_ULONG a - b) = to_ULONG (a - b).
Proof. unfold to_ULONG. apply Zminus_mod_idemp_l. Qed.

Lemma inc_ref_spec (s : CC_STATE) (p : Z) (v : ROS_VACB) :
  Vacbs s !! p = Some v ->
  CcRosVacbIncRefCount s p
  = Returns (to_ULONG (ReferenceCount v + 1))
      (set_vacb s p (with_ReferenceCount v (to_ULONG (ReferenceCount v + 1)))).
Proof. intros H. unfold CcRosVacbIncRefCount. rewrite H. reflexivity. Qed.

Lemma dec_ref_spec (s : CC_STATE) (p : Z) (v : ROS_VACB) :
  Vacbs s !! p = Some v ->
  CcRosVacbDecRefCount s p
  = Returns (to_ULONG (ReferenceCount v - 1))
      (if to_ULONG (ReferenceCount v - 1) =? 0
       then CcRosInternalFreeVacb
              (set_vacb s p (with_ReferenceCount v (to_ULONG (ReferenceCount v - 1)))) p
       else set_vacb s p (with_ReferenceCount v (to_ULONG (ReferenceCount v - 1)))).
Proof.
  intros H. unfold CcRosVacbDecRefCount. rewrite H.
  destruct (to_ULONG (ReferenceCount v - 1) =? 0); reflexivity.
Qed.

Lemma set_vacb_lookup (s : CC_STATE) (p : Z) (v : ROS_VACB) :
  Vacbs (set_vacb s p v) !! p = Some v.
Proof. unfold set_vacb. cbn [Vacbs]. apply lookup_insert_eq. Qed.

Lemma set_vacb_twice (s : CC_STATE) (p : Z) (v w : ROS_VACB) :
  set_vacb (set_vacb s p v) p w = set_vacb s p w.
Proof.
  unfold set_vacb. cbn [Vacbs CacheMaps DirtyVacbListHead VacbLruListHead
                        CcTotalDirtyPages LazyWriterScanActive].
  rewrite insert_insert_eq. reflexivity.
Qed.

Lemma set_vacb_same (s : CC_STATE) (p : Z) (v : ROS_VACB) :
  Vacbs s !! p = Some v -> set_vacb s p v = s.
Proof.
  intros H. unfold set_vacb. rewrite insert_id by exact H. destruct s; reflexivity.
Qed.

Lemma mark_dirty_spec (E : CC_ENV) (s : CC_STATE) (p : Z) (v : ROS_VACB)
  (m : ROS_SHARED_CACHE_MAP) :
  Vacbs s !! p = Some v ->
  CacheMaps s !! SharedCacheMap v = Some m ->
  CcRosMarkDirtyVacb E s p = Returns tt (marked_dirty E s p v m).
Proof.
  intros Hv Hm. unfold CcRosMarkDirtyVacb. rewrite Hv, Hm.
  unfold CcRosVacbIncRefCount, bind, set_map, set_total_dirty, set_dirty_list,
    set_lru_list, set_vacb, CcScheduleLazyWriteScan, marked_dirty.
  cbn [Vacbs CacheMaps DirtyVacbListHead VacbLruListHead CcTotalDirtyPages
       LazyWriterScanActive].
  rewrite Hv. cbn [Vacbs CacheMaps DirtyVacbListHead VacbLruListHead
                   CcTotalDirtyPages LazyWriterScanActive].
  rewrite lookup_insert_eq.
  cbn [Vacbs CacheMaps DirtyVacbListHead VacbLruListHead CcTotalDirtyPages
       LazyWriterScanActive].
  rewrite insert_insert_eq.
  destruct (LazyWriterScanActive s); reflexivity.
Qed.

Ltac cc_unfold :=
  unfold CcRosVacbIncRefCount, CcRosVacbDecRefCount, CcRosInternalFreeVacb, bind,
    set_map, set_total_dirty, set_dirty_list, set_lru_list, set_vacb,
    with_Valid, with_Dirty, with_MappedCount, with_ReferenceCount, marked_dirty.

Ltac cc_cbn :=
  cbn [Vacbs CacheMaps DirtyVacbListHead VacbLruListHead CcTotalDirtyPages
       LazyWriterScanActive BaseAddress Valid Dirty PageOut MappedCount FileOffset
       SharedCacheMap ReferenceCount PinCount negb andb orb Z.b2z].

(** The effect of CcRosReleaseVacb on the window, the dirty list and the
    dirty page count. *)
Lemma release_vacb_spec (E : CC_ENV) (s : CC_STATE) (map Vacb : Z)
  (Valid_ Dirty_ Mapped : bool) (v : ROS_VACB) (m : ROS_SHARED_CACHE_MAP) :
  Vacbs s !! Vacb = Some v ->
  CacheMaps s !! SharedCacheMap v = Some m ->
  exists s' v',
    CcRosReleaseVacb E s map Vacb Valid_ Dirty_ Mapped = Returns STATUS_SUCCESS s'
    /\ Vacbs s' !! Vacb = (if ReferenceCount v' =? 0 then None else Some v')
    /\ Valid v' = Valid_
    /\ Dirty v' = (Dirty v || Dirty_)
    /\ MappedCount v' = (if Mapped then to_ULONG (MappedCount v + 1) else MappedCount v)
    /\ ReferenceCount v'
       = to_ULONG (ReferenceCount v
                   + Z.b2z (Dirty_ && negb (Dirty v))
                   + Z.b2z (Mapped && (to_ULONG (MappedCount v + 1) =? 1))
                   - 1)
    /\ BaseAddress v' = BaseAddress v /\ FileOffset v' = FileOffset v
    /\ SharedCacheMap v' = SharedCacheMap v /\ PinCount v' = PinCount v
    /\ PageOut v' = PageOut v
    /\ DirtyVacbListHead s'
       = (if Dirty_ && negb (Dirty v) then InsertTailList (DirtyVacbListHead s) Vacb
          else DirtyVacbListHead s)
    /\ CcTotalDirtyPages s'
       = (if Dirty_ && negb (Dirty v)
          then to_ULONG (CcTotalDirtyPages s + PagesPerVacb E)
          else CcTotalDirtyPages s)
    /\ (forall q, q <> Vacb -> Vacbs s' !! q = Vacbs s !! q).
Proof.
  intros Hv Hm. exists (cc_state_of s (CcRosReleaseVacb E s map Vacb Valid_ Dirty_ Mapped)).
  exists (released_vacb v Valid_ Dirty_ Mapped).
  unfold CcRosReleaseVacb. rewrite Hv.
  destruct v as [ba va di po mc fo sc rc pc]. cbn [Dirty SharedCacheMap] in *.
  unfold released_vacb. cc_cbn.
  destruct Dirty_, di, Mapped; cc_cbn.
  all: try (rewrite (mark_dirty_spec E _ Vacb _ m) by
              (first [apply set_vacb_lookup | exact Hm])).
  all: do 2 (cc_unfold; cc_cbn; rewrite ?lookup_insert_eq; cc_cbn).
  all: try destruct (to_ULONG (mc + 1) =? 1) eqn:Hone; cc_cbn.
  all: do 2 (cc_unfold; cc_cbn; rewrite ?lookup_insert_eq; cc_cbn).
  all: rewrite ?to_ULONG_add_l, ?to_ULONG_sub_l, ?Z.add_0_r.
  all: match goal with
       | |- context [if ?c then Returns _ _ else Returns _ _] => destruct c eqn:Hz
       end.
  all: unfold cc_state_of; cc_cbn.
  all: repeat (split; [first [reflexivity
                             | apply lookup_delete_eq
                             | apply lookup_insert_eq]|]).
  all: intros q Hq; rewrite ?lookup_delete_ne by congruence;
       rewrite ?lookup_insert_ne by congruence; reflexivity.
Qed.

(** C3: CcRosReleaseVacb returns STATUS_SUCCESS and leaves the window with
    [Valid] set to the argument whatever it was; dirty when it was dirty or
    the dirty argument is true, and in the second case only if it was not
    dirty before is it marked dirty (appended to the dirty list, the dirty
    page count raised by the pages of a window, one reference taken for the
    list); [MappedCount] one higher when the mapped argument is true, with
    one extra reference exactly when that takes it from 0 to 1; and the
    reference count then lowered by one. A window whose count reaches zero
    that way is freed. No other window changes. *)
Theorem C3_release_vacb (E : CC_ENV) (s : CC_STATE) (map Vacb : Z)
  (Valid_ Dirty_ Mapped : bool) (v : ROS_VACB) (m : ROS_SHARED_CACHE_MAP) :
  Vacbs s !! Vacb = Some v ->
  CacheMaps s !! SharedCacheMap v = Some m ->
  exists s' v',
    CcRosReleaseVacb E s map Vacb Valid_ Dirty_ Mapped = Returns STATUS_SUCCESS s'
    /\ Vacbs s' !! Vacb = (if ReferenceCount v' =? 0 then None else Some v')
    /\ Valid v' = Valid_
    /\ Dirty v' = (Dirty v || Dirty_)
    /\ MappedCount v' = (if Mapped then to_ULONG (MappedCount v + 1) else MappedCount v)
    /\ ReferenceCount v'
       = to_ULONG (ReferenceCount v
                   + Z.b2z (Dirty_ && negb (Dirty v))
                   + Z.b2z (Mapped && (to_ULONG (MappedCount v + 1) =? 1))
                   - 1)
    /\ BaseAddress v' = BaseAddress v /\ FileOffset v' = FileOffset v
    /\ SharedCacheMap v' = SharedCacheMap v /\ PinCount v' = PinCount v
    /\ PageOut v' = PageOut v
    /\ DirtyVacbListHead s'
       = (if Dirty_ && negb (Dirty v) then InsertTailList (DirtyVacbListHead s) Vacb
          else DirtyVacbListHead s)
    /\ CcTotalDirtyPages s'
       = (if Dirty_ && negb (Dirty v)
          then to_ULONG (CcTotalDirtyPages s + PagesPerVacb E)
          else CcTotalDirtyPages s)
    /\ (forall q, q <> Vacb -> Vacbs s' !! q = Vacbs s !! q).
Proof. exact (release_vacb_spec E s map Vacb Valid_ Dirty_ Mapped v m). Qed.

Lemma C3_release_vacb_witness :
  let s := cc_state_of demo_cache
             (CcRosRequestVacb (demo_cc_env STATUS_SUCCESS) demo_cache 0x500 0 0x900) in
  let v := mkVacb 0x80090000 false false false 0 0 0x500 2 0 in
  exists s' v',
    CcRosReleaseVacb (demo_cc_env STATUS_SUCCESS) s 0x500 0x900 true true true
    = Returns STATUS_SUCCESS s'
    /\ Vacbs s' !! 0x900 = (if ReferenceCount v' =? 0 then None else Some v')
    /\ Valid v' = true
    /\ Dirty v' = (Dirty v || true)
    /\ MappedCount v' = (if true then to_ULONG (MappedCount v + 1) else MappedCount v)
    /\ ReferenceCount v'
       = to_ULONG (ReferenceCount v
                   + Z.b2z (true && negb (Dirty v))
                   + Z.b2z (true && (to_ULONG (MappedCount v + 1) =? 1))
                   - 1)
    /\ BaseAddress v' = BaseAddress v /\ FileOffset v' = FileOffset v
    /\ SharedCacheMap v' = SharedCacheMap v /\ PinCount v' = PinCount v
    /\ PageOut v' = PageOut v
    /\ DirtyVacbListHead s'
       = (if true && negb (Dirty v) then InsertTailList (DirtyVacbListHead s) 0x900
          else DirtyVacbListHead s)
    /\ CcTotalDirtyPages s'
       = (if true && negb (Dirty v)
          then to_ULONG (CcTotalDirtyPages s + PagesPerVacb (demo_cc_env STATUS_SUCCESS))
          else CcTotalDirtyPages s)
    /\ (forall q, q <> 0x900 -> Vacbs s' !! q = Vacbs s !! q).
Proof.
  intros s v.
  apply (C3_release_vacb (demo_cc_env STATUS_SUCCESS) s 0x500 0x900 true true true v
           (mkMap 0x100000 0x100000 0 [0x900] 0 0)).
  - vm_compute. reflexivity.
  - vm_compute. reflexivity.
Defined.

(** ** Looking a window up *)

Lemma lookup_walk_found (E : CC_ENV) (s s1 : CC_STATE) (l : list Z) (off p : Z) :
  lookup_walk E s l off = Returns p s1 ->
  p <> 0 ->
  exists v,
    Vacbs s !! p = Some v
    /\ In p l
    /\ IsPointInRange (FileOffset v) (VACB_MAPPING_GRANULARITY E) off = true
    /\ s1 = set_vacb s p (with_ReferenceCount v (to_ULONG (ReferenceCount v + 1))).
Proof.
  induction l as [|current rest IH]; cbn [lookup_walk]; intros H Hp.
  - injection H as <- _. contradiction.
  - destruct (Vacbs s !! current) as [c|] eqn:Hc; [|discriminate].
    destruct (IsPointInRange (FileOffset c) (VACB_MAPPING_GRANULARITY E) off) eqn:Hin.
    + rewrite (inc_ref_spec s current c Hc) in H. cbn [bind] in H.
      injection H as <- <-. exists c. repeat split; auto. left; reflexivity.
    + destruct (off <? FileOffset c).
      * injection H as <- _. contradiction.
      * destruct (IH H Hp) as (v & Hv & Hl & Hr & Hs).
        exists v. repeat split; auto. right; exact Hl.
Qed.

Lemma lookup_walk_none (E : CC_ENV) (s : CC_STATE) (l : list Z) (off : Z) :
  (forall p, In p l ->
     exists v, Vacbs s !! p = Some v
               /\ IsPointInRange (FileOffset v) (VACB_MAPPING_GRANULARITY E) off = false) ->
  lookup_walk E s l off = Returns 0 s.
Proof.
  induction l as [|current rest IH]; cbn [lookup_walk]; intros H.
  - reflexivity.
  - destruct (H current (or_introl eq_refl)) as (c & Hc & Hout).
    rewrite Hc, Hout.
    destruct (off <? FileOffset c); [reflexivity|].
    apply IH. intros p Hp. apply H. right; exact Hp.
Qed.

(** C9: when the window CcRosLookupVacb finds for the offset is already
    dirty, CcRosMarkDirtyFile returns STATUS_SUCCESS and leaves the global
    dirty page count, the dirty list (so the window's membership in it),
    the per-map dirty page counts and the LRU list as they were; with a
    reference count that is in range, the whole state is unchanged. *)
Theorem C9_mark_dirty_idempotent (E : CC_ENV) (s s1 : CC_STATE) (map off p : Z)
  (v : ROS_VACB) :
  CcRosLookupVacb E s map off = Returns p s1 ->
  p <> 0 ->
  Vacbs s !! p = Some v ->
  Dirty v = true ->
  exists s',
    CcRosMarkDirtyFile E s map off = Returns STATUS_SUCCESS s'
    /\ CcTotalDirtyPages s' = CcTotalDirtyPages s
    /\ DirtyVacbListHead s' = DirtyVacbListHead s
    /\ CacheMaps s' = CacheMaps s
    /\ VacbLruListHead s' = VacbLruListHead s
    /\ (0 < ReferenceCount v < 2 ^ 32 -> s' = s).
Proof.
  intros Hlook Hp Hv Hd.
  unfold CcRosMarkDirtyFile. rewrite Hlook. cbn [bind].
  destruct (p =? 0) eqn:Hp0; [apply Z.eqb_eq in Hp0; contradiction|].
  unfold CcRosLookupVacb in Hlook.
  destruct (CacheMaps s !! map) as [m|]; [|discriminate].
  destruct (lookup_walk_found E s s1 _ off p Hlook Hp) as (v0 & Hv0 & _ & _ & ->).
  rewrite Hv in Hv0. injection Hv0 as <-.
  rewrite set_vacb_lookup.
  unfold CcRosReleaseVacb. rewrite set_vacb_lookup.
  destruct v as [ba va di po mc fo sc rc pc]. cbn [Dirty ReferenceCount] in *. subst di.
  cc_unfold. cc_cbn. rewrite !lookup_insert_eq. cc_cbn.
  rewrite !insert_insert_eq, to_ULONG_sub_l.
  replace (rc + 1 - 1) with rc by lia.
  destruct (to_ULONG rc =? 0) eqn:Hz; eexists; (split; [reflexivity|]); cc_cbn.
  - repeat (split; [reflexivity|]). intros Hrc. exfalso.
    apply Z.eqb_eq in Hz. unfold to_ULONG in Hz. rewrite Z.mod_small in Hz; lia.
  - repeat (split; [reflexivity|]). intros Hrc.
    assert (Hr : to_ULONG rc = rc) by (unfold to_ULONG; apply Z.mod_small; lia).
    rewrite Hr, insert_id by exact Hv. destruct s; reflexivity.
Qed.

Lemma C9_mark_dirty_idempotent_witness :
  let E := demo_cc_env STATUS_SUCCESS in
  let s0 := cc_state_of demo_cache (CcRosRequestVacb E demo_cache 0x500 0 0x900) in
  let s := cc_state_of s0 (CcRosReleaseVacb E s0 0x500 0x900 true true false) in
  exists s',
    CcRosMarkDirtyFile E s 0x500 0x1234 = Returns STATUS_SUCCESS s'
    /\ CcTotalDirtyPages s' = CcTotalDirtyPages s
    /\ DirtyVacbListHead s' = DirtyVacbListHead s
    /\ CacheMaps s' = CacheMaps s
    /\ VacbLruListHead s' = VacbLruListHead s
    /\ (0 < ReferenceCount (mkVacb 0x80090000 true true false 0 0 0x500 2 0) < 2 ^ 32
        -> s' = s).
Proof.
  intros E s0 s.
  apply (C9_mark_dirty_idempotent E s
           (cc_state_of s (CcRosLookupVacb E s 0x500 0x1234)) 0x500 0x1234 0x900
           (mkVacb 0x80090000 true true false 0 0 0x500 2 0)).
  - vm_compute. reflexivity.
  - discriminate.
  - vm_compute. reflexivity.
  - reflexivity.
Defined.

(** C10: for an offset that is a multiple of the granularity, not below the
    section size of the map, and inside no window of the map's list,
    CcRosRequestVacb returns STATUS_INVALID_PARAMETER, which is not a
    success status, hands back no window, and leaves the state (the windows,
    the map's list, the dirty list and the LRU list) as it was. *)
Theorem C10_request_beyond_section (E : CC_ENV) (s : CC_STATE) (map off fresh : Z)
  (m : ROS_SHARED_CACHE_MAP) :
  CacheMaps s !! map = Some m ->
  Z.rem off (VACB_MAPPING_GRANULARITY E) = 0 ->
  SectionSize m <= off ->
  (forall p, In p (CacheMapVacbListHead m) ->
     exists v, Vacbs s !! p = Some v
               /\ IsPointInRange (FileOffset v) (VACB_MAPPING_GRANULARITY E) off = false) ->
  CcRosRequestVacb E s map off fresh
  = Returns (STATUS_INVALID_PARAMETER, mkInfo 0 0 false 0) s
  /\ NT_SUCCESS STATUS_INVALID_PARAMETER = false.
Proof.
  intros Hm Hal Hsz Hout. split; [|reflexivity].
  unfold CcRosRequestVacb. rewrite Hal. cbn [Z.eqb negb].
  unfold CcRosGetVacb, CcRosLookupVacb. rewrite Hm.
  rewrite (lookup_walk_none E s _ off Hout). cbn [bind Z.eqb].
  unfold CcRosCreateVacb. rewrite Hm.
  apply Z.leb_le in Hsz. rewrite Hsz. cbn [bind]. reflexivity.
Qed.

Lemma C10_request_beyond_section_witness :
  let E := demo_cc_env STATUS_SUCCESS in
  let s := cc_state_of demo_cache (CcRosRequestVacb E demo_cache 0x500 0 0x900) in
  CcRosRequestVacb E s 0x500 0x100000 0x901
  = Returns (STATUS_INVALID_PARAMETER, mkInfo 0 0 false 0) s
  /\ NT_SUCCESS STATUS_INVALID_PARAMETER = false.
Proof.
  intros E s.
  apply (C10_request_beyond_section E s 0x500 0x100000 0x901
           (mkMap 0x100000 0x100000 0 [0x900] 0 0)).
  - vm_compute. reflexivity.
  - reflexivity.
  - vm_compute. discriminate.
  - intros p [<-|[]].
    exists (mkVacb 0x80090000 false false false 0 0 0x500 2 0).
    split; vm_compute; reflexivity.
Defined.

(** ** Flushing *)

Lemma flush_account_spec (E : CC_ENV) (Status Target Count : Z) :
  flush_account E Status Target Count
  = if flush_credited Status
    then (Z.max 0 (Target - PagesPerVacb E), to_ULONG (Count + PagesPerVacb E))
    else (Target, Count).
Proof.
  unfold flush_account, flush_credited.
  destruct (NT_SUCCESS Status), (Status =? STATUS_END_OF_FILE),
    (Status =? STATUS_MEDIA_WRITE_PROTECTED); cbn [negb andb orb];
    try reflexivity;
    (destruct (Target <? PagesPerVacb E) eqn:Ht;
     [apply Z.ltb_lt in Ht | apply Z.ltb_ge in Ht]; f_equal; lia).
Qed.

Lemma flush_credited_iff (Status : Z) :
  flush_credited Status = true <->
  0 <= Status \/ Status = STATUS_END_OF_FILE \/ Status = STATUS_MEDIA_WRITE_PROTECTED.
Proof.
  unfold flush_credited, NT_SUCCESS.
  rewrite !orb_true_iff, Z.leb_le, !Z.eqb_eq. tauto.
Qed.

(** A turn of the loop of CcRosFlushDirtyPages that flushes the window: the
    status is the one CcRosFlushVacb returned; for a success status,
    STATUS_END_OF_FILE or STATUS_MEDIA_WRITE_PROTECTED the count grows by
    the pages of a window and the target drops by as many, stopping at
    zero; for any other status both are left as they were. *)
Lemma flush_one_accounting (E : CC_ENV) (s s' : CC_STATE) (current : Z)
  (Target Count Status Target' Count' : Z) (Wait CalledFromLazy : bool) :
  flush_one E s current Target Count Wait CalledFromLazy
  = Returns (Some Status, Target', Count') s' ->
  (exists s2 s3, CcRosFlushVacb E s2 current = Returns Status s3)
  /\ ((0 <= Status \/ Status = STATUS_END_OF_FILE
       \/ Status = STATUS_MEDIA_WRITE_PROTECTED) ->
      Count' = to_ULONG (Count + PagesPerVacb E)
      /\ Target' = Z.max 0 (Target - PagesPerVacb E))
  /\ (~ (0 <= Status \/ Status = STATUS_END_OF_FILE
         \/ Status = STATUS_MEDIA_WRITE_PROTECTED) ->
      Count' = Count /\ Target' = Target).
Proof.
  intros H. unfold flush_one in H.
  destruct (CcRosVacbIncRefCount s current) as [r1 s1| | |]; try discriminate.
  cbn [bind] in H.
  destruct (Vacbs s1 !! current) as [c|]; [|discriminate].
  destruct (CacheMaps s1 !! SharedCacheMap c) as [m|]; [|discriminate].
  destruct (CalledFromLazy && BooleanFlagOn (FileObjectFlags m) FO_TEMPORARY_FILE).
  { destruct (CcRosVacbDecRefCount s1 current); discriminate. }
  destruct (negb (AcquireForLazyWrite E s1 (LazyWriteContext m) Wait)).
  { destruct (CcRosVacbDecRefCount s1 current); discriminate. }
  destruct (CcRosVacbGetRefCount s1 current) as [Refs s2| | |]; try discriminate.
  cbn [bind] in H.
  destruct (2 <? Refs).
  { destruct (CcRosVacbDecRefCount s2 current); discriminate. }
  destruct (CcRosFlushVacb E s2 current) as [St s3| | |] eqn:Hflush; try discriminate.
  cbn [bind] in H.
  destruct (CcRosVacbDecRefCount s3 current) as [r4 s4| | |]; try discriminate.
  cbn [bind] in H.
  rewrite flush_account_spec in H.
  pose proof (flush_credited_iff St) as Hc.
  destruct (flush_credited St); injection H as <- <- <- <-.
  - split; [eauto|]. split; [auto|]. intros Hn. exfalso. apply Hn. apply Hc. reflexivity.
  - split; [eauto|]. split; [|auto]. intros Hy. apply Hc in Hy. discriminate.
Qed.

(** A window that is skipped leaves the count and the target alone. *)
Lemma flush_skip_accounting (E : CC_ENV) (s s' : CC_STATE) (current : Z)
  (Target Count Target' Count' : Z) (Wait CalledFromLazy : bool) :
  flush_one E s current Target Count Wait CalledFromLazy
  = Returns (None, Target', Count') s' ->
  Count' = Count /\ Target' = Target.
Proof.
  intros H. unfold flush_one in H.
  destruct (CcRosVacbIncRefCount s current) as [r1 s1| | |]; try discriminate.
  cbn [bind] in H.
  destruct (Vacbs s1 !! current) as [c|]; [|discriminate].
  destruct (CacheMaps s1 !! SharedCacheMap c) as [m|]; [|discriminate].
  destruct (CalledFromLazy && BooleanFlagOn (FileObjectFlags m) FO_TEMPORARY_FILE).
  { destruct (CcRosVacbDecRefCount s1 current); try discriminate.
    injection H as <- <- _. auto. }
  destruct (negb (AcquireForLazyWrite E s1 (LazyWriteContext m) Wait)).
  { destruct (CcRosVacbDecRefCount s1 current); try discriminate.
    injection H as <- <- _. auto. }
  destruct (CcRosVacbGetRefCount s1 current) as [Refs s2| | |]; try discriminate.
  cbn [bind] in H.
  destruct (2 <? Refs).
  { destruct (CcRosVacbDecRefCount s2 current); try discriminate.
    injection H as <- <- _. auto. }
  destruct (CcRosFlushVacb E s2 current) as [St s3| | |]; try discriminate.
  cbn [bind] in H.
  destruct (CcRosVacbDecRefCount s3 current) as [r4 s4| | |]; try discriminate.
  cbn [bind] in H.
  destruct (flush_account E St Target Count). discriminate.
Qed.

(** The three kinds of status on the window of [flush_ready], with a target
    of 1024 pages: a successful write-back is credited 64 pages, end-of-file
    is credited 64 pages, any other failure is credited nothing. *)
Example flush_one_statuses :
  result_of (flush_one (demo_cc_env STATUS_SUCCESS) flush_ready 0x900 1024 0 false false)
  = Some (Some STATUS_SUCCESS, 960, 64)
  /\ result_of (flush_one (demo_cc_env STATUS_END_OF_FILE) flush_ready 0x900 1024 0
                  false false)
     = Some (Some STATUS_END_OF_FILE, 960, 64)
  /\ result_of (flush_one (demo_cc_env STATUS_UNSUCCESSFUL) flush_ready 0x900 1024 0
                  false false)
     = Some (Some STATUS_UNSUCCESSFUL, 1024, 0).
Proof. vm_compute. repeat split; reflexivity. Qed.

(** The whole walk on [flush_ready]: after a successful write-back the
    window is clean and the walk ends with 64 pages; with end-of-file the
    window stays at the head of the dirty list and is flushed and credited
    again until the target of 1024 pages is used up. *)
Example flush_dirty_pages_runs :
  result_of (CcRosFlushDirtyPages (demo_cc_env STATUS_SUCCESS) 2 flush_ready 1024
               false false)
  = Some (STATUS_SUCCESS, 64)
  /\ result_of (CcRosFlushDirtyPages (demo_cc_env STATUS_END_OF_FILE) 17 flush_ready 1024
                  false false)
     = Some (STATUS_SUCCESS, 1024).
Proof. vm_compute. repeat split; reflexivity. Qed.

(** A window that was requested and released dirty holds two references
    (its lists and the dirty list); with the reference of the walk that
    makes three, and the walk passes it by. *)
Example flush_one_skips_released_window :
  let E := demo_cc_env STATUS_SUCCESS in
  let s0 := cc_state_of demo_cache (CcRosRequestVacb E demo_cache 0x500 0 0x900) in
  let s := cc_state_of s0 (CcRosReleaseVacb E s0 0x500 0x900 true true false) in
  (ReferenceCount <$> Vacbs s !! 0x900) = Some 2
  /\ result_of (flush_one E s 0x900 1024 0 false false) = Some (None, 1024, 0).
Proof. vm_compute. repeat split; reflexivity. Qed.

(** * Further properties of the handle table *)

(** What a successful GDIOBJ_AllocObjWithHandle went through. *)
Lemma alloc_inversion (E : GDI_ENV) (s s' : GDI_STATE) (ObjectType block p : Z) :
  GDIOBJ_AllocObjWithHandle E s ObjectType block = Returns p s' ->
  p <> 0 ->
  exists Index s1 Entry,
    p = block
    /\ InterlockedPopFreeEntry E (set_object s block (mkBody 0 0 0 0 0)) = Returns Index s1
    /\ Index <> 0
    /\ entry_at s1 Index = Some Entry
    /\ ProcessId Entry = 0
    /\ s' = bump_handle_count 1
              (set_object
                 (set_entry s1 Index
                    (mkEntry block (PsGetCurrentProcessId E)
                       (Z.lor (Z.lor (Z.land ObjectType GDI_HANDLE_BASETYPE_MASK)
                                     (Z.shiftr ObjectType GDI_ENTRY_UPPER_SHIFT))
                              (Z.land (Type_ Entry) GDI_ENTRY_REUSE_MASK))
                       (UserData Entry)))
                 block
                 (mkBody
                    (Z.lor (Z.land Index 0xFFFF)
                       (shl32
                          (Z.lor (Z.lor (Z.land ObjectType GDI_HANDLE_BASETYPE_MASK)
                                        (Z.shiftr ObjectType GDI_ENTRY_UPPER_SHIFT))
                                 (Z.land (Type_ Entry) GDI_ENTRY_REUSE_MASK))
                          GDI_ENTRY_UPPER_SHIFT))
                    0 1 (PsGetCurrentThreadWin32Thread E) 0)).
Proof.
  intros H Hp. unfold GDIOBJ_AllocObjWithHandle in H.
  destruct (match GDIHandleCount s with Some c => 10000 <=? c | None => false end);
    [injection H as <- _; contradiction|].
  unfold GDIOBJ_AllocObj in H.
  destruct (block =? 0) eqn:Hblock.
  { change (0 =? 0) with true in H. injection H as <- _. contradiction. }
  rewrite Hblock in H.
  destruct (InterlockedPopFreeEntry E (set_object s block (mkBody 0 0 0 0 0)))
    as [Index s1| | |] eqn:Hpop; try discriminate.
  pose proof (pop_keeps_table _ _ _ _ Hpop) as (HE & HO & HC).
  destruct (Index =? 0) eqn:HI; cbn [negb] in H.
  { injection H as <- _. contradiction. }
  apply Z.eqb_neq in HI.
  destruct (entry_at s1 Index) as [Entry|] eqn:HEntry; [|discriminate].
  destruct (ProcessId Entry =? 0) eqn:Hpid; [|discriminate].
  apply Z.eqb_eq in Hpid.
  assert (Hb : Objects (set_entry s1 Index
                  (mkEntry block (PsGetCurrentProcessId E)
                     (Z.lor (Z.lor (Z.land ObjectType GDI_HANDLE_BASETYPE_MASK)
                                   (Z.shiftr ObjectType GDI_ENTRY_UPPER_SHIFT))
                            (Z.land (Type_ Entry) GDI_ENTRY_REUSE_MASK))
                     (UserData Entry))) !! block = Some (mkBody 0 0 0 0 0)).
  { unfold set_entry. cbn [Objects]. rewrite HO. unfold set_object. cbn [Objects].
    apply lookup_insert_eq. }
  rewrite Hb in H. cbn [BaseFlags] in H.
  injection H as <- <-.
  exists Index, s1, Entry. repeat split; auto.
Qed.

(** X1: with the quota of 0x2710 handles reached, or with the pool
    exhausted, GDIOBJ_AllocObjWithHandle returns NULL and changes nothing. *)
Theorem alloc_refused_unchanged (E : GDI_ENV) (s : GDI_STATE) (ObjectType block : Z) :
  (exists c, GDIHandleCount s = Some c /\ 0x2710 <= c) \/ block = 0 ->
  GDIOBJ_AllocObjWithHandle E s ObjectType block = Returns 0 s.
Proof.
  intros [(c & Hc & Hq)| ->].
  - unfold GDIOBJ_AllocObjWithHandle. rewrite Hc.
    apply Z.leb_le in Hq. rewrite Hq. reflexivity.
  - unfold GDIOBJ_AllocObjWithHandle, GDIOBJ_AllocObj.
    destruct (match GDIHandleCount s with Some c => 10000 <=? c | None => false end);
      reflexivity.
Qed.

Lemma alloc_refused_unchanged_witness :
  GDIOBJ_AllocObjWithHandle demo_env demo_table GDI_OBJECT_TYPE_BRUSH 0
  = Returns 0 demo_table.
Proof.
  apply (alloc_refused_unchanged demo_env demo_table GDI_OBJECT_TYPE_BRUSH 0).
  right. reflexivity.
Defined.

(** X2: with no slot left (empty free list, frontier at or beyond the end
    of the table) GDIOBJ_AllocObjWithHandle returns NULL, the body it had
    taken is back in the pool, and the slots, the free list and the handle
    count are as before; only the frontier has moved on by one. *)
Theorem alloc_table_full (E : GDI_ENV) (s : GDI_STATE) (ObjectType block : Z) :
  (forall c, GDIHandleCount s = Some c -> c < 0x2710) ->
  block <> 0 ->
  Objects s !! block = None ->
  FirstFree s = 0 ->
  GDI_HANDLE_COUNT E <= FirstUnused s ->
  0 <= FirstUnused s < 2 ^ 32 - 1 ->
  exists s',
    GDIOBJ_AllocObjWithHandle E s ObjectType block = Returns 0 s'
    /\ Entries s' = Entries s /\ Objects s' = Objects s
    /\ FirstFree s' = 0 /\ GDIHandleCount s' = GDIHandleCount s
    /\ FirstUnused s' = FirstUnused s + 1.
Proof.
  intros Hq Hb Hfresh Hff Hfu Hrange.
    unfold GDIOBJ_AllocObjWithHandle, GDIOBJ_AllocObj.
    assert (Hq' : match GDIHandleCount s with Some c => 10000 <=? c | None => false end
                  = false).
    { destruct (GDIHandleCount s) as [c|]; [|reflexivity].
      apply Z.leb_gt. apply Hq. reflexivity. }
    rewrite Hq'. apply Z.eqb_neq in Hb. rewrite Hb. rewrite Hb.
    unfold InterlockedPopFreeEntry, set_object. cbn [FirstFree FirstUnused].
    rewrite Hff. cbn [Z.eqb].
    assert (Hw1 : to_ULONG (FirstUnused s + 1) = FirstUnused s + 1).
    { unfold to_ULONG. apply Z.mod_small. lia. }
    assert (Hw : to_ULONG (to_ULONG (FirstUnused s + 1) - 1) = FirstUnused s).
    { rewrite to_ULONG_sub_l. replace (FirstUnused s + 1 - 1) with (FirstUnused s) by lia.
      unfold to_ULONG. apply Z.mod_small. lia. }
    rewrite Hw, Hw1. apply Z.leb_le in Hfu. rewrite Hfu.
    cbn [Z.eqb negb]. eexists. split; [reflexivity|].
    unfold GDIOBJ_FreeObj, free_object.
    cbn [Entries Objects FirstFree FirstUnused GDIHandleCount].
    repeat split.
    rewrite delete_insert_eq. apply delete_id. exact Hfresh.
Qed.

Lemma alloc_table_full_witness :
  exists s',
    GDIOBJ_AllocObjWithHandle tiny_env tiny_full_table GDI_OBJECT_TYPE_BRUSH 0x3000
    = Returns 0 s'
    /\ Entries s' = Entries tiny_full_table /\ Objects s' = Objects tiny_full_table
    /\ FirstFree s' = 0 /\ GDIHandleCount s' = GDIHandleCount tiny_full_table
    /\ FirstUnused s' = FirstUnused tiny_full_table + 1.
Proof.
  apply (alloc_table_full tiny_env tiny_full_table GDI_OBJECT_TYPE_BRUSH 0x3000).
  - intros c Hc. vm_compute in Hc. injection Hc as <-. reflexivity.
  - discriminate.
  - vm_compute. reflexivity.
  - vm_compute. reflexivity.
  - vm_compute. discriminate.
  - vm_compute. split; [discriminate | reflexivity].
Defined.

(** X3: the free list is a stack. Pushing an unowned slot of the table
    (not slot 0) makes it the head and stores the old head in its
    [KernelData]; the pop that follows returns that very slot and puts the
    old head back, leaving every slot as the push left it. *)
Theorem push_pop_roundtrip (E : GDI_ENV) (s : GDI_STATE) (idx : Z) (e : GDI_TABLE_ENTRY) :
  entry_at s idx = Some e ->
  ProcessId e = 0 ->
  idx <> 0 ->
  exists s1 s2,
    InterlockedPushFreeEntry s idx = Returns tt s1
    /\ FirstFree s1 = idx
    /\ entry_at s1 idx = Some (mkEntry (FirstFree s) 0 (Type_ e) 0)
    /\ (forall j, j <> idx -> entry_at s1 j = entry_at s j)
    /\ InterlockedPopFreeEntry E s1 = Returns idx s2
    /\ FirstFree s2 = FirstFree s
    /\ Entries s2 = Entries s1
    /\ FirstUnused s2 = FirstUnused s
    /\ Objects s2 = Objects s.
Proof.
  intros He Hp Hidx.
  unfold InterlockedPushFreeEntry. rewrite He.
  eexists _, _. split; [reflexivity|].
  cbn [FirstFree].
  assert (He1 : entry_at (set_entry s idx (mkEntry (FirstFree s) (ProcessId e) (Type_ e) 0))
                  idx = Some (mkEntry (FirstFree s) 0 (Type_ e) 0)).
  { rewrite <- Hp at 2. eapply entry_at_set_entry_eq; eauto. }
  split; [reflexivity|].
  split; [exact He1|].
  split.
  { intros j Hj. unfold entry_at, set_entry in *. cbn [Entries].
    destruct (j <? 0) eqn:Hjn; [reflexivity|].
    destruct (idx <? 0) eqn:Hin; [discriminate|].
    apply list_lookup_insert_ne. apply Z.ltb_ge in Hjn, Hin. lia. }
  unfold InterlockedPopFreeEntry. cbn [FirstFree].
  apply Z.eqb_neq in Hidx. rewrite Hidx.
  unfold entry_at in He1 |- *. cbn [Entries] in He1 |- *. rewrite He1.
  cbn [ProcessId KernelData Z.eqb negb].
  split; [reflexivity|]. cbn [FirstFree Entries FirstUnused Objects].
  repeat split.
Qed.

Lemma push_pop_roundtrip_witness :
  exists s1 s2,
    InterlockedPushFreeEntry demo_table 12 = Returns tt s1
    /\ FirstFree s1 = 12
    /\ entry_at s1 12 = Some (mkEntry (FirstFree demo_table) 0 0 0)
    /\ (forall j, j <> 12 -> entry_at s1 j = entry_at demo_table j)
    /\ InterlockedPopFreeEntry demo_env s1 = Returns 12 s2
    /\ FirstFree s2 = FirstFree demo_table
    /\ Entries s2 = Entries s1
    /\ FirstUnused s2 = FirstUnused demo_table
    /\ Objects s2 = Objects demo_table.
Proof.
  apply (push_pop_roundtrip demo_env demo_table 12 (mkEntry 0 0 0 0)).
  - vm_compute. reflexivity.
  - reflexivity.
  - discriminate.
Defined.

(** What a GDIOBJ_LockObj that returned a body went through. *)
Lemma lock_inversion (E : GDI_ENV) (s s' : GDI_STATE) (h ty p : Z) :
  GDIOBJ_LockObj E s h ty = Returns p s' ->
  p <> 0 ->
  exists e o,
    entry_at s (GDI_HANDLE_GET_INDEX E h) = Some e
    /\ KernelData e = p
    /\ shl32 (Type_ e) GDI_ENTRY_UPPER_SHIFT = GDI_HANDLE_GET_UPPER h
    /\ Objects s !! p = Some o
    /\ ((cExclusiveLock o = 0
         /\ s' = set_object s p
                   (mkBody (hHmgr o) (ulShareCount o) 1
                           (PsGetCurrentThreadWin32Thread E) (BaseFlags o)))
        \/ (cExclusiveLock o <> 0
            /\ Tid o = PsGetCurrentThreadWin32Thread E
            /\ s' = set_object s p
                      (mkBody (hHmgr o) (ulShareCount o)
                              (to_ULONG (cExclusiveLock o + 1)) (Tid o) (BaseFlags o)))).
Proof.
  intros H Hp. unfold GDIOBJ_LockObj in H.
  destruct (GDI_HANDLE_COUNT E <=? GDI_HANDLE_GET_INDEX E h);
    [injection H as <- _; contradiction|].
  destruct (lock_type_mismatch h ty); [injection H as <- _; contradiction|].
  destruct (entry_at s (GDI_HANDLE_GET_INDEX E h)) as [e|]; [|discriminate].
  cbv zeta in H.
  destruct (negb (Z.land (PsGetCurrentProcessId E) (Z.lnot 1)
                  =? Z.land (ProcessId e) (Z.lnot 1))
            && negb (Z.land (ProcessId e) (Z.lnot 1) =? 0));
    [injection H as <- _; contradiction|].
  destruct (ProcessId e =? Z.land (ProcessId e) (Z.lnot 1)); [|discriminate].
  destruct (negb (KernelData e =? 0)) eqn:Hk; cbn [andb] in H;
    [|injection H as <- _; contradiction].
  destruct (shl32 (Type_ e) GDI_ENTRY_UPPER_SHIFT =? GDI_HANDLE_GET_UPPER h) eqn:Hu;
    [|injection H as <- _; contradiction].
  apply Z.eqb_eq in Hu.
  destruct (Objects s !! KernelData e) as [o|] eqn:Ho; [|discriminate].
  exists e, o.
  destruct (cExclusiveLock o =? 0) eqn:Hc.
  - injection H as <- <-. apply Z.eqb_eq in Hc. repeat split; auto.
  - destruct (negb (Tid o =? PsGetCurrentThreadWin32Thread E)) eqn:Ht; [discriminate|].
    injection H as <- <-. apply Z.eqb_neq in Hc.
    apply negb_false_iff, Z.eqb_eq in Ht. repeat split; auto.
Qed.

(** X4: GDIOBJ_LockObj hands out a body only to the thread that holds its
    exclusive lock afterwards: whenever it returns a body, that body carries
    the calling thread in [Tid], its depth is 1 if it was unlocked and one
    more than before if the calling thread held it already, the slot the
    handle names points to it, and nothing else in the table or the pool
    has changed. A body locked by another thread is never returned. *)
Theorem lock_grants_to_caller (E : GDI_ENV) (s s' : GDI_STATE) (h ty p : Z) :
  GDIOBJ_LockObj E s h ty = Returns p s' ->
  p <> 0 ->
  exists e o o',
    entry_at s (GDI_HANDLE_GET_INDEX E h) = Some e /\ KernelData e = p
    /\ Objects s !! p = Some o
    /\ Objects s' !! p = Some o'
    /\ Tid o' = PsGetCurrentThreadWin32Thread E
    /\ (cExclusiveLock o = 0 \/ Tid o = PsGetCurrentThreadWin32Thread E)
    /\ cExclusiveLock o'
       = (if cExclusiveLock o =? 0 then 1 else to_ULONG (cExclusiveLock o + 1))
    /\ ulShareCount o' = ulShareCount o /\ hHmgr o' = hHmgr o
    /\ BaseFlags o' = BaseFlags o
    /\ Entries s' = Entries s /\ FirstFree s' = FirstFree s
    /\ GDIHandleCount s' = GDIHandleCount s
    /\ (forall q, q <> p -> Objects s' !! q = Objects s !! q).
Proof.
  intros H Hp.
  destruct (lock_inversion E s s' h ty p H Hp)
    as (e & o & He & Hk & _ & Ho & [[Hc ->]|(Hc & Ht & ->)]).
  - exists e, o. eexists. unfold set_object. cbn [Objects Entries FirstFree GDIHandleCount].
    rewrite lookup_insert_eq, Hc. cbn [Z.eqb Tid cExclusiveLock ulShareCount hHmgr BaseFlags].
    repeat split; auto.
    intros q Hq. apply lookup_insert_ne. congruence.
  - exists e, o. eexists. unfold set_object. cbn [Objects Entries FirstFree GDIHandleCount].
    rewrite lookup_insert_eq. apply Z.eqb_neq in Hc. rewrite Hc.
    cbn [Tid cExclusiveLock ulShareCount hHmgr BaseFlags].
    repeat split; auto.
    intros q Hq. apply lookup_insert_ne. congruence.
Qed.

Lemma lock_grants_to_caller_witness :
  let s := state_of demo_table
             (GDIOBJ_AllocObjWithHandle demo_env demo_table GDI_OBJECT_TYPE_BRUSH 0x1000) in
  let s' := state_of s (GDIOBJ_LockObj demo_env s 0x0010000A GDI_OBJECT_TYPE_BRUSH) in
  exists e o o',
    entry_at s (GDI_HANDLE_GET_INDEX demo_env 0x0010000A) = Some e /\ KernelData e = 0x1000
    /\ Objects s !! 0x1000 = Some o
    /\ Objects s' !! 0x1000 = Some o'
    /\ Tid o' = PsGetCurrentThreadWin32Thread demo_env
    /\ (cExclusiveLock o = 0 \/ Tid o = PsGetCurrentThreadWin32Thread demo_env)
    /\ cExclusiveLock o'
       = (if cExclusiveLock o =? 0 then 1 else to_ULONG (cExclusiveLock o + 1))
    /\ ulShareCount o' = ulShareCount o /\ hHmgr o' = hHmgr o
    /\ BaseFlags o' = BaseFlags o
    /\ Entries s' = Entries s /\ FirstFree s' = FirstFree s
    /\ GDIHandleCount s' = GDIHandleCount s
    /\ (forall q, q <> 0x1000 -> Objects s' !! q = Objects s !! q).
Proof.
  intros s s'.
  apply (lock_grants_to_caller demo_env s s' 0x0010000A GDI_OBJECT_TYPE_BRUSH 0x1000).
  - vm_compute. reflexivity.
  - discriminate.
Defined.

(** X5: a re-entrant lock and its unlock cancel. When GDIOBJ_LockObj returns
    a body that the calling thread had locked already (depth between 1 and
    2^31 - 2), GDIOBJ_UnlockObjByPtr on that body returns the depth it had
    before the lock and the state is the one before the lock. *)
Theorem lock_unlock_roundtrip (E : GDI_ENV) (s s1 : GDI_STATE) (h ty p : Z)
  (o : BASEOBJECT) :
  GDIOBJ_LockObj E s h ty = Returns p s1 ->
  p <> 0 ->
  Objects s !! p = Some o ->
  0 < cExclusiveLock o < 2 ^ 31 - 1 ->
  GDIOBJ_UnlockObjByPtr s1 p = Returns (cExclusiveLock o) s.
Proof.
  intros H Hp Ho Hd.
  destruct (lock_inversion E s s1 h ty p H Hp)
    as (e & o0 & He & Hk & _ & Ho0 & Hcase).
  rewrite Ho in Ho0. injection Ho0 as <-.
  destruct Hcase as [[Hc _]|(Hc & Ht & ->)]; [lia|].
  unfold GDIOBJ_UnlockObjByPtr, set_object. cbn [Objects].
  rewrite lookup_insert_eq. cbn [cExclusiveLock hHmgr ulShareCount Tid BaseFlags].
  change (2 ^ 31) with 2147483648 in Hd.
  assert (H1 : to_ULONG (cExclusiveLock o + 1) = cExclusiveLock o + 1).
  { unfold to_ULONG. apply Z.mod_small. change (2 ^ 32) with 4294967296. lia. }
  rewrite H1. replace (cExclusiveLock o + 1 - 1) with (cExclusiveLock o) by lia.
  assert (H2 : to_ULONG (cExclusiveLock o) = cExclusiveLock o).
  { unfold to_ULONG. apply Z.mod_small. change (2 ^ 32) with 4294967296. lia. }
  rewrite H2.
  assert (H3 : to_LONG (cExclusiveLock o) = cExclusiveLock o).
  { unfold to_LONG. change (2 ^ 31) with 2147483648.
    change (2 ^ 32) with 4294967296. rewrite Z.mod_small by lia. lia. }
  rewrite H3. f_equal.
  cbn [Entries FirstFree FirstUnused GDIHandleCount].
  rewrite insert_insert_eq.
  rewrite insert_id by (destruct o; exact Ho).
  destruct s; reflexivity.
Qed.

Lemma lock_unlock_roundtrip_witness :
  let s := state_of demo_table
             (GDIOBJ_AllocObjWithHandle demo_env demo_table GDI_OBJECT_TYPE_BRUSH 0x1000) in
  let s1 := state_of s (GDIOBJ_LockObj demo_env s 0x0010000A GDI_OBJECT_TYPE_BRUSH) in
  GDIOBJ_UnlockObjByPtr s1 0x1000
  = Returns (cExclusiveLock (mkBody 0x0010000A 0 1 0x30 0)) s.
Proof.
  intros s s1.
  apply (lock_unlock_roundtrip demo_env s s1 0x0010000A GDI_OBJECT_TYPE_BRUSH 0x1000
           (mkBody 0x0010000A 0 1 0x30 0)).
  - vm_compute. reflexivity.
  - discriminate.
  - vm_compute. reflexivity.
  - vm_compute. split; reflexivity.
Defined.

(** ** Handles bit by bit *)

Lemma shl32_as_shiftl (t : Z) : shl32 t 16 = Z.shiftl (Z.land t (Z.ones 16)) 16.
Proof.
  rewrite shl32_16, Z.shiftl_mul_pow2 by lia. rewrite Z.land_ones by lia. reflexivity.
Qed.

Lemma land_low_shiftl (a b : Z) : Z.land (Z.land a (Z.ones 16)) (Z.shiftl b 16) = 0.
Proof.
  apply Z.bits_inj'. intros n Hn. rewrite !Z.land_spec, Z.bits_0.
  destruct (Z.ltb_spec n 16).
  - rewrite Z.shiftl_spec_low by lia. apply andb_false_r.
  - rewrite Z.ones_spec_high by lia. rewrite andb_false_r. reflexivity.
Qed.

(** The part of a handle that a mask [m << 16] selects. *)
Lemma handle_land_high (i t m : Z) :
  Z.land (Z.lor (Z.land i 0xFFFF) (shl32 t 16)) (Z.shiftl m 16)
  = Z.shiftl (Z.land t (Z.land (Z.ones 16) m)) 16.
Proof.
  rewrite Z.land_lor_distr_l. change 65535 with (Z.ones 16).
  rewrite land_low_shiftl, Z.lor_0_l, shl32_as_shiftl.
  rewrite <- Z.shiftl_land, Z.land_assoc. reflexivity.
Qed.

(** The part of a handle that a mask inside the low 16 bits selects. *)
Lemma handle_land_low (i t m : Z) :
  0 <= m < 2 ^ 16 ->
  Z.land (Z.lor (Z.land i 0xFFFF) (shl32 t 16)) m = Z.land i m.
Proof.
  intros Hm.
  assert (Hmm : Z.land m (Z.ones 16) = m).
  { rewrite Z.land_ones by lia. apply Z.mod_small. exact Hm. }
  rewrite Z.land_lor_distr_l. change 65535 with (Z.ones 16).
  assert (Hz : Z.land (shl32 t 16) m = 0).
  { rewrite <- Hmm, Z.land_comm, shl32_as_shiftl. apply land_low_shiftl. }
  rewrite Hz, Z.lor_0_r.
  rewrite <- Z.land_assoc, (Z.land_comm (Z.ones 16)), Hmm. reflexivity.
Qed.

(** An object type made of type bits only is its own bits 16 to 22. *)
Lemma plain_type_shift (ty : Z) :
  Z.land ty GDI_HANDLE_TYPE_MASK = ty ->
  Z.land (Z.shiftr ty 16) 0x7f = Z.shiftr ty 16
  /\ Z.shiftl (Z.shiftr ty 16) 16 = ty.
Proof.
  intros H. split.
  - rewrite <- H at 2. rewrite Z.shiftr_land. reflexivity.
  - apply Z.bits_inj'. intros n Hn.
    destruct (Z.ltb_spec n 16).
    + rewrite Z.shiftl_spec_low by lia. rewrite <- H, Z.land_spec.
      change GDI_HANDLE_TYPE_MASK with (Z.shiftl 0x7f 16).
      rewrite Z.shiftl_spec_low by lia. rewrite andb_false_r. reflexivity.
    + rewrite Z.shiftl_spec by lia. rewrite Z.shiftr_spec by lia.
      f_equal. lia.
Qed.

(** The type field GDIOBJ_AllocObjWithHandle stores for a plain object type
    [ty] in a slot whose old type field was [t0]. *)
Lemma alloc_type_parts (ty t0 : Z) :
  Z.land ty GDI_HANDLE_TYPE_MASK = ty ->
  let T := Z.lor (Z.lor (Z.land ty GDI_HANDLE_BASETYPE_MASK)
                        (Z.shiftr ty GDI_ENTRY_UPPER_SHIFT))
                 (Z.land t0 GDI_ENTRY_REUSE_MASK) in
  Z.land T 0x7f = Z.shiftr ty 16
  /\ Z.land T 0x80 = 0
  /\ Z.land T GDI_ENTRY_BASETYPE_MASK = Z.land ty GDI_HANDLE_BASETYPE_MASK.
Proof.
  intros H T. destruct (plain_type_shift ty H) as [Hu _].
  unfold T. change GDI_ENTRY_UPPER_SHIFT with 16.
  rewrite <- Hu. rewrite !Z.land_lor_distr_l, <- !Z.land_assoc.
  change (Z.land GDI_HANDLE_BASETYPE_MASK 127) with 0.
  change (Z.land GDI_ENTRY_REUSE_MASK 127) with 0.
  change (Z.land GDI_HANDLE_BASETYPE_MASK 128) with 0.
  change (Z.land GDI_ENTRY_REUSE_MASK 128) with 0.
  change (Z.land 127 127) with 127. change (Z.land 127 128) with 0.
  change (Z.land GDI_HANDLE_BASETYPE_MASK GDI_ENTRY_BASETYPE_MASK)
    with GDI_HANDLE_BASETYPE_MASK.
  change (Z.land 127 GDI_ENTRY_BASETYPE_MASK) with 0.
  change (Z.land GDI_ENTRY_REUSE_MASK GDI_ENTRY_BASETYPE_MASK) with 0.
  rewrite !Z.land_0_r, !Z.lor_0_l, !Z.lor_0_r. repeat split; reflexivity.
Qed.

(** X6: once GDIOBJ_FreeObjByHandle has let a body go, the handle is dead
    for every other routine: GDIOBJ_LockObj and GDIOBJ_ShareLockObj return
    NULL for it whatever type is expected and leave the state alone,
    GDIOBJ_OwnedByCurrentProcess answers FALSE and IsObjectDead answers
    TRUE. *)
Theorem freed_handle_is_rejected (E : GDI_ENV) (s : GDI_STATE) (h ty : Z)
  (e : GDI_TABLE_ENTRY) (o : BASEOBJECT) (cleanup : BASEOBJECT -> bool) :
  GDI_HANDLE_IS_STOCKOBJ h = false ->
  free_type_check h ty = true ->
  entry_at s (GDI_HANDLE_GET_INDEX E h) = Some e ->
  free_slot_check E h e = true ->
  Objects s !! KernelData e = Some o ->
  body_unlocked E o = true ->
  CleanupProc E (GDI_OBJECT_GET_TYPE_INDEX (GDI_HANDLE_GET_TYPE h)) = Some cleanup ->
  exists ret s',
    GDIOBJ_FreeObjByHandle E s h ty = Returns ret s'
    /\ (forall ty', GDIOBJ_LockObj E s' h ty' = Returns 0 s')
    /\ (forall ty', GDIOBJ_ShareLockObj E s' h ty' = Returns 0 s')
    /\ GDIOBJ_OwnedByCurrentProcess E s' h = Some false
    /\ IsObjectDead E s' h = Some true.
Proof.
  intros Hstock Hty He Hslot Ho Hun Hcl.
  destruct (free_path E s h ty e o cleanup Hstock Hty He Hslot Ho Hun Hcl)
    as (ret & s' & Hrun & He' & _).
  exists ret, s'. split; [exact Hrun|].
  assert (Hup : shl32 (Type_ e) 16 = GDI_HANDLE_GET_UPPER h).
  { unfold free_slot_check in Hslot.
    apply andb_true_iff in Hslot as [Hslot _].
    apply andb_true_iff in Hslot as [_ Hc]. apply Z.eqb_eq in Hc. exact Hc. }
  assert (Hne : (shl32 (freed_type (Type_ e)) GDI_ENTRY_UPPER_SHIFT
                 =? GDI_HANDLE_GET_UPPER h) = false).
  { apply Z.eqb_neq. rewrite <- Hup. apply freed_type_shl. }
  assert (Hne' : (GDI_HANDLE_GET_UPPER h
                  =? shl32 (freed_type (Type_ e)) GDI_ENTRY_UPPER_SHIFT) = false).
  { rewrite Z.eqb_sym. exact Hne. }
  split; [|split; [|split]].
  - intros ty'. unfold GDIOBJ_LockObj.
    destruct (GDI_HANDLE_COUNT E <=? GDI_HANDLE_GET_INDEX E h); [reflexivity|].
    destruct (lock_type_mismatch h ty'); [reflexivity|].
    rewrite He'. cbn [ProcessId KernelData Type_].
    change (Z.land 0 (Z.lnot 1)) with 0. cbn [Z.eqb negb].
    rewrite andb_false_r, Hne, andb_false_r. reflexivity.
  - intros ty'. unfold GDIOBJ_ShareLockObj.
    destruct (GDI_HANDLE_COUNT E <=? GDI_HANDLE_GET_INDEX E h); [reflexivity|].
    destruct (lock_type_mismatch h ty'); [reflexivity|].
    rewrite He'. cbn [ProcessId KernelData Type_].
    change (Z.land 0 (Z.lnot 1)) with 0. cbn [Z.eqb negb].
    rewrite andb_false_r, Hne', andb_false_r. reflexivity.
  - unfold GDIOBJ_OwnedByCurrentProcess. rewrite Hstock, He'. cbn [negb Type_].
    rewrite freed_type_basetype. cbn [Z.eqb negb]. rewrite andb_false_r. reflexivity.
  - unfold IsObjectDead. rewrite He'. cbn [Type_].
    rewrite freed_type_basetype. reflexivity.
Qed.

Lemma freed_handle_is_rejected_witness :
  let s := state_of demo_table
             (GDIOBJ_AllocObjWithHandle demo_env demo_table GDI_OBJECT_TYPE_BRUSH 0x1000) in
  exists ret s',
    GDIOBJ_FreeObjByHandle demo_env s 0x0010000A GDI_OBJECT_TYPE_BRUSH = Returns ret s'
    /\ (forall ty', GDIOBJ_LockObj demo_env s' 0x0010000A ty' = Returns 0 s')
    /\ (forall ty', GDIOBJ_ShareLockObj demo_env s' 0x0010000A ty' = Returns 0 s')
    /\ GDIOBJ_OwnedByCurrentProcess demo_env s' 0x0010000A = Some false
    /\ IsObjectDead demo_env s' 0x0010000A = Some true.
Proof.
  intros s.
  apply (freed_handle_is_rejected demo_env s 0x0010000A GDI_OBJECT_TYPE_BRUSH
           (mkEntry 0x1000 4 0x100010 0) (mkBody 0x0010000A 0 1 0x30 0)
           (BRUSH_Cleanup demo_env));
    vm_compute; reflexivity.
Defined.

(** X7: a handle is good as soon as it is minted. When
    GDIOBJ_AllocObjWithHandle returns a body for an object type made of type
    bits only, on a table of GDI_HANDLE_COUNT slots whose index mask fits,
    and for a process id with a clear low bit, the stored handle names the
    slot that points to the body, is not a stock handle, and passes
    GDIOBJ_ValidateHandle for that type; if the type has a base type,
    GDIOBJ_OwnedByCurrentProcess answers TRUE and IsObjectDead FALSE. *)
Theorem alloc_handle_validates (E : GDI_ENV) (s s' : GDI_STATE) (ty block p : Z) :
  GDIOBJ_AllocObjWithHandle E s ty block = Returns p s' ->
  p <> 0 ->
  index_mask_fits E ->
  Z.of_nat (length (Entries s)) = GDI_HANDLE_COUNT E ->
  Z.land ty GDI_HANDLE_TYPE_MASK = ty ->
  Z.land (PsGetCurrentProcessId E) (Z.lnot 1) = PsGetCurrentProcessId E ->
  exists body e',
    Objects s' !! p = Some body
    /\ entry_at s' (GDI_HANDLE_GET_INDEX E (hHmgr body)) = Some e'
    /\ KernelData e' = p
    /\ GDI_HANDLE_IS_STOCKOBJ (hHmgr body) = false
    /\ GDI_HANDLE_GET_TYPE (hHmgr body) = ty
    /\ GDIOBJ_ValidateHandle E s' (hHmgr body) ty = Some true
    /\ (Z.land ty GDI_HANDLE_BASETYPE_MASK <> 0 ->
        GDIOBJ_OwnedByCurrentProcess E s' (hHmgr body) = Some true
        /\ IsObjectDead E s' (hHmgr body) = Some false).
Proof.
  intros H Hp [Hmask Hfit] Hlen Hty Hpideven.
  destruct (alloc_inversion E s s' ty block p H Hp)
    as (Index & s1 & Entry & -> & Hpop & HI & HEntry & Hpid & ->).
  pose proof (pop_keeps_table _ _ _ _ Hpop) as (HE & HO & HC).
  set (T := Z.lor (Z.lor (Z.land ty GDI_HANDLE_BASETYPE_MASK)
                         (Z.shiftr ty GDI_ENTRY_UPPER_SHIFT))
                  (Z.land (Type_ Entry) GDI_ENTRY_REUSE_MASK)).
  destruct (alloc_type_parts ty (Type_ Entry) Hty) as (HT7 & HT8 & HTB). fold T in HT7, HT8, HTB.
  destruct (plain_type_shift ty Hty) as [Hu Hsh].
  change GDI_ENTRY_UPPER_SHIFT with 16 in *.
  set (hdl := Z.lor (Z.land Index 65535) (shl32 T 16)).
  assert (HIr : 0 <= Index < GDI_HANDLE_COUNT E).
  { unfold entry_at in HEntry. destruct (Index <? 0) eqn:Hn; [discriminate|].
    apply Z.ltb_ge in Hn. apply lookup_lt_Some in HEntry.
    rewrite HE in HEntry. unfold set_object in HEntry. cbn [Entries] in HEntry. lia. }
  assert (Hidx : GDI_HANDLE_GET_INDEX E hdl = Index).
  { unfold GDI_HANDLE_GET_INDEX, hdl. rewrite handle_land_low by exact Hmask.
    apply Hfit. exact HIr. }
  assert (Hent : entry_at
                   (bump_handle_count 1
                      (set_object
                         (set_entry s1 Index
                            (mkEntry block (PsGetCurrentProcessId E) T (UserData Entry)))
                         block (mkBody hdl 0 1 (PsGetCurrentThreadWin32Thread E) 0)))
                   Index
                 = Some (mkEntry block (PsGetCurrentProcessId E) T (UserData Entry))).
  { apply (entry_at_set_entry_eq s1 Index _ Entry HEntry). }
  assert (Hupper : GDI_HANDLE_GET_UPPER hdl = shl32 T 16).
  { unfold GDI_HANDLE_GET_UPPER, hdl.
    change GDI_HANDLE_UPPER_MASK with (Z.shiftl 0xffff 16).
    rewrite handle_land_high. change (Z.land (Z.ones 16) 65535) with (Z.ones 16).
    symmetry. apply shl32_as_shiftl. }
  assert (Htype : GDI_HANDLE_GET_TYPE hdl = ty).
  { unfold GDI_HANDLE_GET_TYPE, hdl.
    change GDI_HANDLE_TYPE_MASK with (Z.shiftl 0x7f 16).
    rewrite handle_land_high. change (Z.land (Z.ones 16) 127) with 127.
    rewrite HT7. exact Hsh. }
  assert (Hstock : GDI_HANDLE_IS_STOCKOBJ hdl = false).
  { unfold GDI_HANDLE_IS_STOCKOBJ, hdl.
    change GDI_HANDLE_STOCK_MASK with (Z.shiftl 0x80 16).
    rewrite handle_land_high. change (Z.land (Z.ones 16) 128) with 128.
    rewrite HT8. reflexivity. }
  eexists _, _.
  split; [unfold bump_handle_count, set_object; cbn [Objects]; apply lookup_insert_eq|].
  cbn [hHmgr]. fold hdl. rewrite Hidx.
  split; [exact Hent|]. cbn [KernelData].
  split; [reflexivity|]. split; [exact Hstock|]. split; [exact Htype|].
  split.
  - unfold GDIOBJ_ValidateHandle. fold (GDI_HANDLE_GET_TYPE hdl).
    rewrite Htype, Z.eqb_refl, Hidx, Hent. cbn [Type_ ProcessId].
    change GDI_ENTRY_UPPER_SHIFT with 16. rewrite Hupper, Z.eqb_refl.
    rewrite Hpideven, Z.eqb_refl, orb_true_r. reflexivity.
  - intros Hbase.
    unfold GDIOBJ_OwnedByCurrentProcess, IsObjectDead.
    rewrite Hstock, Hidx, Hent. cbn [negb KernelData Type_ ProcessId].
    rewrite HTB. apply Z.eqb_neq in Hbase, Hp. rewrite Hbase, Hp. cbn [negb andb].
    rewrite Hpideven, Z.eqb_refl. split; reflexivity.
Qed.

Lemma index_mask_fits_demo : index_mask_fits demo_env.
Proof.
  split; [vm_compute; split; [discriminate | reflexivity]|].
  intros i Hi. cbn [GDI_HANDLE_INDEX_MASK GDI_HANDLE_COUNT demo_env] in *.
  change 65535 with (Z.ones 16). rewrite Z.land_ones by lia.
  apply Z.mod_small. change (2 ^ 16) with 65536. lia.
Defined.

Lemma alloc_handle_validates_witness :
  let s' := state_of demo_table
              (GDIOBJ_AllocObjWithHandle demo_env demo_table GDI_OBJECT_TYPE_BRUSH 0x1000) in
  exists body e',
    Objects s' !! 0x1000 = Some body
    /\ entry_at s' (GDI_HANDLE_GET_INDEX demo_env (hHmgr body)) = Some e'
    /\ KernelData e' = 0x1000
    /\ GDI_HANDLE_IS_STOCKOBJ (hHmgr body) = false
    /\ GDI_HANDLE_GET_TYPE (hHmgr body) = GDI_OBJECT_TYPE_BRUSH
    /\ GDIOBJ_ValidateHandle demo_env s' (hHmgr body) GDI_OBJECT_TYPE_BRUSH = Some true
    /\ (Z.land GDI_OBJECT_TYPE_BRUSH GDI_HANDLE_BASETYPE_MASK <> 0 ->
        GDIOBJ_OwnedByCurrentProcess demo_env s' (hHmgr body) = Some true
        /\ IsObjectDead demo_env s' (hHmgr body) = Some false).
Proof.
  intros s'.
  apply (alloc_handle_validates demo_env demo_table s' GDI_OBJECT_TYPE_BRUSH 0x1000 0x1000).
  - vm_compute. reflexivity.
  - discriminate.
  - exact index_mask_fits_demo.
  - vm_compute. reflexivity.
  - reflexivity.
  - reflexivity.
Defined.

Lemma handle_upper (i t : Z) :
  GDI_HANDLE_GET_UPPER (Z.lor (Z.land i 0xFFFF) (shl32 t 16)) = shl32 t 16.
Proof.
  unfold GDI_HANDLE_GET_UPPER. change GDI_HANDLE_UPPER_MASK with (Z.shiftl 0xffff 16).
  rewrite handle_land_high. change (Z.land (Z.ones 16) 65535) with (Z.ones 16).
  symmetry. apply shl32_as_shiftl.
Qed.

Lemma shl32_reusecnt (a b : Z) :
  shl32 a 16 = shl32 b 16 -> GDI_ENTRY_GET_REUSECNT a = GDI_ENTRY_GET_REUSECNT b.
Proof.
  rewrite !shl32_16, !reusecnt_low16. intros H.
  apply Z.mul_cancel_r in H; [|discriminate]. rewrite H. reflexivity.
Qed.

(** X8: a slot that is used again mints a different handle. After
    GDIOBJ_FreeObjByHandle has let a body go, the next
    GDIOBJ_AllocObjWithHandle (quota not reached, pool not exhausted) takes
    that very slot from the head of the free list; the handle it mints
    differs from the freed one, and the freed handle still fails
    GDIOBJ_ValidateHandle although the slot is live again. *)
Theorem reused_slot_new_handle (E : GDI_ENV) (s : GDI_STATE) (h ty ty2 block2 : Z)
  (e : GDI_TABLE_ENTRY) (o : BASEOBJECT) (cleanup : BASEOBJECT -> bool) :
  GDI_HANDLE_IS_STOCKOBJ h = false ->
  free_type_check h ty = true ->
  entry_at s (GDI_HANDLE_GET_INDEX E h) = Some e ->
  free_slot_check E h e = true ->
  Objects s !! KernelData e = Some o ->
  body_unlocked E o = true ->
  CleanupProc E (GDI_OBJECT_GET_TYPE_INDEX (GDI_HANDLE_GET_TYPE h)) = Some cleanup ->
  GDI_HANDLE_GET_INDEX E h <> 0 ->
  (forall c, GDIHandleCount s = Some c -> to_LONG (c - 1) < 0x2710) ->
  block2 <> 0 ->
  0 <= ty2 < 2 ^ 24 ->
  exists ret s1 s2 body e2,
    GDIOBJ_FreeObjByHandle E s h ty = Returns ret s1
    /\ GDIOBJ_AllocObjWithHandle E s1 ty2 block2 = Returns block2 s2
    /\ Objects s2 !! block2 = Some body
    /\ entry_at s2 (GDI_HANDLE_GET_INDEX E h) = Some e2
    /\ KernelData e2 = block2
    /\ hHmgr body
       = Z.lor (Z.land (GDI_HANDLE_GET_INDEX E h) 0xFFFF) (shl32 (Type_ e2) 16)
    /\ GDI_ENTRY_GET_REUSECNT (Type_ e2)
       = (GDI_ENTRY_GET_REUSECNT (Type_ e) + 1) mod 2 ^ 8
    /\ GDI_HANDLE_GET_UPPER (hHmgr body) <> GDI_HANDLE_GET_UPPER h
    /\ hHmgr body <> h
    /\ (forall ty', GDIOBJ_ValidateHandle E s2 h ty' = Some false).
Proof.
  intros Hstock Hty He Hslot Ho Hun Hcl Hidx Hquota Hb2 Hty2.
  destruct (free_path E s h ty e o cleanup Hstock Hty He Hslot Ho Hun Hcl)
    as (ret & s1 & Hrun & He1 & Hff & _ & Hcount).
  assert (Hup : shl32 (Type_ e) 16 = GDI_HANDLE_GET_UPPER h).
  { unfold free_slot_check in Hslot.
    apply andb_true_iff in Hslot as [Hslot _].
    apply andb_true_iff in Hslot as [_ Hc]. apply Z.eqb_eq in Hc. exact Hc. }
  set (idx := GDI_HANDLE_GET_INDEX E h) in *.
  set (T2 := Z.lor (Z.lor (Z.land ty2 GDI_HANDLE_BASETYPE_MASK)
                          (Z.shiftr ty2 GDI_ENTRY_UPPER_SHIFT))
                   (Z.land (freed_type (Type_ e)) GDI_ENTRY_REUSE_MASK)).
  assert (Hrun2 : GDIOBJ_AllocObjWithHandle E s1 ty2 block2
                  = Returns block2
                      (bump_handle_count 1
                         (set_object
                            (set_entry
                               (mkGdi (Entries s1) (FirstFree s) (FirstUnused s1)
                                      (<[block2 := mkBody 0 0 0 0 0]> (Objects s1))
                                      (GDIHandleCount s1))
                               idx (mkEntry block2 (PsGetCurrentProcessId E) T2 0))
                            block2
                            (mkBody (Z.lor (Z.land idx 0xFFFF) (shl32 T2 16)) 0 1
                                    (PsGetCurrentThreadWin32Thread E) 0)))).
  { unfold GDIOBJ_AllocObjWithHandle, GDIOBJ_AllocObj.
    assert (Hq : match GDIHandleCount s1 with Some c => 10000 <=? c | None => false end
                 = false).
    { rewrite Hcount. destruct (GDIHandleCount s) as [c|]; [|reflexivity].
      cbn [option_map]. apply Z.leb_gt. apply Hquota. reflexivity. }
    rewrite Hq. apply Z.eqb_neq in Hb2. rewrite Hb2. rewrite Hb2.
    unfold InterlockedPopFreeEntry, set_object. cbn [FirstFree FirstUnused Entries].
    rewrite Hff. apply Z.eqb_neq in Hidx as Hidx0. rewrite Hidx0.
    unfold entry_at in He1 |- *. cbn [Entries].
    destruct (idx <? 0) eqn:Hneg; [discriminate|].
    rewrite He1. cbn [ProcessId KernelData Z.eqb negb]. rewrite Hidx0. cbn [negb].
    unfold set_entry. cbn [Entries Objects FirstFree FirstUnused GDIHandleCount].
    rewrite Hneg, He1. cbn [ProcessId Z.eqb Type_ UserData].
    rewrite lookup_insert_eq. cbn [BaseFlags]. reflexivity. }
  assert (He2 : entry_at
                  (bump_handle_count 1
                     (set_object
                        (set_entry
                           (mkGdi (Entries s1) (FirstFree s) (FirstUnused s1)
                                  (<[block2 := mkBody 0 0 0 0 0]> (Objects s1))
                                  (GDIHandleCount s1))
                           idx (mkEntry block2 (PsGetCurrentProcessId E) T2 0))
                        block2
                        (mkBody (Z.lor (Z.land idx 0xFFFF) (shl32 T2 16)) 0 1
                                (PsGetCurrentThreadWin32Thread E) 0)))
                  idx
                = Some (mkEntry block2 (PsGetCurrentProcessId E) T2 0)).
  { unfold entry_at in He1 |- *. unfold bump_handle_count, set_object, set_entry.
    cbn [Entries]. destruct (idx <? 0); [discriminate|].
    apply list_lookup_insert_eq. eapply lookup_lt_Some; eauto. }
  assert (Hr2 : GDI_ENTRY_GET_REUSECNT T2
                = (GDI_ENTRY_GET_REUSECNT (Type_ e) + 1) mod 2 ^ 8).
  { unfold T2. rewrite (alloc_type_reusecnt ty2 (freed_type (Type_ e)) Hty2).
    apply freed_type_reusecnt. }
  assert (Hne : shl32 T2 16 <> shl32 (Type_ e) 16).
  { intros Heq. apply shl32_reusecnt in Heq. rewrite Hr2 in Heq.
    rewrite reusecnt_div in Heq. change (2 ^ 8) with 256 in Heq.
    revert Heq. Z.to_euclidean_division_equations. lia. }
  eexists ret, s1, _, _, _.
  split; [exact Hrun|]. split; [exact Hrun2|].
  split; [unfold bump_handle_count, set_object; cbn [Objects]; apply lookup_insert_eq|].
  split; [exact He2|].
  cbn [KernelData Type_ hHmgr].
  split; [reflexivity|]. split; [reflexivity|]. split; [exact Hr2|].
  split; [rewrite handle_upper, <- Hup; exact Hne|].
  split.
  { intros Heq. apply (f_equal GDI_HANDLE_GET_UPPER) in Heq.
    rewrite handle_upper, <- Hup in Heq. exact (Hne Heq). }
  intros ty'. unfold GDIOBJ_ValidateHandle. fold idx. rewrite He2. cbn [Type_ ProcessId].
  change GDI_ENTRY_UPPER_SHIFT with 16.
  destruct (Z.land h GDI_HANDLE_TYPE_MASK =? ty'); [|reflexivity].
  rewrite <- Hup. apply Z.eqb_neq in Hne. rewrite Hne. reflexivity.
Qed.

Lemma reused_slot_new_handle_witness :
  let s := state_of demo_table
             (GDIOBJ_AllocObjWithHandle demo_env demo_table GDI_OBJECT_TYPE_BRUSH 0x1000) in
  let e := mkEntry 0x1000 4 0x100010 0 in
  exists ret s1 s2 body e2,
    GDIOBJ_FreeObjByHandle demo_env s 0x0010000A GDI_OBJECT_TYPE_BRUSH = Returns ret s1
    /\ GDIOBJ_AllocObjWithHandle demo_env s1 GDI_OBJECT_TYPE_BRUSH 0x2000 = Returns 0x2000 s2
    /\ Objects s2 !! 0x2000 = Some body
    /\ entry_at s2 (GDI_HANDLE_GET_INDEX demo_env 0x0010000A) = Some e2
    /\ KernelData e2 = 0x2000
    /\ hHmgr body
       = Z.lor (Z.land (GDI_HANDLE_GET_INDEX demo_env 0x0010000A) 0xFFFF)
               (shl32 (Type_ e2) 16)
    /\ GDI_ENTRY_GET_REUSECNT (Type_ e2)
       = (GDI_ENTRY_GET_REUSECNT (Type_ e) + 1) mod 2 ^ 8
    /\ GDI_HANDLE_GET_UPPER (hHmgr body) <> GDI_HANDLE_GET_UPPER 0x0010000A
    /\ hHmgr body <> 0x0010000A
    /\ (forall ty', GDIOBJ_ValidateHandle demo_env s2 0x0010000A ty' = Some false).
Proof.
  intros s e.
  apply (reused_slot_new_handle demo_env s 0x0010000A GDI_OBJECT_TYPE_BRUSH
           GDI_OBJECT_TYPE_BRUSH 0x2000 e (mkBody 0x0010000A 0 1 0x30 0)
           (BRUSH_Cleanup demo_env)).
  - vm_compute. reflexivity.
  - vm_compute. reflexivity.
  - vm_compute. reflexivity.
  - vm_compute. reflexivity.
  - vm_compute. reflexivity.
  - vm_compute. reflexivity.
  - vm_compute. reflexivity.
  - vm_compute. discriminate.
  - intros c Hc. assert (Hs : GDIHandleCount s = Some 1) by (vm_compute; reflexivity).
    rewrite Hs in Hc. injection Hc as <-. vm_compute. reflexivity.
  - discriminate.
  - vm_compute. split; [discriminate | reflexivity].
Defined.

(** ** The shape of the table *)

Lemma entry_at_ext (s s' : GDI_STATE) (i : Z) :
  Entries s' = Entries s -> entry_at s' i = entry_at s i.
Proof. intros H. unfold entry_at. rewrite H. reflexivity. Qed.

Lemma entry_at_insert_ne (s s' : GDI_STATE) (i j : Z) (e : GDI_TABLE_ENTRY) :
  Entries s' = <[Z.to_nat i := e]> (Entries s) ->
  0 <= i -> j <> i -> entry_at s' j = entry_at s j.
Proof.
  intros H Hi Hj. unfold entry_at. rewrite H.
  destruct (j <? 0) eqn:Hn; [reflexivity|].
  apply Z.ltb_ge in Hn. apply list_lookup_insert_ne. lia.
Qed.

Lemma entry_at_insert_eq (s s' : GDI_STATE) (i : Z) (e e0 : GDI_TABLE_ENTRY) :
  Entries s' = <[Z.to_nat i := e]> (Entries s) ->
  entry_at s i = Some e0 -> entry_at s' i = Some e.
Proof.
  intros H He. unfold entry_at in *. rewrite H.
  destruct (i <? 0); [discriminate|].
  apply list_lookup_insert_eq. eapply lookup_lt_Some; eauto.
Qed.

Lemma entry_at_range (s : GDI_STATE) (i : Z) (e : GDI_TABLE_ENTRY) :
  entry_at s i = Some e -> 0 <= i < Z.of_nat (length (Entries s)).
Proof.
  unfold entry_at. destruct (i <? 0) eqn:Hn; [discriminate|].
  intros H. apply Z.ltb_ge in Hn. apply lookup_lt_Some in H. lia.
Qed.

Lemma entry_at_in_range (s : GDI_STATE) (i : Z) :
  0 <= i < Z.of_nat (length (Entries s)) -> exists e, entry_at s i = Some e.
Proof.
  intros H. unfold entry_at. destruct (i <? 0) eqn:Hn; [lia|].
  destruct (Entries s !! Z.to_nat i) as [e|] eqn:He; [eauto|].
  apply lookup_ge_None in He. lia.
Qed.

Lemma free_chain_ext (s s' : GDI_STATE) (l : list Z) (i : Z) :
  (forall j, In j l -> entry_at s' j = entry_at s j) ->
  free_chain s i l -> free_chain s' i l.
Proof.
  revert i. induction l as [|j l IH]; cbn [free_chain]; intros i Hext H; [exact H|].
  destruct H as (Hi & Hj & e & He & Hc).
  split; [exact Hi|]. split; [exact Hj|].
  exists e. split.
  - rewrite Hext by (left; reflexivity). exact He.
  - apply IH; [|exact Hc]. intros k Hk. apply Hext. right. exact Hk.
Qed.

Lemma free_chain_empty (s : GDI_STATE) (l : list Z) : free_chain s 0 l -> l = [].
Proof.
  destruct l as [|j l]; [reflexivity|]. cbn [free_chain].
  intros (Hi & Hj & _). congruence.
Qed.

(** What GDIOBJ_FreeObjByHandle does to the slots and the two frontiers
    when it returns: nothing, or the slot of the handle, which the caller's
    process owned, becomes the head of the free list. *)
Lemma free_table_effect (E : GDI_ENV) (s s' : GDI_STATE) (h ty : Z) (ret : bool) :
  GDIOBJ_FreeObjByHandle E s h ty = Returns ret s' ->
  (Entries s' = Entries s /\ FirstFree s' = FirstFree s
   /\ FirstUnused s' = FirstUnused s)
  \/ (exists e,
        entry_at s (GDI_HANDLE_GET_INDEX E h) = Some e
        /\ ProcessId e = PsGetCurrentProcessId E
        /\ Entries s'
           = <[Z.to_nat (GDI_HANDLE_GET_INDEX E h)
               := mkEntry (FirstFree s) 0 (freed_type (Type_ e)) 0]> (Entries s)
        /\ FirstFree s' = GDI_HANDLE_GET_INDEX E h
        /\ FirstUnused s' = FirstUnused s).
Proof.
  intros H. unfold GDIOBJ_FreeObjByHandle in H.
  destruct (GDI_HANDLE_IS_STOCKOBJ h); [injection H as _ <-; left; auto|].
  cbv zeta in H.
  match type of H with (if ?c then _ else _) = _ => destruct c end;
    [injection H as _ <-; left; auto|].
  destruct (entry_at s (GDI_HANDLE_GET_INDEX E h)) as [e|] eqn:He; [|discriminate].
  destruct (ProcessId e =? PsGetCurrentProcessId E) eqn:Hpid.
  2:{ destruct (ProcessId e =? Z.lor (PsGetCurrentProcessId E) 1); [discriminate|].
      injection H as _ <-. left; auto. }
  apply Z.eqb_eq in Hpid.
  match type of H with (if ?c then _ else _) = _ => destruct c end.
  2:{ injection H as _ <-. left. rewrite (set_entry_same s _ e He). auto. }
  destruct (Objects s !! KernelData e) as [o|]; [|discriminate].
  match type of H with (if ?c then _ else _) = _ => destruct c end.
  - unfold InterlockedPushFreeEntry in H.
    rewrite (entry_at_set_entry_eq s _ _ e He) in H.
    destruct (CleanupProc E (GDI_OBJECT_GET_TYPE_INDEX (GDI_HANDLE_GET_TYPE h)));
      [|discriminate].
    injection H as _ <-. right. exists e.
    split; [reflexivity|]. split; [exact Hpid|].
    unfold GDIOBJ_FreeObj, free_object, bump_handle_count, set_object, set_entry.
    cbn [Entries FirstFree FirstUnused KernelData ProcessId Type_ UserData].
    rewrite list_insert_insert_eq. repeat split.
  - destruct (negb (ulShareCount o =? 0)); [|discriminate].
    injection H as _ <-. left. unfold set_object.
    cbn [Entries FirstFree FirstUnused]. rewrite (set_entry_same s _ e He). auto.
Qed.

(** What InterlockedPopFreeEntry does when it returns. *)
Lemma pop_effect (E : GDI_ENV) (s s1 : GDI_STATE) (i : Z) :
  InterlockedPopFreeEntry E s = Returns i s1 ->
  (FirstFree s = 0 /\ FirstUnused s1 = to_ULONG (FirstUnused s + 1) /\ FirstFree s1 = 0
   /\ (i = 0 \/ (i = to_ULONG (to_ULONG (FirstUnused s + 1) - 1)
                 /\ i < GDI_HANDLE_COUNT E)))
  \/ (FirstFree s <> 0 /\ i = FirstFree s /\ FirstUnused s1 = FirstUnused s
      /\ exists pEntry, entry_at s i = Some pEntry /\ ProcessId pEntry = 0
                        /\ FirstFree s1 = KernelData pEntry).
Proof.
  unfold InterlockedPopFreeEntry.
  destruct (FirstFree s =? 0) eqn:Hff.
  - apply Z.eqb_eq in Hff. intros H. left.
    destruct (GDI_HANDLE_COUNT E <=? to_ULONG (to_ULONG (FirstUnused s + 1) - 1)) eqn:Hn;
      injection H as <- <-; cbn [FirstFree FirstUnused]; auto.
    apply Z.leb_gt in Hn. auto 6.
  - apply Z.eqb_neq in Hff. intros H. right.
    destruct (entry_at s (FirstFree s)) as [pEntry|] eqn:He; [|discriminate].
    destruct (negb (ProcessId pEntry =? 0)) eqn:Hp; [discriminate|].
    apply negb_false_iff, Z.eqb_eq in Hp.
    injection H as <- <-. cbn [FirstFree FirstUnused]. eauto 8.
Qed.

(** What GDIOBJ_AllocObjWithHandle does to the slots and the two frontiers
    when it returns. *)
Lemma alloc_table_effect (E : GDI_ENV) (s s' : GDI_STATE) (ty block p : Z) :
  GDIOBJ_AllocObjWithHandle E s ty block = Returns p s' ->
  (p = 0 /\ Entries s' = Entries s /\ FirstFree s' = FirstFree s
   /\ (FirstUnused s' = FirstUnused s
       \/ (FirstFree s = 0 /\ FirstUnused s' = to_ULONG (FirstUnused s + 1))))
  \/ (p <> 0
      /\ exists Index Entry newE,
           entry_at s Index = Some Entry /\ ProcessId Entry = 0 /\ Index <> 0
           /\ Entries s' = <[Z.to_nat Index := newE]> (Entries s)
           /\ ProcessId newE = PsGetCurrentProcessId E /\ KernelData newE = p
           /\ ((FirstFree s = 0
                /\ Index = to_ULONG (to_ULONG (FirstUnused s + 1) - 1)
                /\ Index < GDI_HANDLE_COUNT E
                /\ FirstUnused s' = to_ULONG (FirstUnused s + 1)
                /\ FirstFree s' = 0)
               \/ (FirstFree s = Index /\ FirstFree s' = KernelData Entry
                   /\ FirstUnused s' = FirstUnused s))).
Proof.
  intros H. destruct (Z.eq_dec p 0) as [Hp|Hp].
  - left. split; [exact Hp|]. subst p.
    unfold GDIOBJ_AllocObjWithHandle in H.
    destruct (match GDIHandleCount s with Some c => 10000 <=? c | None => false end);
      [injection H as <-; auto|].
    unfold GDIOBJ_AllocObj in H.
    destruct (block =? 0) eqn:Hblock.
    { change (0 =? 0) with true in H. injection H as <-; auto. }
    rewrite Hblock in H.
    destruct (InterlockedPopFreeEntry E (set_object s block (mkBody 0 0 0 0 0)))
      as [Index s1| | |] eqn:Hpop; try discriminate.
    pose proof (pop_keeps_table _ _ _ _ Hpop) as (HE & _).
    destruct (Index =? 0) eqn:HI; cbn [negb] in H.
    + apply Z.eqb_eq in HI. subst Index. injection H as <-.
      unfold GDIOBJ_FreeObj, free_object. cbn [Entries FirstFree FirstUnused].
      split; [exact HE|].
      destruct (pop_effect _ _ _ _ Hpop) as [(Hff & Hfu & Hff1 & _)|(Hff & Hi & _)].
      * cbn [set_object FirstFree FirstUnused] in Hff, Hfu. rewrite Hff1, Hff. auto.
      * cbn [set_object FirstFree] in Hff, Hi. congruence.
    + destruct (entry_at s1 Index) as [Entry|]; [|discriminate].
      destruct (ProcessId Entry =? 0); [|discriminate].
      match type of H with
      | match ?x with _ => _ end = _ => destruct x; [|discriminate]
      end.
      injection H as Hb _. apply Z.eqb_neq in Hblock. congruence.
  - right. split; [exact Hp|].
    destruct (alloc_inversion E s s' ty block p H Hp)
      as (Index & s1 & Entry & -> & Hpop & HI & HEntry & Hpid & ->).
    pose proof (pop_keeps_table _ _ _ _ Hpop) as (HE & HO & HC).
    exists Index, Entry. eexists.
    unfold set_object in HE. cbn [Entries] in HE.
    split; [rewrite <- (entry_at_ext s s1 Index HE); exact HEntry|].
    split; [exact Hpid|]. split; [exact HI|].
    unfold bump_handle_count, set_object, set_entry.
    cbn [Entries FirstFree FirstUnused]. rewrite HE.
    split; [reflexivity|]. cbn [ProcessId KernelData].
    split; [reflexivity|]. split; [reflexivity|].
    destruct (pop_effect _ _ _ _ Hpop)
      as [(Hff & Hfu & Hff1 & [Hi|[Hi Hn]])|(Hff & Hi & Hfu & pE & HpE & _ & Hff1)];
      cbn [set_object FirstFree FirstUnused] in *.
    + contradiction.
    + left. auto 6.
    + right. assert (pE = Entry).
      { change (entry_at s Index = Some pE) in HpE.
        rewrite (entry_at_ext s s1 Index HE) in HEntry. congruence. }
      subst pE. auto.
Qed.

Lemma init_table_shape (E : GDI_ENV) (count : option Z) :
  0 <= GDI_HANDLE_COUNT E ->
  table_inv E (GDIOBJ_iAllocHandleTable E count).
Proof.
  intros HN. unfold table_inv, GDIOBJ_iAllocHandleTable.
  cbn [Entries FirstFree FirstUnused].
  split; [rewrite repeat_length; lia|].
  split; [vm_compute; split; [discriminate | reflexivity]|].
  split.
  - intros i e He _. unfold entry_at in He. cbn [Entries] in He.
    destruct (i <? 0); [discriminate|].
    apply list_elem_of_lookup_2 in He. apply list_elem_of_In in He.
    apply repeat_spec in He. subst e. reflexivity.
  - exists []. split; [constructor|]. split; [reflexivity|]. intros i [].
Qed.

(** X9: the table GDIOBJ_iAllocHandleTable sets up has the shape
    [table_inv]: GDI_HANDLE_COUNT slots, the frontier behind the reserved
    entries, no owner among the reserved entries or from the frontier on,
    and a free list that is a chain without repetition of unowned slots
    with a zero base type between the two. *)
Theorem table_inv_init (E : GDI_ENV) (count : option Z) :
  0 <= GDI_HANDLE_COUNT E ->
  table_inv E (GDIOBJ_iAllocHandleTable E count).
Proof. exact (init_table_shape E count). Qed.

Lemma table_inv_init_witness : table_inv demo_env (GDIOBJ_iAllocHandleTable demo_env (Some 0)).
Proof. apply (table_inv_init demo_env (Some 0)). vm_compute. discriminate. Defined.

Lemma alloc_table_shape (E : GDI_ENV) (s s' : GDI_STATE) (ty block p : Z) :
  table_inv E s ->
  FirstUnused s < 2 ^ 32 - 2 ->
  GDIOBJ_AllocObjWithHandle E s ty block = Returns p s' ->
  table_inv E s'
  /\ (p <> 0 ->
      exists Index e',
        RESERVE_ENTRIES_COUNT <= Index < GDI_HANDLE_COUNT E
        /\ entry_at s' Index = Some e' /\ KernelData e' = p
        /\ ProcessId e' = PsGetCurrentProcessId E).
Proof.
  intros (Hlen & Hfu & Hout & l & Hnd & Hchain & Hl) Hbound H.
  assert (HU1 : to_ULONG (FirstUnused s + 1) = FirstUnused s + 1).
  { unfold to_ULONG. apply Z.mod_small. unfold RESERVE_ENTRIES_COUNT in Hfu. lia. }
  assert (HU2 : to_ULONG (to_ULONG (FirstUnused s + 1) - 1) = FirstUnused s).
  { rewrite HU1. replace (FirstUnused s + 1 - 1) with (FirstUnused s) by lia.
    unfold to_ULONG. apply Z.mod_small. unfold RESERVE_ENTRIES_COUNT in Hfu. lia. }
  destruct (alloc_table_effect E s s' ty block p H)
    as [(-> & HE & Hff & Hcase)
       |(Hp & Index & Entry & newE & HEntry & Hpid0 & HI & HE & HpidN & HkN & Hcase)].
  - split; [|intros []; reflexivity].
    unfold table_inv. rewrite HE, Hff.
    split; [exact Hlen|].
    destruct Hcase as [Hsame|[Hff0 Hbump]].
    + rewrite Hsame. split; [exact Hfu|].
      split.
      * intros i e He. rewrite (entry_at_ext s s' i HE) in He. apply Hout. exact He.
      * exists l. split; [exact Hnd|].
        split; [apply (free_chain_ext s s'); auto; intros; apply entry_at_ext; exact HE|].
        intros i Hi. destruct (Hl i Hi) as (Hr & e & He & Hrest).
        split; [exact Hr|]. exists e. rewrite (entry_at_ext s s' i HE). auto.
    + rewrite Hbump, HU1. split; [lia|].
      split.
      * intros i e He Hi. rewrite (entry_at_ext s s' i HE) in He.
        apply (Hout i e He). lia.
      * rewrite Hff0 in Hchain |- *. apply free_chain_empty in Hchain. subst l.
        exists []. split; [constructor|]. split; [reflexivity|]. intros i [].
  - pose proof (entry_at_range s Index Entry HEntry) as HIr.
    assert (Hne : forall j, j <> Index -> entry_at s' j = entry_at s j).
    { intros j Hj. apply (entry_at_insert_ne s s' Index j newE HE); lia. }
    pose proof (entry_at_insert_eq s s' Index newE Entry HE HEntry) as Hnew.
    destruct Hcase as [(Hff0 & HIdx & HIN & HfuN & HffN)|(HffI & HffN & HfuN)].
    + rewrite HU2 in HIdx. rewrite HU1 in HfuN.
      split.
      * unfold table_inv. rewrite HE, length_insert, HfuN, HffN.
        split; [exact Hlen|]. split; [lia|].
        split.
        -- intros i e He Hi. rewrite Hne in He by lia. apply (Hout i e He). lia.
        -- exists []. split; [constructor|]. split; [reflexivity|]. intros i [].
      * intros _. exists Index, newE. repeat split; auto; lia.
    + destruct l as [|j l'].
      { cbn [free_chain] in Hchain. congruence. }
      cbn [free_chain] in Hchain. destruct Hchain as (Hj & Hj0 & e0 & He0 & Hchain').
      rewrite HffI in Hj. subst j.
      rewrite HEntry in He0. injection He0 as <-.
      apply NoDup_cons in Hnd. destruct Hnd as (Hnotin & Hnd').
      rewrite list_elem_of_In in Hnotin.
      destruct (Hl Index (or_introl eq_refl)) as (HIrange & _).
      split.
      * unfold table_inv. rewrite HE, length_insert, HfuN, HffN.
        split; [exact Hlen|]. split; [exact Hfu|].
        split.
        -- intros i e He Hi. rewrite Hne in He by lia. apply (Hout i e He). exact Hi.
        -- exists l'. split; [exact Hnd'|].
           split.
           ++ apply (free_chain_ext s s'); [|exact Hchain'].
              intros k Hk. apply Hne. intros ->. contradiction.
           ++ intros i Hi. destruct (Hl i (or_intror Hi)) as (Hr & e & He & Hrest).
              split; [exact Hr|]. exists e. rewrite Hne by (intros ->; contradiction).
              auto.
      * intros _. exists Index, newE. repeat split; auto; lia.
Qed.

(** X10: GDIOBJ_AllocObjWithHandle keeps the shape of the table, whatever
    it returns, as long as the frontier has not come near 2^32; and the
    slot it hands out is never one of the reserved entries: its index is at
    least RESERVE_ENTRIES_COUNT and below GDI_HANDLE_COUNT. *)
Theorem table_inv_alloc (E : GDI_ENV) (s s' : GDI_STATE) (ty block p : Z) :
  table_inv E s ->
  FirstUnused s < 2 ^ 32 - 2 ->
  GDIOBJ_AllocObjWithHandle E s ty block = Returns p s' ->
  table_inv E s'
  /\ (p <> 0 ->
      exists Index e',
        RESERVE_ENTRIES_COUNT <= Index < GDI_HANDLE_COUNT E
        /\ entry_at s' Index = Some e' /\ KernelData e' = p
        /\ ProcessId e' = PsGetCurrentProcessId E).
Proof. exact (alloc_table_shape E s s' ty block p). Qed.

Lemma table_inv_alloc_witness :
  let s' := state_of demo_table
              (GDIOBJ_AllocObjWithHandle demo_env demo_table GDI_OBJECT_TYPE_BRUSH 0x1000) in
  table_inv demo_env s'
  /\ (0x1000 <> 0 ->
      exists Index e',
        RESERVE_ENTRIES_COUNT <= Index < GDI_HANDLE_COUNT demo_env
        /\ entry_at s' Index = Some e' /\ KernelData e' = 0x1000
        /\ ProcessId e' = PsGetCurrentProcessId demo_env).
Proof.
  intros s'.
  apply (table_inv_alloc demo_env demo_table s' GDI_OBJECT_TYPE_BRUSH 0x1000 0x1000).
  - apply (init_table_shape demo_env (Some 0)). vm_compute. discriminate.
  - vm_compute. reflexivity.
  - vm_compute. reflexivity.
Defined.

(** X11: GDIOBJ_FreeObjByHandle keeps the shape of the table, whatever it
    returns, for a caller whose process id is not null: a slot goes on the
    free list only if the caller's process owned it, so it lies between the
    reserved entries and the frontier and was not on the list already. *)
Theorem table_inv_free (E : GDI_ENV) (s s' : GDI_STATE) (h ty : Z) (ret : bool) :
  table_inv E s ->
  PsGetCurrentProcessId E <> 0 ->
  GDIOBJ_FreeObjByHandle E s h ty = Returns ret s' ->
  table_inv E s'.
Proof.
  intros (Hlen & Hfu & Hout & l & Hnd & Hchain & Hl) Hpid H.
  destruct (free_table_effect E s s' h ty ret H)
    as [(HE & Hff & HfuN)|(e & He & Hown & HE & Hff & HfuN)].
  - unfold table_inv. rewrite HE, Hff, HfuN.
    split; [exact Hlen|]. split; [exact Hfu|].
    split.
    + intros i e He. rewrite (entry_at_ext s s' i HE) in He. apply Hout. exact He.
    + exists l. split; [exact Hnd|].
      split; [apply (free_chain_ext s s'); auto; intros; apply entry_at_ext; exact HE|].
      intros i Hi. destruct (Hl i Hi) as (Hr & e & He & Hrest).
      split; [exact Hr|]. exists e. rewrite (entry_at_ext s s' i HE). auto.
  - set (idx := GDI_HANDLE_GET_INDEX E h) in *.
    pose proof (entry_at_range s idx e He) as Hir.
    assert (Hrange : RESERVE_ENTRIES_COUNT <= idx < FirstUnused s).
    { destruct (Z_lt_ge_dec idx RESERVE_ENTRIES_COUNT) as [Hlo|Hlo].
      - exfalso. apply Hpid. rewrite <- Hown. apply (Hout idx e He). left. exact Hlo.
      - destruct (Z_lt_ge_dec idx (FirstUnused s)) as [Hhi|Hhi]; [lia|].
        exfalso. apply Hpid. rewrite <- Hown. apply (Hout idx e He). right. lia. }
    assert (Hnotin : ~ In idx l).
    { intros Hin. destruct (Hl idx Hin) as (_ & e1 & He1 & Hp1 & _).
      rewrite He in He1. injection He1 as <-. congruence. }
    assert (Hne : forall j, j <> idx -> entry_at s' j = entry_at s j).
    { intros j Hj. apply (entry_at_insert_ne s s' idx j _ HE); lia. }
    pose proof (entry_at_insert_eq s s' idx _ e HE He) as Hnew.
    unfold table_inv. rewrite HE, length_insert, Hff, HfuN.
    split; [exact Hlen|]. split; [exact Hfu|].
    split.
    + intros i e1 He1 Hi. rewrite Hne in He1 by lia. apply (Hout i e1 He1). exact Hi.
    + exists (idx :: l).
      split; [apply NoDup_cons; split; [rewrite list_elem_of_In|]; assumption|].
      split.
      * cbn [free_chain]. split; [reflexivity|].
        split; [unfold RESERVE_ENTRIES_COUNT in Hrange; lia|].
        eexists. split; [exact Hnew|]. cbn [KernelData].
        apply (free_chain_ext s s'); [|exact Hchain].
        intros k Hk. apply Hne. intros ->. contradiction.
      * intros i [<-|Hi].
        -- split; [exact Hrange|]. eexists. split; [exact Hnew|].
           cbn [ProcessId Type_]. split; [reflexivity|]. apply freed_type_basetype.
        -- destruct (Hl i Hi) as (Hr & e1 & He1 & Hrest).
           split; [exact Hr|]. exists e1. rewrite Hne by (intros ->; contradiction).
           auto.
Qed.

Lemma table_inv_free_witness :
  let s := state_of demo_table
             (GDIOBJ_AllocObjWithHandle demo_env demo_table GDI_OBJECT_TYPE_BRUSH 0x1000) in
  table_inv demo_env
    (state_of s (GDIOBJ_FreeObjByHandle demo_env s 0x0010000A GDI_OBJECT_TYPE_BRUSH)).
Proof.
  intros s.
  apply (table_inv_free demo_env s _ 0x0010000A GDI_OBJECT_TYPE_BRUSH true).
  - apply (alloc_table_shape demo_env demo_table s GDI_OBJECT_TYPE_BRUSH 0x1000 0x1000).
    + apply (init_table_shape demo_env (Some 0)). vm_compute. discriminate.
    + vm_compute. reflexivity.
    + vm_compute. reflexivity.
  - vm_compute. discriminate.
  - vm_compute. reflexivity.
Defined.

(** * Further properties of the view cache *)

Lemma covers_iff (E : CC_ENV) (v : ROS_VACB) (off : Z) :
  IsPointInRange (FileOffset v) (VACB_MAPPING_GRANULARITY E) off = true <-> covers E v off.
Proof.
  unfold IsPointInRange, covers. rewrite andb_true_iff, Z.leb_le, Z.ltb_lt. tauto.
Qed.

Lemma covers_false (E : CC_ENV) (v : ROS_VACB) (off : Z) :
  IsPointInRange (FileOffset v) (VACB_MAPPING_GRANULARITY E) off = false <-> ~ covers E v off.
Proof.
  rewrite <- covers_iff. destruct (IsPointInRange _ _ _); split; congruence.
Qed.

Lemma lookup_walk_result (E : CC_ENV) (s s1 : CC_STATE) (l : list Z) (off p : Z) :
  lookup_walk E s l off = Returns p s1 ->
  (p = 0 /\ s1 = s)
  \/ exists v, Vacbs s !! p = Some v /\ In p l /\ covers E v off
               /\ s1 = set_vacb s p (referenced v).
Proof.
  induction l as [|current rest IH]; cbn [lookup_walk]; intros H.
  - injection H as <- <-. left; auto.
  - destruct (Vacbs s !! current) as [c|] eqn:Hc; [|discriminate].
    destruct (IsPointInRange (FileOffset c) (VACB_MAPPING_GRANULARITY E) off) eqn:Hin.
    + rewrite (inc_ref_spec s current c Hc) in H. cbn [bind] in H.
      injection H as <- <-. right. exists c. apply covers_iff in Hin.
      split; [exact Hc|]. split; [left; reflexivity|]. split; [exact Hin|reflexivity].
    + destruct (off <? FileOffset c).
      * injection H as <- <-. left; auto.
      * destruct (IH H) as [?|(v & Hv & Hl & Hr & Hs)]; [left; assumption|].
        right. exists v. split; [exact Hv|]. split; [right; exact Hl|]. auto.
Qed.

Lemma map_list_ok_in (E : CC_ENV) (vs : gmap Z ROS_VACB) (lo : Z) (l : list Z) (p : Z) :
  0 < VACB_MAPPING_GRANULARITY E ->
  map_list_ok E vs lo l -> In p l ->
  p <> 0 /\ exists v, vs !! p = Some v /\ lo <= FileOffset v
                      /\ FileOffset v mod VACB_MAPPING_GRANULARITY E = 0.
Proof.
  intros HG. revert lo. induction l as [|c rest IH]; intros lo Hok Hin; [destruct Hin|].
  cbn [map_list_ok] in Hok. destruct Hok as (Hc0 & vc & Hc & Hlo & Hal & Hrest).
  destruct Hin as [<-|Hin].
  - split; [exact Hc0|]. exists vc. auto.
  - destruct (IH _ Hrest Hin) as (Hp0 & v & Hv & Hlo' & Hal').
    split; [exact Hp0|]. exists v. repeat split; auto. lia.
Qed.

Lemma map_list_ok_ext (E : CC_ENV) (vs vs' : gmap Z ROS_VACB) (lo : Z) (l : list Z) :
  (forall p, In p l -> FileOffset <$> vs' !! p = FileOffset <$> vs !! p) ->
  map_list_ok E vs lo l -> map_list_ok E vs' lo l.
Proof.
  revert lo. induction l as [|c rest IH]; intros lo Hext Hok; [exact I|].
  cbn [map_list_ok] in *. destruct Hok as (Hc0 & vc & Hc & Hlo & Hal & Hrest).
  split; [exact Hc0|].
  pose proof (Hext c (or_introl eq_refl)) as Hcc. rewrite Hc in Hcc.
  destruct (vs' !! c) as [vc'|]; [|discriminate].
  cbn in Hcc. injection Hcc as Hcc.
  exists vc'. rewrite Hcc. repeat split; auto.
  apply IH; [|exact Hrest]. intros p Hp. apply Hext. right; exact Hp.
Qed.

Lemma map_list_ok_weaken (E : CC_ENV) (vs : gmap Z ROS_VACB) (lo lo' : Z) (l : list Z) :
  lo' <= lo -> map_list_ok E vs lo l -> map_list_ok E vs lo' l.
Proof.
  intros Hle. destruct l as [|c rest]; [auto|]. cbn [map_list_ok].
  intros (Hc0 & vc & Hc & Hlo & Hrest). split; [exact Hc0|].
  exists vc. repeat split; try apply Hrest; auto. lia.
Qed.

Lemma lookup_walk_complete (E : CC_ENV) (s : CC_STATE) (lo : Z) (l : list Z)
  (off p : Z) (v : ROS_VACB) :
  0 < VACB_MAPPING_GRANULARITY E ->
  map_list_ok E (Vacbs s) lo l ->
  In p l -> Vacbs s !! p = Some v -> covers E v off ->
  lookup_walk E s l off = Returns p (set_vacb s p (referenced v)).
Proof.
  intros HG. revert lo. induction l as [|c rest IH]; intros lo Hok Hin Hv Hcov;
    [destruct Hin|].
  cbn [map_list_ok] in Hok. destruct Hok as (Hc0 & vc & Hc & Hlo & Hal & Hrest).
  cbn [lookup_walk]. rewrite Hc.
  assert (Hrest_above : In p rest -> FileOffset vc + VACB_MAPPING_GRANULARITY E
                                     <= FileOffset v).
  { intros Hr. destruct (map_list_ok_in E _ _ _ p HG Hrest Hr) as (_ & v' & Hv' & Hlo' & _).
    rewrite Hv in Hv'. injection Hv' as <-. exact Hlo'. }
  destruct (IsPointInRange (FileOffset vc) (VACB_MAPPING_GRANULARITY E) off) eqn:Hpt.
  - apply covers_iff in Hpt.
    destruct Hin as [->|Hr].
    + rewrite Hc in Hv. injection Hv as ->.
      rewrite (inc_ref_spec s p v Hc). reflexivity.
    + specialize (Hrest_above Hr). unfold covers in *. lia.
  - apply covers_false in Hpt.
    destruct Hin as [->|Hr].
    { rewrite Hc in Hv. injection Hv as ->. contradiction. }
    specialize (Hrest_above Hr).
    destruct (off <? FileOffset vc) eqn:Hlt.
    + apply Z.ltb_lt in Hlt. unfold covers in Hcov. lia.
    + apply (IH _ Hrest Hr Hv Hcov).
Qed.

(** X12: CcRosLookupVacb either returns NULL and leaves the state as it
    was, or returns a window that is on the list of the map and covers the
    offset, and the only change is the one reference it took on it. *)
Theorem lookup_vacb_sound (E : CC_ENV) (s s1 : CC_STATE) (map off p : Z) :
  CcRosLookupVacb E s map off = Returns p s1 ->
  (p = 0 /\ s1 = s)
  \/ exists m v,
       CacheMaps s !! map = Some m /\ In p (CacheMapVacbListHead m)
       /\ Vacbs s !! p = Some v /\ covers E v off
       /\ s1 = set_vacb s p (referenced v).
Proof.
  unfold CcRosLookupVacb. destruct (CacheMaps s !! map) as [m|] eqn:Hm; [|discriminate].
  intros H. destruct (lookup_walk_result E s s1 _ off p H) as [?|(v & Hv & Hl & Hc & Hs)].
  - left; assumption.
  - right. exists m, v. auto.
Qed.

Lemma lookup_vacb_sound_witness :
  let E := demo_cc_env STATUS_SUCCESS in
  let s := cc_state_of demo_cache (CcRosRequestVacb E demo_cache 0x500 0 0x900) in
  let s1 := cc_state_of s (CcRosLookupVacb E s 0x500 0x1234) in
  (0x900 = 0 /\ s1 = s)
  \/ exists m v,
       CacheMaps s !! 0x500 = Some m /\ In 0x900 (CacheMapVacbListHead m)
       /\ Vacbs s !! 0x900 = Some v /\ covers E v 0x1234
       /\ s1 = set_vacb s 0x900 (referenced v).
Proof.
  intros E s s1.
  apply (lookup_vacb_sound E s s1 0x500 0x1234 0x900).
  vm_compute. reflexivity.
Defined.

(** X13: on a list in the shape CcRosCreateVacb keeps, CcRosLookupVacb
    finds the window that covers the offset, whichever it is, and returns
    NULL only when no window of the list covers it. *)
Theorem lookup_vacb_complete (E : CC_ENV) (s : CC_STATE) (map off : Z)
  (m : ROS_SHARED_CACHE_MAP) :
  0 < VACB_MAPPING_GRANULARITY E ->
  CacheMaps s !! map = Some m ->
  map_list_ok E (Vacbs s) 0 (CacheMapVacbListHead m) ->
  (forall p v, In p (CacheMapVacbListHead m) -> Vacbs s !! p = Some v -> covers E v off ->
     CcRosLookupVacb E s map off = Returns p (set_vacb s p (referenced v)))
  /\ ((forall p v, In p (CacheMapVacbListHead m) -> Vacbs s !! p = Some v ->
         ~ covers E v off) ->
      CcRosLookupVacb E s map off = Returns 0 s).
Proof.
  intros HG Hm Hok. unfold CcRosLookupVacb. rewrite Hm. split.
  - intros p v Hin Hv Hc. apply (lookup_walk_complete E s 0 _ off p v HG Hok Hin Hv Hc).
  - intros Hnone. apply lookup_walk_none. intros p Hp.
    destruct (map_list_ok_in E _ _ _ p HG Hok Hp) as (_ & v & Hv & _).
    exists v. split; [exact Hv|]. apply covers_false. apply (Hnone p v Hp Hv).
Qed.

Lemma lookup_vacb_complete_witness :
  let E := demo_cc_env STATUS_SUCCESS in
  let s := cc_state_of demo_cache (CcRosRequestVacb E demo_cache 0x500 0 0x900) in
  let m := mkMap 0x100000 0x100000 0 [0x900] 0 0 in
  (forall p v, In p (CacheMapVacbListHead m) -> Vacbs s !! p = Some v -> covers E v 0x1234 ->
     CcRosLookupVacb E s 0x500 0x1234 = Returns p (set_vacb s p (referenced v)))
  /\ ((forall p v, In p (CacheMapVacbListHead m) -> Vacbs s !! p = Some v ->
         ~ covers E v 0x1234) ->
      CcRosLookupVacb E s 0x500 0x1234 = Returns 0 s).
Proof.
  intros E s m.
  apply (lookup_vacb_complete E s 0x500 0x1234 m).
  - reflexivity.
  - vm_compute. reflexivity.
  - cbn [map_list_ok CacheMapVacbListHead m]. split; [discriminate|].
    exists (mkVacb 0x80090000 false false false 0 0 0x500 2 0).
    split; [vm_compute; reflexivity|]. split; [vm_compute; discriminate|].
    split; [vm_compute; reflexivity|exact I].
Defined.

(** ** Creating a window *)

Lemma round_down_above (G off a : Z) :
  0 < G -> a mod G = 0 -> a <= off -> a <= ROUND_DOWN off G.
Proof.
  intros HG Ha Hle. unfold ROUND_DOWN.
  pose proof (Z.div_le_mono a off G HG Hle) as Hd.
  rewrite (Z.div_mod a G) at 1 by lia. rewrite Ha. nia.
Qed.

Lemma round_down_below (G off a : Z) :
  0 < G -> a mod G = 0 -> off < a -> ROUND_DOWN off G + G <= a.
Proof.
  intros HG Ha Hlt. unfold ROUND_DOWN.
  assert (Hq : off / G < a / G).
  { apply Z.div_lt_upper_bound; [exact HG|].
    rewrite (Z.div_mod a G) in Hlt by lia. lia. }
  rewrite (Z.div_mod a G) by lia. rewrite Ha. nia.
Qed.

Lemma round_down_aligned (G off : Z) : ROUND_DOWN off G mod G = 0.
Proof. unfold ROUND_DOWN. apply Z_mod_mult. Qed.

Lemma round_down_covers (G off : Z) :
  0 < G -> ROUND_DOWN off G <= off < ROUND_DOWN off G + G.
Proof.
  intros HG. unfold ROUND_DOWN.
  pose proof (Z.div_mod off G) as H. pose proof (Z.mod_pos_bound off G HG). lia.
Qed.

Lemma insert_after_head (l : list Z) (c p : Z) :
  InsertAfter (c :: l) c p = c :: p :: l.
Proof. cbn [InsertAfter]. rewrite Z.eqb_refl. reflexivity. Qed.

Lemma insert_after_tail (l : list Z) (c q p : Z) :
  q <> c -> InsertAfter (c :: l) q p = c :: InsertAfter l q p.
Proof.
  intros H. cbn [InsertAfter]. destruct (c =? q) eqn:Hcq; [|reflexivity].
  apply Z.eqb_eq in Hcq. congruence.
Qed.

Lemma insert_after_in (l : list Z) (q p x : Z) :
  In x l -> In x (InsertAfter l q p).
Proof.
  induction l as [|c rest IH]; [intros []|].
  cbn [InsertAfter]. destruct (c =? q).
  - intros [<-|H]; [left; reflexivity|right; right; exact H].
  - intros [<-|H]; [left; reflexivity|right; apply IH; exact H].
Qed.

Lemma insert_after_new (l : list Z) (q p : Z) : In p (InsertAfter l q p).
Proof.
  induction l as [|c rest IH]; cbn [InsertAfter]; [left; reflexivity|].
  destruct (c =? q); [right; left; reflexivity|right; exact IH].
Qed.

Lemma map_list_ok_cons (E : CC_ENV) (vs : gmap Z ROS_VACB) (lo c : Z) (v : ROS_VACB)
  (rest : list Z) :
  c <> 0 -> vs !! c = Some v -> lo <= FileOffset v ->
  FileOffset v mod VACB_MAPPING_GRANULARITY E = 0 ->
  map_list_ok E vs (FileOffset v + VACB_MAPPING_GRANULARITY E) rest ->
  map_list_ok E vs lo (c :: rest).
Proof. intros. cbn [map_list_ok]. split; [assumption|]. exists v. auto. Qed.

(** The second look of CcRosCreateVacb on a list in shape: it finds a
    window that covers the offset, or the place where the new window keeps
    the list in shape. [vs'] is the pool once the new window is in it. *)
Lemma create_walk_spec (E : CC_ENV) (s : CC_STATE) (vs' : gmap Z ROS_VACB)
  (off fresh : Z) (vf : ROS_VACB) (l : list Z) :
  0 < VACB_MAPPING_GRANULARITY E ->
  fresh <> 0 ->
  vs' !! fresh = Some vf ->
  FileOffset vf = ROUND_DOWN off (VACB_MAPPING_GRANULARITY E) ->
  (forall p, In p l -> p <> fresh /\ vs' !! p = Vacbs s !! p) ->
  forall lo prev,
    map_list_ok E (Vacbs s) lo l ->
    lo <= ROUND_DOWN off (VACB_MAPPING_GRANULARITY E) ->
    match create_walk E s l off prev with
    | None => False
    | Some (inl c) => In c l /\ exists v, Vacbs s !! c = Some v /\ covers E v off
    | Some (inr q) =>
        (q = prev /\ map_list_ok E vs' lo (fresh :: l))
        \/ (In q l /\ map_list_ok E vs' lo (InsertAfter l q fresh))
    end.
Proof.
  intros HG Hf0 Hvf Hoff.
  set (G := VACB_MAPPING_GRANULARITY E) in *.
  set (R := ROUND_DOWN off G) in *.
  induction l as [|c rest IH]; intros Hsame lo prev Hok Hlo.
  - cbn [create_walk]. left. split; [reflexivity|].
    apply (map_list_ok_cons E vs' lo fresh vf []);
      [exact Hf0 | exact Hvf | rewrite Hoff; exact Hlo
      | rewrite Hoff; apply round_down_aligned | exact I].
  - cbn [map_list_ok] in Hok. destruct Hok as (Hc0 & vc & Hc & Hclo & Hal & Hrest).
    cbn [create_walk]. rewrite Hc. fold G.
    destruct (Hsame c (or_introl eq_refl)) as (Hcf & Hc').
    rewrite Hc in Hc'.
    assert (Hsame' : forall p, In p rest -> p <> fresh /\ vs' !! p = Vacbs s !! p).
    { intros p Hp. apply Hsame. right; exact Hp. }
    assert (Hrest' : map_list_ok E vs' (FileOffset vc + G) rest).
    { apply (map_list_ok_ext E (Vacbs s)); [|exact Hrest].
      intros p Hp. destruct (Hsame' p Hp) as (_ & ->). reflexivity. }
    destruct (IsPointInRange (FileOffset vc) G off) eqn:Hpt.
    + apply covers_iff in Hpt. split; [left; reflexivity|]. exists vc. auto.
    + apply covers_false in Hpt. unfold covers in Hpt. fold G in Hpt.
      destruct (off <? FileOffset vc) eqn:Hlt.
      * apply Z.ltb_lt in Hlt.
        assert (Hnlt : (FileOffset vc <? off) = false) by (apply Z.ltb_ge; lia).
        rewrite Hnlt. left. split; [reflexivity|].
        pose proof (round_down_below G off (FileOffset vc) HG Hal Hlt) as Hb.
        apply (map_list_ok_cons E vs' lo fresh vf);
          [exact Hf0 | exact Hvf | rewrite Hoff; exact Hlo
          | rewrite Hoff; apply round_down_aligned |].
        rewrite Hoff. fold G R.
        apply (map_list_ok_cons E vs' _ c vc); auto.
      * apply Z.ltb_ge in Hlt.
        assert (Habove : FileOffset vc + G <= off) by lia.
        assert (Hclt : (FileOffset vc <? off) = true) by (apply Z.ltb_lt; lia).
        rewrite Hclt.
        assert (HR : FileOffset vc + G <= R).
        { apply round_down_above; [exact HG| |exact Habove].
          replace (FileOffset vc + G) with (FileOffset vc + 1 * G) by lia.
          rewrite Z_mod_plus_full. exact Hal. }
        specialize (IH Hsame' (FileOffset vc + G) c Hrest HR).
        destruct (create_walk E s rest off c) as [[c1|q]|]; [| |exact IH].
        -- destruct IH as (Hin & v & Hv & Hcov). split; [right; exact Hin|]. eauto.
        -- right. destruct IH as [(-> & Hokf)|(Hq & Hokq)].
           ++ split; [left; reflexivity|]. rewrite insert_after_head.
              apply (map_list_ok_cons E vs' lo c vc); auto.
           ++ split; [right; exact Hq|].
              assert (Hqc : q <> c).
              { intros ->.
                destruct (map_list_ok_in E _ _ _ c HG Hrest Hq) as (_ & v & Hv & Hvlo & _).
                rewrite Hc in Hv. injection Hv as <-. fold G in Hvlo. lia. }
              rewrite insert_after_tail by exact Hqc.
              apply (map_list_ok_cons E vs' lo c vc); auto.
Qed.

Lemma to_ULONG_small (z : Z) : 0 <= z < 2 ^ 32 -> to_ULONG z = z.
Proof. intros H. unfold to_ULONG. apply Z.mod_small. exact H. Qed.

(** The window CcRosCreateVacb has in hand when it takes its second look:
    mapped at [Base], one reference. *)
Lemma create_vacb_cases (E : CC_ENV) (s s' : CC_STATE) (map off fresh st p : Z)
  (m : ROS_SHARED_CACHE_MAP) :
  CacheMaps s !! map = Some m ->
  Vacbs s !! fresh = None ->
  CcRosCreateVacb E s map off fresh = Returns (st, p) s' ->
  (NT_SUCCESS st = false /\ p = 0 /\ s' = s
   /\ SectionSize m <= off /\ st = STATUS_INVALID_PARAMETER)
  \/ exists Base,
       let new := mkVacb Base false false false 0
                    (ROUND_DOWN off (VACB_MAPPING_GRANULARITY E)) map 1 0 in
       let s2 := set_vacb s fresh new in
       off < SectionSize m /\ fresh <> 0 /\ st = STATUS_SUCCESS
       /\ ((exists current,
              create_walk E s2 (CacheMapVacbListHead m) off 0 = Some (inl current)
              /\ p = current
              /\ (call _ in s3 <- CcRosVacbIncRefCount s2 current;
                  call _ in s4 <- CcRosVacbDecRefCount s3 fresh;
                  Returns tt s4) = Returns tt s')
           \/ (exists previous,
                 create_walk E s2 (CacheMapVacbListHead m) off 0 = Some (inr previous)
                 /\ p = fresh
                 /\ s' = set_vacb
                           (set_lru_list
                              (set_map s2 map
                                 (with_VacbList m
                                    (if previous =? 0
                                     then InsertHeadList (CacheMapVacbListHead m) fresh
                                     else InsertAfter (CacheMapVacbListHead m) previous fresh)))
                              (InsertTailList (VacbLruListHead s) fresh))
                           fresh (with_ReferenceCount new 2))).
Proof.
  intros Hm Hfresh H. unfold CcRosCreateVacb in H. rewrite Hm in H.
  destruct (SectionSize m <=? off) eqn:Hsz.
  { injection H as <- <- <-. apply Z.leb_le in Hsz. left. auto. }
  apply Z.leb_gt in Hsz.
  destruct (fresh =? 0) eqn:Hf0; [discriminate|]. apply Z.eqb_neq in Hf0.
  rewrite (inc_ref_spec _ fresh _ (set_vacb_lookup s fresh _)) in H.
  cbn [bind] in H. rewrite set_vacb_twice in H.
  unfold with_ReferenceCount in H at 1. cbn [BaseAddress Valid Dirty PageOut MappedCount FileOffset SharedCacheMap ReferenceCount PinCount] in H.
  change (to_ULONG (0 + 1)) with 1 in H.
  unfold CcRosMapVacbInKernelSpace in H. rewrite set_vacb_lookup in H.
  destruct (MmCreateMemoryArea E _ fresh) as [Status Base].
  rewrite set_vacb_twice in H. unfold with_BaseAddress in H.
  cbn [BaseAddress Valid Dirty PageOut MappedCount FileOffset SharedCacheMap ReferenceCount PinCount] in H.
  destruct (NT_SUCCESS Status) eqn:Hst; cbn [negb] in H.
  - destruct (map_pages E _ Base 0 _) as [code|]; [discriminate|].
    cbn [bind] in H. change (negb (NT_SUCCESS STATUS_SUCCESS)) with false in H. cbv iota in H.
    right. exists Base. cbv zeta.
    split; [exact Hsz|]. split; [exact Hf0|].
    unfold set_vacb in H at 1. cbn [CacheMaps] in H. rewrite Hm in H.
    destruct (create_walk E _ (CacheMapVacbListHead m) off 0) as [[current|previous]|] eqn:Hw;
      [| |discriminate].
    + destruct (CcRosVacbIncRefCount _ current) as [r3 s3| | |] eqn:Hinc; try discriminate.
      cbn [bind] in H.
      destruct (CcRosVacbDecRefCount s3 fresh) as [r4 s4| | |] eqn:Hdec; try discriminate.
      cbn [bind] in H. injection H as <- <- <-.
      split; [reflexivity|]. left. exists current.
      split; [reflexivity|]. split; [reflexivity|].
      rewrite Hinc. cbn [bind]. rewrite Hdec. reflexivity.
    + match type of H with
      | bind (CcRosVacbIncRefCount ?st0 fresh) _ = _ =>
          assert (Hl : Vacbs st0 !! fresh
                       = Some (mkVacb Base false false false 0
                                 (ROUND_DOWN off (VACB_MAPPING_GRANULARITY E)) map 1 0))
            by (cbn [set_lru_list set_map set_vacb Vacbs]; apply lookup_insert_eq);
          rewrite (inc_ref_spec st0 fresh _ Hl) in H
      end.
      cbn [bind] in H. injection H as <- <- <-.
      split; [reflexivity|]. right. exists previous.
      split; [reflexivity|]. split; [reflexivity|]. reflexivity.
  - cbn [bind] in H. rewrite Hst in H. cbn [negb] in H.
    rewrite (dec_ref_spec _ fresh _ (set_vacb_lookup s fresh _)) in H.
    cbn [bind ReferenceCount] in H. change (to_ULONG (1 - 1) =? 0) with true in H.
    cbv iota in H. exfalso.
    unfold ExFreeToNPagedLookasideList, CcRosInternalFreeVacb in H.
    cbn [Vacbs] in H. rewrite lookup_delete_eq in H. discriminate.
Qed.




Lemma create_vacb_shape (E : CC_ENV) (s s' : CC_STATE) (map off fresh st p : Z)
  (m : ROS_SHARED_CACHE_MAP) :
  0 < VACB_MAPPING_GRANULARITY E ->
  CacheMaps s !! map = Some m ->
  map_list_ok E (Vacbs s) 0 (CacheMapVacbListHead m) ->
  0 <= off ->
  Vacbs s !! fresh = None ->
  CcRosCreateVacb E s map off fresh = Returns (st, p) s' ->
  NT_SUCCESS st = true ->
  exists m' v',
    CacheMaps s' !! map = Some m'
    /\ map_list_ok E (Vacbs s') 0 (CacheMapVacbListHead m')
    /\ (forall q, In q (CacheMapVacbListHead m) -> In q (CacheMapVacbListHead m'))
    /\ In p (CacheMapVacbListHead m')
    /\ Vacbs s' !! p = Some v'
    /\ covers E v' off
    /\ ((In p (CacheMapVacbListHead m) /\ m' = m
         /\ VacbLruListHead s' = VacbLruListHead s)
        \/ (p = fresh
            /\ v' = mkVacb (BaseAddress v') false false false 0
                      (ROUND_DOWN off (VACB_MAPPING_GRANULARITY E)) map 2 0
            /\ VacbLruListHead s' = InsertTailList (VacbLruListHead s) fresh)).
Proof.
  intros HG Hm Hok Hoff Hfresh H Hst.
  destruct (create_vacb_cases E s s' map off fresh st p m Hm Hfresh H)
    as [(Hf & _)|(Base & Hcase)]; [congruence|].
  cbv zeta in Hcase. destruct Hcase as (Hsz & Hf0 & -> & Hcase).
  set (G := VACB_MAPPING_GRANULARITY E) in *.
  set (new := mkVacb Base false false false 0 (ROUND_DOWN off G) map 1 0) in *.
  set (s2 := set_vacb s fresh new) in *.
  assert (Hnf : forall q, In q (CacheMapVacbListHead m) ->
                  q <> fresh /\ Vacbs s2 !! q = Vacbs s !! q).
  { intros q Hq.
    destruct (map_list_ok_in E _ _ _ q HG Hok Hq) as (_ & v & Hv & _).
    assert (q <> fresh) by congruence. split; [assumption|].
    unfold s2, set_vacb. cbn [Vacbs]. apply lookup_insert_ne. congruence. }
  assert (Hok2 : map_list_ok E (Vacbs s2) 0 (CacheMapVacbListHead m)).
  { apply (map_list_ok_ext E (Vacbs s)); [|exact Hok].
    intros q Hq. destruct (Hnf q Hq) as (_ & ->). reflexivity. }
  assert (Hl2 : Vacbs s2 !! fresh = Some new) by apply set_vacb_lookup.
  pose proof (create_walk_spec E s2 (Vacbs s2) off fresh new (CacheMapVacbListHead m)
                HG Hf0 Hl2 eq_refl
                (fun q Hq => conj (proj1 (Hnf q Hq)) eq_refl)
                0 0 Hok2
                (round_down_above G off 0 HG (Z.mod_0_l G ltac:(lia)) Hoff)) as Hspec.
  destruct Hcase as [(current & Hw & -> & Hrun)|(previous & Hw & -> & ->)];
    rewrite Hw in Hspec.
  - destruct Hspec as (Hin & v & Hv & Hcov).
    destruct (Hnf current Hin) as (Hcf & Hcs).
    rewrite (inc_ref_spec s2 current v Hv) in Hrun. cbn [bind] in Hrun.
    assert (Hl3 : Vacbs (set_vacb s2 current (referenced v)) !! fresh = Some new).
    { unfold set_vacb. cbn [Vacbs]. rewrite lookup_insert_ne by congruence.
      apply lookup_insert_eq. }
    fold (referenced v) in Hrun.
    rewrite (dec_ref_spec _ fresh new Hl3) in Hrun. cbn [bind] in Hrun.
    change (to_ULONG (ReferenceCount new - 1) =? 0) with true in Hrun. cbv iota in Hrun.
    injection Hrun as Hs.
    assert (Hlk : forall q, q <> fresh ->
              Vacbs s' !! q
              = if decide (q = current) then Some (referenced v) else Vacbs s !! q).
    { intros q Hq. rewrite <- Hs. unfold CcRosInternalFreeVacb, set_vacb, s2. cbn [Vacbs].
      rewrite lookup_delete_ne by congruence.
      rewrite lookup_insert_ne by congruence.
      destruct (decide (q = current)) as [->|Hqc].
      - apply lookup_insert_eq.
      - rewrite lookup_insert_ne by congruence.
        apply lookup_insert_ne. congruence. }
    assert (Hcm : CacheMaps s' = CacheMaps s /\ VacbLruListHead s' = VacbLruListHead s).
    { rewrite <- Hs. split; reflexivity. }
    destruct Hcm as (Hcm & Hlru).
    exists m, (referenced v).
    split; [rewrite Hcm; exact Hm|].
    split.
    { apply (map_list_ok_ext E (Vacbs s)); [|exact Hok].
      intros q Hq. destruct (Hnf q Hq) as (Hqf & _). rewrite (Hlk q Hqf).
      destruct (decide (q = current)) as [->|_]; [|reflexivity].
      rewrite <- Hcs, Hv. reflexivity. }
    split; [auto|]. split; [exact Hin|].
    split.
    { rewrite (Hlk current Hcf). destruct (decide (current = current)); congruence. }
    split; [exact Hcov|]. left. auto.
  - assert (Hprev : (previous = 0
                     /\ map_list_ok E (Vacbs s2) 0 (fresh :: CacheMapVacbListHead m))
                    \/ (previous <> 0
                        /\ map_list_ok E (Vacbs s2) 0
                             (InsertAfter (CacheMapVacbListHead m) previous fresh))).
    { destruct Hspec as [(-> & Hk)|(Hq & Hk)].
      - left; auto.
      - right. split; [|exact Hk].
        destruct (map_list_ok_in E _ _ _ previous HG Hok Hq) as (Hp0 & _). exact Hp0. }
    set (l' := if previous =? 0 then InsertHeadList (CacheMapVacbListHead m) fresh
               else InsertAfter (CacheMapVacbListHead m) previous fresh).
    assert (Hokl : map_list_ok E (Vacbs s2) 0 l').
    { unfold l', InsertHeadList. destruct Hprev as [(-> & Hk)|(Hp0 & Hk)].
      - exact Hk.
      - apply Z.eqb_neq in Hp0. rewrite Hp0. exact Hk. }
    exists (with_VacbList m l'), (with_ReferenceCount new 2).
    split; [cbn [set_vacb set_lru_list set_map CacheMaps]; apply lookup_insert_eq|].
    cbn [with_VacbList CacheMapVacbListHead].
    split.
    { apply (map_list_ok_ext E (Vacbs s2)); [|exact Hokl].
      intros q _. unfold s2, set_vacb, set_lru_list, set_map. cbn [Vacbs].
      destruct (decide (q = fresh)) as [->|Hqf].
      - rewrite !lookup_insert_eq. reflexivity.
      - rewrite !lookup_insert_ne by congruence. reflexivity. }
    split.
    { intros q Hq. unfold l', InsertHeadList.
      destruct (previous =? 0); [right; exact Hq|apply insert_after_in; exact Hq]. }
    split.
    { unfold l', InsertHeadList.
      destruct (previous =? 0); [left; reflexivity|apply insert_after_new]. }
    split; [apply set_vacb_lookup|].
    split.
    { unfold covers. cbn [with_ReferenceCount new FileOffset]. fold G.
      apply round_down_covers. exact HG. }
    right. split; [reflexivity|]. split; reflexivity.
Qed.

(** X15: on a list in shape, a CcRosCreateVacb that succeeds keeps the list
    of the map in shape and every window that was on it; the window it
    returns is on the list and covers the offset. It is either a window
    that was there already, or the new one, not valid, not dirty, not
    mapped, at the offset rounded down to the granularity, with two
    references and at the tail of the LRU list. *)
Theorem create_vacb_keeps_order (E : CC_ENV) (s s' : CC_STATE) (map off fresh st p : Z)
  (m : ROS_SHARED_CACHE_MAP) :
  0 < VACB_MAPPING_GRANULARITY E ->
  CacheMaps s !! map = Some m ->
  map_list_ok E (Vacbs s) 0 (CacheMapVacbListHead m) ->
  0 <= off ->
  Vacbs s !! fresh = None ->
  CcRosCreateVacb E s map off fresh = Returns (st, p) s' ->
  NT_SUCCESS st = true ->
  exists m' v',
    CacheMaps s' !! map = Some m'
    /\ map_list_ok E (Vacbs s') 0 (CacheMapVacbListHead m')
    /\ (forall q, In q (CacheMapVacbListHead m) -> In q (CacheMapVacbListHead m'))
    /\ In p (CacheMapVacbListHead m')
    /\ Vacbs s' !! p = Some v'
    /\ covers E v' off
    /\ ((In p (CacheMapVacbListHead m) /\ m' = m
         /\ VacbLruListHead s' = VacbLruListHead s)
        \/ (p = fresh
            /\ v' = mkVacb (BaseAddress v') false false false 0
                      (ROUND_DOWN off (VACB_MAPPING_GRANULARITY E)) map 2 0
            /\ VacbLruListHead s' = InsertTailList (VacbLruListHead s) fresh)).
Proof. exact (create_vacb_shape E s s' map off fresh st p m). Qed.

Lemma create_vacb_keeps_order_witness :
  let E := demo_cc_env STATUS_SUCCESS in
  let s := cc_state_of demo_cache (CcRosRequestVacb E demo_cache 0x500 0x80000 0x900) in
  let m := mkMap 0x100000 0x100000 0 [0x900] 0 0 in
  let s' := cc_state_of s (CcRosCreateVacb E s 0x500 0x41234 0x901) in
  exists m' v',
    CacheMaps s' !! 0x500 = Some m'
    /\ map_list_ok E (Vacbs s') 0 (CacheMapVacbListHead m')
    /\ (forall q, In q (CacheMapVacbListHead m) -> In q (CacheMapVacbListHead m'))
    /\ In 0x901 (CacheMapVacbListHead m')
    /\ Vacbs s' !! 0x901 = Some v'
    /\ covers E v' 0x41234
    /\ ((In 0x901 (CacheMapVacbListHead m) /\ m' = m
         /\ VacbLruListHead s' = VacbLruListHead s)
        \/ (0x901 = 0x901
            /\ v' = mkVacb (BaseAddress v') false false false 0
                      (ROUND_DOWN 0x41234 (VACB_MAPPING_GRANULARITY E)) 0x500 2 0
            /\ VacbLruListHead s' = InsertTailList (VacbLruListHead s) 0x901)).
Proof.
  intros E s m s'.
  apply (create_vacb_keeps_order E s s' 0x500 0x41234 0x901 STATUS_SUCCESS 0x901 m).
  - reflexivity.
  - vm_compute. reflexivity.
  - apply (map_list_ok_cons E (Vacbs s) 0 0x900
             (mkVacb 0x80090000 false false false 0 0x80000 0x500 2 0) []).
    + discriminate.
    + vm_compute. reflexivity.
    + vm_compute. discriminate.
    + vm_compute. reflexivity.
    + exact I.
  - discriminate.
  - vm_compute. reflexivity.
  - vm_compute. reflexivity.
  - reflexivity.
Defined.

(** ** Taking and giving back a window *)

Lemma lookup_vacb_hit (E : CC_ENV) (s s1 : CC_STATE) (map off p : Z) (v : ROS_VACB) :
  CcRosLookupVacb E s map off = Returns p s1 ->
  p <> 0 ->
  Vacbs s !! p = Some v ->
  covers E v off /\ s1 = set_vacb s p (referenced v).
Proof.
  intros H Hp Hv. unfold CcRosLookupVacb in H.
  destruct (CacheMaps s !! map) as [m|]; [|discriminate].
  destruct (lookup_walk_result E s s1 _ off p H) as [[? _]|(v0 & Hv0 & _ & Hc & Hs)];
    [contradiction|].
  rewrite Hv in Hv0. injection Hv0 as <-. auto.
Qed.

(** Giving back, clean and with the flags it has, a window on which one
    reference was taken puts the window back as it was. *)
Lemma release_referenced (E : CC_ENV) (s : CC_STATE) (map p : Z) (v : ROS_VACB) :
  Vacbs s !! p = Some v ->
  0 < ReferenceCount v < 2 ^ 32 - 1 ->
  CcRosReleaseVacb E (set_vacb s p (referenced v)) map p (Valid v) false false
  = Returns STATUS_SUCCESS s.
Proof.
  intros Hv Hr. unfold CcRosReleaseVacb. rewrite set_vacb_lookup.
  cbn [andb bind]. rewrite set_vacb_twice.
  rewrite (dec_ref_spec _ p _ (set_vacb_lookup s p _)). cbn [bind].
  rewrite set_vacb_twice.
  unfold referenced, with_Valid, with_ReferenceCount.
  cbn [BaseAddress Valid Dirty PageOut MappedCount FileOffset SharedCacheMap
       ReferenceCount PinCount].
  rewrite to_ULONG_sub_l. replace (ReferenceCount v + 1 - 1) with (ReferenceCount v) by lia.
  rewrite (to_ULONG_small (ReferenceCount v)) by lia.
  destruct (ReferenceCount v =? 0) eqn:Hz; [apply Z.eqb_eq in Hz; lia|].
  f_equal. destruct v; cbn. apply set_vacb_same. exact Hv.
Qed.

(** X16: CcRosRequestVacb on an offset that a window of the map covers hands
    that window out, with its offset, base address and validity, and
    giving it back clean with CcRosReleaseVacb leaves the cache as it was
    before the request, except that the window has moved to the tail of the
    LRU list. *)
Theorem request_release_roundtrip (E : CC_ENV) (s s1 : CC_STATE) (map off fresh p : Z)
  (v : ROS_VACB) :
  CcRosLookupVacb E s map off = Returns p s1 ->
  p <> 0 ->
  Vacbs s !! p = Some v ->
  0 < ReferenceCount v < 2 ^ 32 - 1 ->
  Z.rem off (VACB_MAPPING_GRANULARITY E) = 0 ->
  exists s2,
    CcRosRequestVacb E s map off fresh
    = Returns (STATUS_SUCCESS, mkInfo (FileOffset v) (BaseAddress v) (Valid v) p) s2
    /\ CcRosReleaseVacb E s2 map p (Valid v) false false
       = Returns STATUS_SUCCESS
           (set_lru_list s (InsertTailList (RemoveEntryList (VacbLruListHead s) p) p)).
Proof.
  intros Hlook Hp Hv Hr Hal.
  destruct (lookup_vacb_hit E s s1 map off p v Hlook Hp Hv) as (_ & ->).
  unfold CcRosRequestVacb. rewrite Hal. cbn [Z.eqb negb].
  unfold CcRosGetVacb. rewrite Hlook. cbn [bind].
  apply Z.eqb_neq in Hp. rewrite Hp. cbn [bind].
  change (negb (NT_SUCCESS STATUS_SUCCESS)) with false. cbv iota.
  unfold CcRosVacbGetRefCount. rewrite set_vacb_lookup. cbn [bind].
  unfold set_lru_list at 1. cbn [Vacbs set_vacb]. rewrite lookup_insert_eq.
  eexists. split; [reflexivity|].
  set (lru := InsertTailList (RemoveEntryList _ p) p).
  change (set_lru_list (set_vacb s p (referenced v)) lru)
    with (set_vacb (set_lru_list s lru) p (referenced v)).
  apply release_referenced; [exact Hv|exact Hr].
Qed.

Lemma request_release_roundtrip_witness :
  let E := demo_cc_env STATUS_SUCCESS in
  let s0 := cc_state_of demo_cache (CcRosRequestVacb E demo_cache 0x500 0 0x900) in
  let s := cc_state_of s0 (CcRosReleaseVacb E s0 0x500 0x900 true false false) in
  let v := mkVacb 0x80090000 true false false 0 0 0x500 1 0 in
  exists s2,
    CcRosRequestVacb E s 0x500 0 0x901
    = Returns (STATUS_SUCCESS, mkInfo (FileOffset v) (BaseAddress v) (Valid v) 0x900) s2
    /\ CcRosReleaseVacb E s2 0x500 0x900 (Valid v) false false
       = Returns STATUS_SUCCESS
           (set_lru_list s (InsertTailList (RemoveEntryList (VacbLruListHead s) 0x900) 0x900)).
Proof.
  intros E s0 s v.
  apply (request_release_roundtrip E s (cc_state_of s (CcRosLookupVacb E s 0x500 0))
           0x500 0 0x901 0x900 v).
  - vm_compute. reflexivity.
  - discriminate.
  - vm_compute. reflexivity.
  - vm_compute. split; reflexivity.
  - reflexivity.
Defined.

(** X17: on an offset that no window of the map covers, CcRosMarkDirtyFile
    is a bug check with the code CACHE_MANAGER, while CcRosUnmapVacb returns
    STATUS_UNSUCCESSFUL, which is not a success status, and changes
    nothing. *)
Theorem no_window_at_offset (E : CC_ENV) (s : CC_STATE) (map off : Z) (NowDirty : bool)
  (m : ROS_SHARED_CACHE_MAP) :
  CacheMaps s !! map = Some m ->
  (forall p, In p (CacheMapVacbListHead m) ->
     exists v, Vacbs s !! p = Some v /\ ~ covers E v off) ->
  CcRosMarkDirtyFile E s map off = BugChecks CACHE_MANAGER
  /\ CcRosUnmapVacb E s map off NowDirty = Returns STATUS_UNSUCCESSFUL s
  /\ NT_SUCCESS STATUS_UNSUCCESSFUL = false.
Proof.
  intros Hm Hnone.
  assert (Hl : CcRosLookupVacb E s map off = Returns 0 s).
  { unfold CcRosLookupVacb. rewrite Hm. apply lookup_walk_none.
    intros p Hp. destruct (Hnone p Hp) as (v & Hv & Hc).
    exists v. split; [exact Hv|]. apply covers_false. exact Hc. }
  unfold CcRosMarkDirtyFile, CcRosUnmapVacb. rewrite Hl.
  repeat split; reflexivity.
Qed.

Lemma no_window_at_offset_witness :
  let E := demo_cc_env STATUS_SUCCESS in
  let s := cc_state_of demo_cache (CcRosRequestVacb E demo_cache 0x500 0 0x900) in
  CcRosMarkDirtyFile E s 0x500 0x40000 = BugChecks CACHE_MANAGER
  /\ CcRosUnmapVacb E s 0x500 0x40000 true = Returns STATUS_UNSUCCESSFUL s
  /\ NT_SUCCESS STATUS_UNSUCCESSFUL = false.
Proof.
  intros E s.
  apply (no_window_at_offset E s 0x500 0x40000 true (mkMap 0x100000 0x100000 0 [0x900] 0 0)).
  - vm_compute. reflexivity.
  - intros p [<-|[]].
    exists (mkVacb 0x80090000 false false false 0 0 0x500 2 0).
    split; [vm_compute; reflexivity|]. unfold covers. vm_compute. intros [_ H]. discriminate.
Defined.

(** X18: CcRosUnmapVacb on a mapped window takes one mapping off it, and,
    when that was the last mapping, the reference the first mapping had
    taken; nothing else changes. So a window that CcRosReleaseVacb was
    given back as mapped is, once unmapped, as if it had been given back
    unmapped. *)
Theorem unmap_vacb_effect (E : CC_ENV) (s s1 : CC_STATE) (map off p : Z) (NowDirty : bool)
  (v : ROS_VACB) :
  CcRosLookupVacb E s map off = Returns p s1 ->
  p <> 0 ->
  Vacbs s !! p = Some v ->
  NowDirty = false \/ Dirty v = true ->
  0 < MappedCount v < 2 ^ 32 ->
  (if MappedCount v =? 1 then 2 else 1) <= ReferenceCount v < 2 ^ 32 - 1 ->
  CcRosUnmapVacb E s map off NowDirty
  = Returns STATUS_SUCCESS
      (set_vacb s p
         (with_ReferenceCount (with_MappedCount v (MappedCount v - 1))
            (ReferenceCount v - (if MappedCount v =? 1 then 1 else 0)))).
Proof.
  intros Hlook Hp Hv Hd Hmc Hrc.
  destruct (lookup_vacb_hit E s s1 map off p v Hlook Hp Hv) as (_ & ->).
  unfold CcRosUnmapVacb. rewrite Hlook. cbn [bind].
  apply Z.eqb_neq in Hp. rewrite Hp. rewrite set_vacb_lookup.
  rewrite set_vacb_twice.
  assert (Hdd : NowDirty && negb (Dirty v) = false).
  { destruct Hd as [->| ->]; [reflexivity|]. destruct NowDirty; reflexivity. }
  destruct v as [ba va di po mc fo sc rc pc].
  unfold referenced, with_MappedCount, with_ReferenceCount.
  cbn [BaseAddress Valid Dirty PageOut MappedCount FileOffset SharedCacheMap
       ReferenceCount PinCount] in *.
  rewrite (to_ULONG_small (mc - 1)) by lia.
  assert (Hrc1 : 1 <= rc < 2 ^ 32 - 1) by (destruct (mc =? 1); lia).
  rewrite (to_ULONG_small (rc + 1)) by lia.
  destruct (mc =? 1) eqn:Hone.
  - apply Z.eqb_eq in Hone. subst mc. change (1 - 1 =? 0) with true. cbv iota.
    rewrite (dec_ref_spec _ p _ (set_vacb_lookup s p _)). cbn [bind ReferenceCount].
    replace (rc + 1 - 1) with rc by lia. rewrite (to_ULONG_small rc) by lia.
    destruct (rc =? 0) eqn:Hz; [apply Z.eqb_eq in Hz; lia|].
    rewrite set_vacb_twice, set_vacb_lookup.
    unfold CcRosReleaseVacb. rewrite set_vacb_lookup.
    unfold with_Valid, with_ReferenceCount.
    cbn [BaseAddress Valid Dirty PageOut MappedCount FileOffset SharedCacheMap
         ReferenceCount PinCount].
    rewrite Hdd. cbn [bind]. rewrite set_vacb_twice.
    rewrite (dec_ref_spec _ p _ (set_vacb_lookup s p _)). cbn [bind ReferenceCount].
    rewrite (to_ULONG_small (rc - 1)) by lia.
    destruct (rc - 1 =? 0) eqn:Hz1; [apply Z.eqb_eq in Hz1; lia|].
    rewrite set_vacb_twice. reflexivity.
  - apply Z.eqb_neq in Hone.
    destruct (mc - 1 =? 0) eqn:Hz0; [apply Z.eqb_eq in Hz0; lia|].
    cbn [bind]. rewrite set_vacb_lookup.
    unfold CcRosReleaseVacb. rewrite set_vacb_lookup.
    unfold with_Valid.
    cbn [BaseAddress Valid Dirty PageOut MappedCount FileOffset SharedCacheMap
         ReferenceCount PinCount].
    rewrite Hdd. cbn [bind]. rewrite set_vacb_twice.
    rewrite (dec_ref_spec _ p _ (set_vacb_lookup s p _)). cbn [bind ReferenceCount].
    replace (rc + 1 - 1) with rc by lia. rewrite (to_ULONG_small rc) by lia.
    destruct (rc =? 0) eqn:Hz; [apply Z.eqb_eq in Hz; lia|].
    rewrite set_vacb_twice. unfold with_ReferenceCount.
    cbn [BaseAddress Valid Dirty PageOut MappedCount FileOffset SharedCacheMap
         ReferenceCount PinCount].
    rewrite Z.sub_0_r. reflexivity.
Qed.

Lemma unmap_vacb_effect_witness :
  let E := demo_cc_env STATUS_SUCCESS in
  let s0 := cc_state_of demo_cache (CcRosRequestVacb E demo_cache 0x500 0 0x900) in
  let s := cc_state_of s0 (CcRosReleaseVacb E s0 0x500 0x900 true false true) in
  let v := mkVacb 0x80090000 true false false 1 0 0x500 2 0 in
  CcRosUnmapVacb E s 0x500 0x1234 false
  = Returns STATUS_SUCCESS
      (set_vacb s 0x900
         (with_ReferenceCount (with_MappedCount v (MappedCount v - 1))
            (ReferenceCount v - (if MappedCount v =? 1 then 1 else 0)))).
Proof.
  intros E s0 s v.
  apply (unmap_vacb_effect E s (cc_state_of s (CcRosLookupVacb E s 0x500 0x1234))
           0x500 0x1234 0x900 false v).
  - vm_compute. reflexivity.
  - discriminate.
  - vm_compute. reflexivity.
  - left. reflexivity.
  - vm_compute. split; reflexivity.
  - vm_compute. split; [discriminate|reflexivity].
Defined.

(** ** The dirty list, the dirty flags and the count of dirty pages *)

Lemma remove_entry_in (l : list Z) (p q : Z) :
  In q (RemoveEntryList l p) <-> In q l /\ q <> p.
Proof.
  unfold RemoveEntryList. rewrite filter_In, negb_true_iff, Z.eqb_neq. tauto.
Qed.

Lemma remove_entry_nodup (l : list Z) (p : Z) :
  NoDup l -> NoDup (RemoveEntryList l p).
Proof.
  rewrite !NoDup_ListNoDup. unfold RemoveEntryList. apply List.NoDup_filter.
Qed.

Lemma remove_entry_absent (l : list Z) (p : Z) :
  ~ In p l -> RemoveEntryList l p = l.
Proof.
  unfold RemoveEntryList. induction l as [|c rest IH]; intros H; [reflexivity|].
  cbn [List.filter]. destruct (c =? p) eqn:Hc.
  - apply Z.eqb_eq in Hc. exfalso. apply H. left; exact Hc.
  - cbn [negb]. f_equal. apply IH. intros Hin. apply H. right; exact Hin.
Qed.

Lemma remove_entry_length (l : list Z) (p : Z) :
  NoDup l -> In p l ->
  Z.of_nat (length (RemoveEntryList l p)) = Z.of_nat (length l) - 1.
Proof.
  induction l as [|c rest IH]; intros Hnd Hin; [destruct Hin|].
  apply NoDup_cons in Hnd. destruct Hnd as (Hc & Hnd). rewrite list_elem_of_In in Hc.
  unfold RemoveEntryList in *. cbn [List.filter length].
  destruct (c =? p) eqn:Hcp; cbn [negb].
  - apply Z.eqb_eq in Hcp. subst c.
    change (List.filter (fun q => negb (q =? p)) rest) with (RemoveEntryList rest p).
    rewrite (remove_entry_absent rest p Hc). lia.
  - apply Z.eqb_neq in Hcp. destruct Hin as [?|Hin]; [contradiction|].
    cbn [length]. rewrite Nat2Z.inj_succ, (IH Hnd Hin). lia.
Qed.

Lemma pages_step_up (P n total : Z) :
  total = to_ULONG (P * n) -> to_ULONG (total + P) = to_ULONG (P * (n + 1)).
Proof. intros ->. rewrite to_ULONG_add_l. f_equal. lia. Qed.

Lemma pages_step_down (P n total : Z) :
  total = to_ULONG (P * n) -> to_ULONG (total - P) = to_ULONG (P * (n - 1)).
Proof. intros ->. rewrite to_ULONG_sub_l. f_equal. lia. Qed.

Lemma dirty_inv_after_release (E : CC_ENV) (s : CC_STATE) (map p : Z)
  (Valid_ Dirty_ Mapped : bool) (v : ROS_VACB) (m : ROS_SHARED_CACHE_MAP) :
  dirty_inv E s ->
  Vacbs s !! p = Some v ->
  CacheMaps s !! SharedCacheMap v = Some m ->
  1 < ReferenceCount v < 2 ^ 32 - 2 ->
  exists s',
    CcRosReleaseVacb E s map p Valid_ Dirty_ Mapped = Returns STATUS_SUCCESS s'
    /\ dirty_inv E s'.
Proof.
  intros (Hnd & Hlist & Hflag & Hcount) Hv Hm Hr.
  destruct (release_vacb_spec E s map p Valid_ Dirty_ Mapped v m Hv Hm)
    as (s' & v' & Hrel & Hp & _ & Hd & _ & Href & _ & _ & _ & _ & _ & Hdl & Htot & Hother).
  exists s'. split; [exact Hrel|].
  assert (Hrefpos : 0 < ReferenceCount v' < 2 ^ 32).
  { rewrite Href.
    rewrite to_ULONG_small;
      destruct (Dirty_ && negb (Dirty v)), (Mapped && (to_ULONG (MappedCount v + 1) =? 1));
      cbn [Z.b2z]; lia. }
  destruct (ReferenceCount v' =? 0) eqn:Hz; [apply Z.eqb_eq in Hz; lia|].
  assert (Hnotin : Dirty v = false -> ~ In p (DirtyVacbListHead s)).
  { intros Hdf Hin. destruct (Hlist p Hin) as (v0 & Hv0 & Hd0). congruence. }
  unfold dirty_inv. rewrite Hdl, Htot.
  destruct (Dirty_ && negb (Dirty v)) eqn:Hnew.
  - apply andb_true_iff in Hnew. destruct Hnew as (-> & Hdf).
    apply negb_true_iff in Hdf. unfold InsertTailList.
    split.
    { apply NoDup_app. split; [exact Hnd|]. split; [|apply NoDup_singleton].
      intros x Hx Hx'. apply list_elem_of_In in Hx, Hx'. destruct Hx' as [<-|[]].
      apply (Hnotin Hdf Hx). }
    split.
    { intros q Hq. apply in_app_or in Hq. destruct Hq as [Hq|[<-|[]]].
      - destruct (Z.eq_dec q p) as [->|Hqp]; [exfalso; apply (Hnotin Hdf Hq)|].
        rewrite (Hother q Hqp). apply Hlist. exact Hq.
      - exists v'. split; [exact Hp|]. rewrite Hd. apply orb_true_r. }
    split.
    { intros q w Hw Hdw. apply in_or_app.
      destruct (Z.eq_dec q p) as [->|Hqp]; [right; left; reflexivity|].
      left. rewrite (Hother q Hqp) in Hw. apply (Hflag q w Hw Hdw). }
    rewrite length_app. cbn [length]. rewrite Nat2Z.inj_add.
    apply pages_step_up. exact Hcount.
  - split; [exact Hnd|].
    split.
    { intros q Hq. destruct (Z.eq_dec q p) as [->|Hqp].
      - exists v'. split; [exact Hp|]. rewrite Hd.
        destruct (Hlist p Hq) as (v0 & Hv0 & Hd0).
        rewrite Hv in Hv0. injection Hv0 as <-. rewrite Hd0. reflexivity.
      - rewrite (Hother q Hqp). apply Hlist. exact Hq. }
    split; [|exact Hcount].
    intros q w Hw Hdw. destruct (Z.eq_dec q p) as [->|Hqp].
    + rewrite Hp in Hw. injection Hw as <-. rewrite Hd in Hdw.
      apply (Hflag p v Hv).
      destruct (Dirty v); [reflexivity|]. cbn [orb] in Hdw. subst Dirty_.
      cbn in Hnew. discriminate.
    + rewrite (Hother q Hqp) in Hw. apply (Hflag q w Hw Hdw).
Qed.

(** X19: CcRosReleaseVacb keeps the dirty list, the dirty flags and the
    global count of dirty pages in agreement, whatever flags it is given,
    on a window that holds the caller's reference besides another one. *)
Theorem dirty_inv_release (E : CC_ENV) (s : CC_STATE) (map p : Z)
  (Valid_ Dirty_ Mapped : bool) (v : ROS_VACB) (m : ROS_SHARED_CACHE_MAP) :
  dirty_inv E s ->
  Vacbs s !! p = Some v ->
  CacheMaps s !! SharedCacheMap v = Some m ->
  1 < ReferenceCount v < 2 ^ 32 - 2 ->
  exists s',
    CcRosReleaseVacb E s map p Valid_ Dirty_ Mapped = Returns STATUS_SUCCESS s'
    /\ dirty_inv E s'.
Proof. exact (dirty_inv_after_release E s map p Valid_ Dirty_ Mapped v m). Qed.

Lemma dirty_inv_clean (E : CC_ENV) (s : CC_STATE) :
  map_Forall (fun _ v => Dirty v = false) (Vacbs s) ->
  DirtyVacbListHead s = [] ->
  CcTotalDirtyPages s = 0 ->
  dirty_inv E s.
Proof.
  intros Hall Hl Ht. unfold dirty_inv. rewrite Hl, Ht.
  split; [constructor|]. split; [intros p []|].
  split.
  - intros p v Hv Hd. specialize (Hall p v Hv). cbn in Hall. congruence.
  - cbn [length]. rewrite Z.mul_0_r. reflexivity.
Qed.

Lemma dirty_inv_release_witness :
  let E := demo_cc_env STATUS_SUCCESS in
  let s := cc_state_of demo_cache (CcRosRequestVacb E demo_cache 0x500 0 0x900) in
  exists s',
    CcRosReleaseVacb E s 0x500 0x900 true true false = Returns STATUS_SUCCESS s'
    /\ dirty_inv E s'.
Proof.
  intros E s.
  apply (dirty_inv_release E s 0x500 0x900 true true false
           (mkVacb 0x80090000 false false false 0 0 0x500 2 0)
           (mkMap 0x100000 0x100000 0 [0x900] 0 0)).
  - apply dirty_inv_clean.
    + apply (bool_decide_unpack _). vm_compute. reflexivity.
    + reflexivity.
    + reflexivity.
  - vm_compute. reflexivity.
  - vm_compute. reflexivity.
  - vm_compute. split; reflexivity.
Defined.

(** What CcRosUnmarkDirtyVacb leaves of a window that keeps a reference. *)
Lemma unmark_dirty_spec (E : CC_ENV) (s : CC_STATE) (p : Z) (v : ROS_VACB)
  (m : ROS_SHARED_CACHE_MAP) :
  Vacbs s !! p = Some v ->
  CacheMaps s !! SharedCacheMap v = Some m ->
  1 < ReferenceCount v < 2 ^ 32 ->
  CcRosUnmarkDirtyVacb E s p
  = Returns tt
      (mkCc (<[p := with_ReferenceCount (with_Dirty v false) (ReferenceCount v - 1)]>
               (Vacbs s))
            (<[SharedCacheMap v := with_DirtyPages m (to_ULONG (DirtyPages m - PagesPerVacb E))]>
               (CacheMaps s))
            (RemoveEntryList (DirtyVacbListHead s) p)
            (VacbLruListHead s)
            (to_ULONG (CcTotalDirtyPages s - PagesPerVacb E))
            (LazyWriterScanActive s)).
Proof.
  intros Hv Hm Hr. unfold CcRosUnmarkDirtyVacb. rewrite Hv.
  cbn [set_total_dirty set_dirty_list set_vacb CacheMaps]. rewrite Hm.
  match goal with
  | |- context [CcRosVacbDecRefCount ?st p] =>
      rewrite (dec_ref_spec st p (with_Dirty v false))
        by (cbn [set_map Vacbs]; apply lookup_insert_eq)
  end.
  cbn [bind with_Dirty ReferenceCount].
  rewrite (to_ULONG_small (ReferenceCount v - 1)) by lia.
  destruct (ReferenceCount v - 1 =? 0) eqn:Hz; [apply Z.eqb_eq in Hz; lia|].
  unfold set_vacb, set_map, set_total_dirty, set_dirty_list.
  cbn [Vacbs CacheMaps DirtyVacbListHead VacbLruListHead CcTotalDirtyPages
       LazyWriterScanActive].
  rewrite insert_insert_eq. reflexivity.
Qed.

(** X20: CcRosFlushVacb on a dirty window that keeps a reference returns
    the status of the write-back and keeps the dirty list, the dirty flags
    and the count of dirty pages in agreement. When the write-back failed
    the cache is left as it was; when it succeeded the window is clean, off
    the dirty list, with one reference less, and the count of dirty pages
    is lower by the pages of a window. *)
Theorem flush_vacb_effect (E : CC_ENV) (s : CC_STATE) (p : Z) (v : ROS_VACB)
  (m : ROS_SHARED_CACHE_MAP) :
  dirty_inv E s ->
  Vacbs s !! p = Some v ->
  Dirty v = true ->
  CacheMaps s !! SharedCacheMap v = Some m ->
  1 < ReferenceCount v < 2 ^ 32 ->
  exists s',
    CcRosFlushVacb E s p = Returns (CcWriteVirtualAddress E s p) s'
    /\ dirty_inv E s'
    /\ (NT_SUCCESS (CcWriteVirtualAddress E s p) = false -> s' = s)
    /\ (NT_SUCCESS (CcWriteVirtualAddress E s p) = true ->
        Vacbs s' !! p
        = Some (with_ReferenceCount (with_Dirty v false) (ReferenceCount v - 1))
        /\ ~ In p (DirtyVacbListHead s')
        /\ CcTotalDirtyPages s' = to_ULONG (CcTotalDirtyPages s - PagesPerVacb E)
        /\ (forall q, q <> p -> Vacbs s' !! q = Vacbs s !! q)).
Proof.
  intros Hinv Hv Hd Hm Hr. unfold CcRosFlushVacb.
  destruct (NT_SUCCESS (CcWriteVirtualAddress E s p)) eqn:Hst.
  - rewrite (unmark_dirty_spec E s p v m Hv Hm Hr). cbn [bind].
    eexists. split; [reflexivity|].
    destruct Hinv as (Hnd & Hlist & Hflag & Hcount).
    pose proof (Hflag p v Hv Hd) as Hin.
    split.
    { unfold dirty_inv.
      cbn [Vacbs CacheMaps DirtyVacbListHead VacbLruListHead CcTotalDirtyPages].
      split; [apply remove_entry_nodup; exact Hnd|].
      split.
      { intros q Hq. apply remove_entry_in in Hq. destruct Hq as (Hq & Hqp).
        rewrite lookup_insert_ne by congruence. apply Hlist. exact Hq. }
      split.
      { intros q w Hw Hdw. apply remove_entry_in.
        destruct (Z.eq_dec q p) as [->|Hqp].
        - rewrite lookup_insert_eq in Hw. injection Hw as <-. discriminate.
        - rewrite lookup_insert_ne in Hw by congruence. split; [|exact Hqp].
          apply (Hflag q w Hw Hdw). }
      rewrite (remove_entry_length _ p Hnd Hin). apply pages_step_down. exact Hcount. }
    split; [discriminate|]. intros _.
    cbn [Vacbs DirtyVacbListHead CcTotalDirtyPages].
    split; [apply lookup_insert_eq|].
    split; [intros Hq; apply remove_entry_in in Hq; destruct Hq as (_ & Hq); congruence|].
    split; [reflexivity|].
    intros q Hq. apply lookup_insert_ne. congruence.
  - exists s. split; [reflexivity|]. split; [exact Hinv|].
    split; [reflexivity|discriminate].
Qed.

Lemma dirty_demo_inv :
  let E := demo_cc_env STATUS_SUCCESS in
  let s0 := cc_state_of demo_cache (CcRosRequestVacb E demo_cache 0x500 0 0x900) in
  dirty_inv E (cc_state_of s0 (CcRosReleaseVacb E s0 0x500 0x900 true true false)).
Proof.
  intros E s0.
  destruct (dirty_inv_after_release E s0 0x500 0x900 true true false
              (mkVacb 0x80090000 false false false 0 0 0x500 2 0)
              (mkMap 0x100000 0x100000 0 [0x900] 0 0)) as (s' & Hrel & Hinv).
  - apply dirty_inv_clean.
    + apply (bool_decide_unpack _). vm_compute. reflexivity.
    + reflexivity.
    + reflexivity.
  - vm_compute. reflexivity.
  - vm_compute. reflexivity.
  - vm_compute. split; reflexivity.
  - rewrite Hrel. exact Hinv.
Defined.

Lemma flush_vacb_effect_witness :
  let E := demo_cc_env STATUS_SUCCESS in
  let s0 := cc_state_of demo_cache (CcRosRequestVacb E demo_cache 0x500 0 0x900) in
  let s := cc_state_of s0 (CcRosReleaseVacb E s0 0x500 0x900 true true false) in
  let v := mkVacb 0x80090000 true true false 0 0 0x500 2 0 in
  exists s',
    CcRosFlushVacb E s 0x900 = Returns (CcWriteVirtualAddress E s 0x900) s'
    /\ dirty_inv E s'
    /\ (NT_SUCCESS (CcWriteVirtualAddress E s 0x900) = false -> s' = s)
    /\ (NT_SUCCESS (CcWriteVirtualAddress E s 0x900) = true ->
        Vacbs s' !! 0x900
        = Some (with_ReferenceCount (with_Dirty v false) (ReferenceCount v - 1))
        /\ ~ In 0x900 (DirtyVacbListHead s')
        /\ CcTotalDirtyPages s' = to_ULONG (CcTotalDirtyPages s - PagesPerVacb E)
        /\ (forall q, q <> 0x900 -> Vacbs s' !! q = Vacbs s !! q)).
Proof.
  intros E s0 s v.
  apply (flush_vacb_effect E s 0x900 v (mkMap 0x100000 0x100000 64 [0x900] 0 0)).
  - exact dirty_demo_inv.
  - vm_compute. reflexivity.
  - reflexivity.
  - vm_compute. reflexivity.
  - vm_compute. split; reflexivity.
Defined.

(** ** Flushing a file *)

Lemma dec_referenced (s : CC_STATE) (p : Z) (v : ROS_VACB) :
  Vacbs s !! p = Some v ->
  0 < ReferenceCount v < 2 ^ 32 - 1 ->
  CcRosVacbDecRefCount (set_vacb s p (referenced v)) p = Returns (ReferenceCount v) s.
Proof.
  intros Hv Hr. rewrite (dec_ref_spec _ p _ (set_vacb_lookup s p _)).
  unfold referenced, with_ReferenceCount. cbn [ReferenceCount].
  rewrite to_ULONG_sub_l. replace (ReferenceCount v + 1 - 1) with (ReferenceCount v) by lia.
  rewrite (to_ULONG_small (ReferenceCount v)) by lia.
  destruct (ReferenceCount v =? 0) eqn:Hz; [apply Z.eqb_eq in Hz; lia|].
  rewrite set_vacb_twice. f_equal. destruct v; cbn. apply set_vacb_same. exact Hv.
Qed.

(** Giving a window back with the validity it has, without making it
    dirty and without mapping it, only drops the caller's reference. *)
Lemma release_plain (E : CC_ENV) (s : CC_STATE) (map p : Z) (Dirty_ : bool) (w : ROS_VACB) :
  Vacbs s !! p = Some w ->
  Dirty_ && negb (Dirty w) = false ->
  1 < ReferenceCount w < 2 ^ 32 ->
  CcRosReleaseVacb E s map p (Valid w) Dirty_ false
  = Returns STATUS_SUCCESS (set_vacb s p (with_ReferenceCount w (ReferenceCount w - 1))).
Proof.
  intros Hw Hd Hr. unfold CcRosReleaseVacb. rewrite Hw.
  unfold with_Valid at 2. cbn [Dirty]. rewrite Hd. cbn [bind].
  rewrite (dec_ref_spec _ p _ (set_vacb_lookup s p _)). cbn [bind].
  rewrite set_vacb_twice. unfold with_Valid, with_ReferenceCount.
  cbn [BaseAddress Valid Dirty PageOut MappedCount FileOffset SharedCacheMap
       ReferenceCount PinCount].
  rewrite (to_ULONG_small (ReferenceCount w - 1)) by lia.
  destruct (ReferenceCount w - 1 =? 0) eqn:Hz; [apply Z.eqb_eq in Hz; lia|].
  reflexivity.
Qed.

Lemma lookup_walk_returns (E : CC_ENV) (s : CC_STATE) (l : list Z) (off : Z) :
  (forall p, In p l -> exists v, Vacbs s !! p = Some v) ->
  exists p s1, lookup_walk E s l off = Returns p s1.
Proof.
  induction l as [|c rest IH]; intros Hall; cbn [lookup_walk]; [eauto|].
  destruct (Hall c (or_introl eq_refl)) as (vc & Hc). rewrite Hc.
  destruct (IsPointInRange _ _ _).
  - rewrite (inc_ref_spec s c vc Hc). cbn [bind]. eauto.
  - destruct (off <? FileOffset vc); [eauto|].
    apply IH. intros p Hp. apply Hall. right; exact Hp.
Qed.

Lemma flush_cache_walk_clean (E : CC_ENV) (s : CC_STATE) (map : Z)
  (m : ROS_SHARED_CACHE_MAP) :
  0 < VACB_MAPPING_GRANULARITY E ->
  CacheMaps s !! map = Some m ->
  (forall p, In p (CacheMapVacbListHead m) ->
     p <> 0 /\ exists v, Vacbs s !! p = Some v /\ Dirty v = false
                         /\ 0 < ReferenceCount v < 2 ^ 32 - 1) ->
  forall fuel Offset RemainingLength IoStatus,
    RemainingLength <= Z.of_nat fuel * VACB_MAPPING_GRANULARITY E ->
    flush_cache_walk E fuel s map Offset RemainingLength IoStatus = Returns IoStatus s.
Proof.
  intros HG Hm Hall. induction fuel as [|fuel IH]; intros Offset R Io HR.
  - cbn [flush_cache_walk]. destruct (0 <? R) eqn:Hpos; [|reflexivity].
    apply Z.ltb_lt in Hpos. lia.
  - cbn [flush_cache_walk]. destruct (0 <? R) eqn:Hpos; [|reflexivity].
    apply Z.ltb_lt in Hpos. cbn [negb].
    assert (Hnext : R - Z.min R (VACB_MAPPING_GRANULARITY E)
                    <= Z.of_nat fuel * VACB_MAPPING_GRANULARITY E) by lia.
    unfold CcRosLookupVacb. rewrite Hm.
    destruct (lookup_walk_returns E s (CacheMapVacbListHead m) Offset) as (p & s1 & Hl).
    { intros q Hq. destruct (Hall q Hq) as (_ & v & Hv & _). eauto. }
    rewrite Hl. cbn [bind].
    destruct (lookup_walk_result E s s1 _ Offset p Hl) as [(-> & ->)|(v & Hv & Hin & _ & ->)].
    + cbn [Z.eqb bind]. apply IH. exact Hnext.
    + destruct (Hall p Hin) as (Hp0 & v0 & Hv0 & Hd & Hr).
      rewrite Hv in Hv0. injection Hv0 as <-.
      apply Z.eqb_neq in Hp0. rewrite Hp0. rewrite set_vacb_lookup.
      unfold referenced at 1. cbn [with_ReferenceCount Dirty]. rewrite Hd. cbn [bind].
      rewrite set_vacb_lookup.
      unfold referenced at 2 3. cbn [with_ReferenceCount Dirty Valid]. rewrite Hd.
      rewrite (release_referenced E s map p v Hv Hr). cbn [bind].
      apply IH. exact Hnext.
Qed.

Lemma flush_cache_fuel (R G : Z) : 0 < G -> R <= Z.of_nat (Z.to_nat (R / G + 1)) * G.
Proof.
  intros HG. destruct (Z_lt_le_dec R 0) as [Hn|Hp]; [nia|].
  pose proof (Z.div_pos R G Hp HG). rewrite Z2Nat.id by lia.
  pose proof (Z.div_mod R G). pose proof (Z.mod_pos_bound R G HG). nia.
Qed.

(** X21: on a file none of whose windows is dirty, CcFlushCache writes
    nothing and leaves the cache as it was, whatever range it is asked to
    flush, and reports STATUS_SUCCESS with no information in the status
    block, if there is one. *)
Theorem flush_cache_clean_file (E : CC_ENV) (s : CC_STATE) (map : Z)
  (FileOffset_ : option Z) (Length : Z) (IoStatus : option (Z * Z))
  (m : ROS_SHARED_CACHE_MAP) :
  0 < VACB_MAPPING_GRANULARITY E ->
  map <> 0 ->
  CacheMaps s !! map = Some m ->
  (forall p, In p (CacheMapVacbListHead m) ->
     p <> 0 /\ exists v, Vacbs s !! p = Some v /\ Dirty v = false
                         /\ 0 < ReferenceCount v < 2 ^ 32 - 1) ->
  CcFlushCache E s map FileOffset_ Length IoStatus
  = Returns (match IoStatus with Some _ => Some (STATUS_SUCCESS, 0) | None => None end) s.
Proof.
  intros HG Hmap Hm Hall. unfold CcFlushCache.
  apply Z.eqb_neq in Hmap. rewrite Hmap, Hm.
  apply (flush_cache_walk_clean E s map m HG Hm Hall).
  apply flush_cache_fuel. exact HG.
Qed.

Lemma flush_cache_clean_file_witness :
  let E := demo_cc_env STATUS_SUCCESS in
  let s0 := cc_state_of demo_cache (CcRosRequestVacb E demo_cache 0x500 0x40000 0x900) in
  let s := cc_state_of s0 (CcRosReleaseVacb E s0 0x500 0x900 true false false) in
  CcFlushCache E s 0x500 None 0 (Some (7, 7)) = Returns (Some (STATUS_SUCCESS, 0)) s.
Proof.
  intros E s0 s.
  apply (flush_cache_clean_file E s 0x500 None 0 (Some (7, 7))
           (mkMap 0x100000 0x100000 0 [0x900] 0 0)).
  - reflexivity.
  - discriminate.
  - vm_compute. reflexivity.
  - intros p [<-|[]]. split; [discriminate|].
    exists (mkVacb 0x80090000 true false false 0 0x40000 0x500 1 0).
    split; [vm_compute; reflexivity|]. split; [reflexivity|].
    vm_compute. split; reflexivity.
Defined.

(** X22: CcFlushCache on a range inside one dirty window writes the window
    back once. When the write-back fails the status block reports its
    status and the cache is left as it was, the window still dirty; when it
    succeeds the block reports STATUS_SUCCESS and the window is clean, off
    the dirty list, with the reference of the dirty list dropped, and the
    count of dirty pages is lower by the pages of a window. *)
Theorem flush_cache_dirty_window (E : CC_ENV) (s s1 : CC_STATE) (map off Length p : Z)
  (io : Z * Z) (v : ROS_VACB) (m mv : ROS_SHARED_CACHE_MAP) :
  0 < VACB_MAPPING_GRANULARITY E ->
  map <> 0 ->
  0 < Length <= VACB_MAPPING_GRANULARITY E ->
  CacheMaps s !! map = Some m ->
  CcRosLookupVacb E s map off = Returns p s1 ->
  p <> 0 ->
  Vacbs s !! p = Some v ->
  Dirty v = true ->
  CacheMaps s !! SharedCacheMap v = Some mv ->
  1 < ReferenceCount v < 2 ^ 32 - 1 ->
  let st := CcWriteVirtualAddress E s1 p in
  exists s',
    CcFlushCache E s map (Some off) Length (Some io)
    = Returns (Some (if NT_SUCCESS st then STATUS_SUCCESS else st, 0)) s'
    /\ (NT_SUCCESS st = false -> s' = s)
    /\ (NT_SUCCESS st = true ->
        Vacbs s' !! p
        = Some (with_ReferenceCount (with_Dirty v false) (ReferenceCount v - 1))
        /\ DirtyVacbListHead s' = RemoveEntryList (DirtyVacbListHead s) p
        /\ CcTotalDirtyPages s' = to_ULONG (CcTotalDirtyPages s - PagesPerVacb E)
        /\ (forall q, q <> p -> Vacbs s' !! q = Vacbs s !! q)).
Proof.
  intros HG Hmap HL Hm Hlook Hp Hv Hd Hmv Hr st.
  destruct (lookup_vacb_hit E s s1 map off p v Hlook Hp Hv) as (_ & Hs1).
  unfold CcFlushCache. apply Z.eqb_neq in Hmap. rewrite Hmap, Hm.
  assert (Hfuel : exists n, Z.to_nat (Length / VACB_MAPPING_GRANULARITY E + 1) = S n).
  { exists (Z.to_nat (Length / VACB_MAPPING_GRANULARITY E)).
    apply Z2Nat.inj_succ. apply Z.div_pos; lia. }
  destruct Hfuel as (n & ->).
  cbn [flush_cache_walk].
  assert (Hpos : (0 <? Length) = true) by (apply Z.ltb_lt; lia).
  rewrite Hpos. cbn [negb]. rewrite Hlook. cbn [bind].
  apply Z.eqb_neq in Hp. rewrite Hp.
  assert (Hl1 : Vacbs s1 !! p = Some (referenced v)) by (rewrite Hs1; apply set_vacb_lookup).
  rewrite Hl1. unfold referenced at 1. cbn [with_ReferenceCount Dirty]. rewrite Hd.
  assert (Hend : forall n s' Io,
            flush_cache_walk E n s' map (off + VACB_MAPPING_GRANULARITY E)
              (Length - Z.min Length (VACB_MAPPING_GRANULARITY E)) Io = Returns Io s').
  { intros k s' Io. rewrite Z.min_l by lia. rewrite Z.sub_diag.
    destruct k; reflexivity. }
  unfold CcRosFlushVacb. fold st.
  assert (Hr1 : ReferenceCount (referenced v) = ReferenceCount v + 1).
  { unfold referenced. cbn [with_ReferenceCount ReferenceCount].
    apply to_ULONG_small. lia. }
  destruct (NT_SUCCESS st) eqn:Hst; cbn [negb bind].
  - assert (Hmv1 : CacheMaps s1 !! SharedCacheMap (referenced v) = Some mv).
    { rewrite Hs1. exact Hmv. }
    rewrite (unmark_dirty_spec E s1 p (referenced v) mv Hl1 Hmv1) by (rewrite Hr1; lia).
    cbn [bind Vacbs]. rewrite lookup_insert_eq.
    match goal with
    | |- context [CcRosReleaseVacb E ?s2 map p (Valid ?w) (Dirty ?w) false] =>
        rewrite (release_plain E s2 map p (Dirty w) w)
          by first [ apply lookup_insert_eq
                   | reflexivity
                   | (cbn [with_ReferenceCount ReferenceCount]; rewrite Hr1; lia) ]
    end.
    cbn [bind]. rewrite Hend, Hst. cbn [negb].
    eexists. split; [reflexivity|]. split; [discriminate|]. intros _.
    unfold set_vacb. cbn [Vacbs DirtyVacbListHead CcTotalDirtyPages].
    rewrite Hs1. cbn [set_vacb Vacbs DirtyVacbListHead CcTotalDirtyPages].
    split.
    { rewrite lookup_insert_eq. f_equal.
      cbn [with_ReferenceCount with_Dirty ReferenceCount]. rewrite Hr1.
      destruct v; cbn. f_equal. lia. }
    split; [reflexivity|]. split; [reflexivity|].
    intros q Hq. rewrite !lookup_insert_ne by congruence. reflexivity.
  - rewrite Hl1.
    rewrite (release_plain E s1 map p (Dirty (referenced v)) (referenced v) Hl1)
      by first [ (unfold referenced; cbn [with_ReferenceCount Dirty]; rewrite Hd; reflexivity)
               | (rewrite Hr1; lia) ].
    cbn [bind]. rewrite Hend, Hst. cbn [negb set_io_status].
    eexists. split; [reflexivity|]. split; [|discriminate]. intros _.
    rewrite Hs1, set_vacb_twice, Hr1.
    replace (ReferenceCount v + 1 - 1) with (ReferenceCount v) by lia.
    unfold referenced, with_ReferenceCount.
    cbn [BaseAddress Valid Dirty PageOut MappedCount FileOffset SharedCacheMap
         ReferenceCount PinCount].
    destruct v; cbn. apply set_vacb_same. exact Hv.
Qed.

Lemma flush_cache_dirty_window_witness :
  let E := demo_cc_env STATUS_UNSUCCESSFUL in
  let s0 := cc_state_of demo_cache (CcRosRequestVacb E demo_cache 0x500 0 0x900) in
  let s := cc_state_of s0 (CcRosReleaseVacb E s0 0x500 0x900 true true false) in
  let s1 := cc_state_of s (CcRosLookupVacb E s 0x500 0x1000) in
  let v := mkVacb 0x80090000 true true false 0 0 0x500 2 0 in
  let st := CcWriteVirtualAddress E s1 0x900 in
  exists s',
    CcFlushCache E s 0x500 (Some 0x1000) 0x2000 (Some (7, 7))
    = Returns (Some (if NT_SUCCESS st then STATUS_SUCCESS else st, 0)) s'
    /\ (NT_SUCCESS st = false -> s' = s)
    /\ (NT_SUCCESS st = true ->
        Vacbs s' !! 0x900
        = Some (with_ReferenceCount (with_Dirty v false) (ReferenceCount v - 1))
        /\ DirtyVacbListHead s' = RemoveEntryList (DirtyVacbListHead s) 0x900
        /\ CcTotalDirtyPages s' = to_ULONG (CcTotalDirtyPages s - PagesPerVacb E)
        /\ (forall q, q <> 0x900 -> Vacbs s' !! q = Vacbs s !! q)).
Proof.
  intros E s0 s s1 v.
  apply (flush_cache_dirty_window E s s1 0x500 0x1000 0x2000 0x900 (7, 7) v
           (mkMap 0x100000 0x100000 64 [0x900] 0 0)
           (mkMap 0x100000 0x100000 64 [0x900] 0 0)).
  - reflexivity.
  - discriminate.
  - vm_compute. split; [reflexivity|discriminate].
  - vm_compute. reflexivity.
  - vm_compute. reflexivity.
  - discriminate.
  - vm_compute. reflexivity.
  - reflexivity.
  - vm_compute. reflexivity.
  - vm_compute. split; reflexivity.
Defined.

(** ** The walk over the dirty list *)

Lemma flush_one_skips (E : CC_ENV) (s : CC_STATE) (p Target Count : Z)
  (Wait CalledFromLazy : bool) (v : ROS_VACB) (m : ROS_SHARED_CACHE_MAP) :
  Vacbs s !! p = Some v ->
  CacheMaps s !! SharedCacheMap v = Some m ->
  2 <= ReferenceCount v < 2 ^ 32 - 1 ->
  flush_one E s p Target Count Wait CalledFromLazy = Returns (None, Target, Count) s.
Proof.
  intros Hv Hm Hr. unfold flush_one.
  rewrite (inc_ref_spec s p v Hv). cbn [bind]. fold (referenced v).
  rewrite set_vacb_lookup.
  assert (Hm1 : CacheMaps (set_vacb s p (referenced v)) !! SharedCacheMap (referenced v)
                = Some m) by exact Hm.
  rewrite Hm1.
  pose proof (dec_referenced s p v Hv ltac:(lia)) as Hdec.
  destruct (CalledFromLazy && BooleanFlagOn (FileObjectFlags m) FO_TEMPORARY_FILE).
  { rewrite Hdec. reflexivity. }
  destruct (negb (AcquireForLazyWrite E _ (LazyWriteContext m) Wait)).
  { rewrite Hdec. reflexivity. }
  unfold CcRosVacbGetRefCount. rewrite set_vacb_lookup. cbn [bind].
  assert (Hr1 : ReferenceCount (referenced v) = ReferenceCount v + 1).
  { unfold referenced. cbn [with_ReferenceCount ReferenceCount].
    apply to_ULONG_small. lia. }
  rewrite Hr1.
  destruct (2 <? ReferenceCount v + 1) eqn:Hgt; [|apply Z.ltb_ge in Hgt; lia].
  rewrite Hdec. reflexivity.
Qed.

Lemma flush_walk_skips (E : CC_ENV) (s : CC_STATE) (fuel : nat) (Wait CalledFromLazy : bool) :
  (forall p, In p (DirtyVacbListHead s) ->
     exists v m, Vacbs s !! p = Some v /\ CacheMaps s !! SharedCacheMap v = Some m
                 /\ 2 <= ReferenceCount v < 2 ^ 32 - 1) ->
  forall pending Target Count,
    (forall p, In p pending -> In p (DirtyVacbListHead s)) ->
    flush_walk E (S fuel) s pending Target Count Wait CalledFromLazy = Returns Count s.
Proof.
  intros Hall. induction pending as [|current rest IH]; intros Target Count Hsub.
  - reflexivity.
  - cbn [flush_walk].
    assert (Hcases : negb (0 <? Target) = true \/ negb (0 <? Target) = false)
      by (destruct (negb (0 <? Target)); auto).
    destruct Hcases as [Ht|Ht]; rewrite Ht at 1; [reflexivity|].
    destruct (Hall current (Hsub current (or_introl eq_refl))) as (v & m & Hv & Hm & Hr).
    rewrite (flush_one_skips E s current Target Count Wait CalledFromLazy v m Hv Hm Hr).
    exact (IH Target Count (fun p Hp => Hsub p (or_intror Hp))).
Qed.

(** X23: CcRosFlushDirtyPages passes by every dirty window that holds two
    or more references when the walk reaches it. A window made dirty
    through CcRosReleaseVacb and left alone holds two, one for its lists
    and one for the dirty list: when all the dirty windows are like that
    the walk writes nothing back, counts no page and leaves the cache as it
    was, whatever the target. *)
Theorem flush_dirty_pages_passes_by (E : CC_ENV) (s : CC_STATE) (fuel : nat) (Target : Z)
  (Wait CalledFromLazy : bool) :
  (forall p, In p (DirtyVacbListHead s) ->
     exists v m, Vacbs s !! p = Some v /\ CacheMaps s !! SharedCacheMap v = Some m
                 /\ 2 <= ReferenceCount v < 2 ^ 32 - 1) ->
  CcRosFlushDirtyPages E (S fuel) s Target Wait CalledFromLazy
  = Returns (STATUS_SUCCESS, 0) s.
Proof.
  intros Hall. unfold CcRosFlushDirtyPages.
  rewrite (flush_walk_skips E s fuel Wait CalledFromLazy Hall); [reflexivity|auto].
Qed.

Lemma flush_dirty_pages_passes_by_witness :
  let E := demo_cc_env STATUS_SUCCESS in
  let s0 := cc_state_of demo_cache (CcRosRequestVacb E demo_cache 0x500 0 0x900) in
  let s := cc_state_of s0 (CcRosReleaseVacb E s0 0x500 0x900 true true false) in
  CcRosFlushDirtyPages E 1 s 1024 true false = Returns (STATUS_SUCCESS, 0) s.
Proof.
  intros E s0 s.
  apply (flush_dirty_pages_passes_by E s 0 1024 true false).
  intros p Hp.
  assert (Hl : DirtyVacbListHead s = [0x900]) by (vm_compute; reflexivity).
  rewrite Hl in Hp. destruct Hp as [<-|[]].
  exists (mkVacb 0x80090000 true true false 0 0 0x500 2 0),
         (mkMap 0x100000 0x100000 64 [0x900] 0 0).
  split; [vm_compute; reflexivity|]. split; [vm_compute; reflexivity|].
  vm_compute. split; [discriminate|reflexivity].
Defined.








(** The whole walk on [dirty_pair]: the first window is passed by each
    time. After a successful write-back of the second the walk ends with 64
    pages; with end-of-file the second window stays dirty and is written and
    credited again until the target of 1024 pages is used up (and once for a
    target of 40 pages); with a write-back that keeps failing otherwise the
    walk comes back to the window with the same target and the same count,
    and has not returned after 100 rounds. *)
Example flush_dirty_pages_pair :
  result_of (CcRosFlushDirtyPages (demo_cc_env STATUS_SUCCESS) 2
               (dirty_pair (demo_cc_env STATUS_SUCCESS)) 1024 false false)
  = Some (STATUS_SUCCESS, 64)
  /\ result_of (CcRosFlushDirtyPages (demo_cc_env STATUS_END_OF_FILE) 17
                  (dirty_pair (demo_cc_env STATUS_END_OF_FILE)) 1024 false false)
     = Some (STATUS_SUCCESS, 1024)
  /\ result_of (CcRosFlushDirtyPages (demo_cc_env STATUS_END_OF_FILE) 2
                  (dirty_pair (demo_cc_env STATUS_END_OF_FILE)) 40 false false)
     = Some (STATUS_SUCCESS, 64)
  /\ CcRosFlushDirtyPages (demo_cc_env STATUS_UNSUCCESSFUL) 100
       (dirty_pair (demo_cc_env STATUS_UNSUCCESSFUL)) 1024 false false
     = Spins.
Proof. vm_compute. repeat split; reflexivity. Qed.

(** ** Trimming *)

Lemma flush_one_flushed_count (E : CC_ENV) (s s' : CC_STATE) (current : Z)
  (Target Count Status Target' Count' : Z) (Wait CalledFromLazy : bool) :
  flush_one E s current Target Count Wait CalledFromLazy
  = Returns (Some Status, Target', Count') s' ->
  Count' = Count \/ Count' = to_ULONG (Count + PagesPerVacb E).
Proof.
  intros H. unfold flush_one in H.
  destruct (CcRosVacbIncRefCount s current) as [r1 s1| | |]; try discriminate.
  cbn [bind] in H.
  destruct (Vacbs s1 !! current) as [c|]; [|discriminate].
  destruct (CacheMaps s1 !! SharedCacheMap c) as [m|]; [|discriminate].
  destruct (CalledFromLazy && BooleanFlagOn (FileObjectFlags m) FO_TEMPORARY_FILE).
  { destruct (CcRosVacbDecRefCount s1 current); discriminate. }
  destruct (negb (AcquireForLazyWrite E s1 (LazyWriteContext m) Wait)).
  { destruct (CcRosVacbDecRefCount s1 current); discriminate. }
  destruct (CcRosVacbGetRefCount s1 current) as [Refs s2| | |]; try discriminate.
  cbn [bind] in H.
  destruct (2 <? Refs).
  { destruct (CcRosVacbDecRefCount s2 current); discriminate. }
  destruct (CcRosFlushVacb E s2 current) as [St s3| | |]; try discriminate.
  cbn [bind] in H.
  destruct (CcRosVacbDecRefCount s3 current) as [r4 s4| | |]; try discriminate.
  cbn [bind] in H.
  rewrite flush_account_spec in H.
  destruct (flush_credited St); injection H as _ _ <- _; auto.
Qed.

Lemma flush_walk_count (E : CC_ENV) (Wait CalledFromLazy : bool) (fuel : nat) :
  forall s pending Target Count c s',
    0 <= Count ->
    flush_walk E fuel s pending Target Count Wait CalledFromLazy = Returns c s' ->
    0 <= c.
Proof.
  induction fuel as [|fuel IHf]; intros s pending Target Count c s' HC H;
    [discriminate|].
  revert s H. induction pending as [|current rest IHp]; intros s H.
  - cbn [flush_walk] in H. injection H as <- _. exact HC.
  - cbn [flush_walk] in H.
    assert (Hcases : negb (0 <? Target) = true \/ negb (0 <? Target) = false)
      by (destruct (negb (0 <? Target)); auto).
    destruct Hcases as [Ht|Ht]; rewrite Ht in H at 1.
    { injection H as <- _. exact HC. }
    destruct (flush_one E s current Target Count Wait CalledFromLazy)
      as [[[[st|] T1] C1] s1| | |] eqn:Hone; try discriminate.
    + apply (IHf s1 (DirtyVacbListHead s1) T1 C1 c s'); [|exact H].
      destruct (flush_one_flushed_count E s s1 current Target Count st T1 C1 Wait
                  CalledFromLazy Hone) as [-> | ->]; [exact HC|].
      unfold to_ULONG. apply Z.mod_pos_bound. reflexivity.
    + destruct (flush_skip_accounting E s s1 current Target Count T1 C1 Wait
                  CalledFromLazy Hone) as (-> & ->).
      apply (IHp s1). exact H.
Qed.

Lemma trim_walk_bound (E : CC_ENV) (PageOut : CC_STATE -> Z -> CC_STATE) (B : Z) :
  0 <= PagesPerVacb E ->
  B < 2 ^ 32 ->
  forall fuel s current_entry Target NrFreed FreeList Target' NrFreed' FreeList' s',
    0 <= Target -> 0 <= NrFreed -> NrFreed + Target <= B ->
    trim_walk E PageOut fuel s current_entry Target NrFreed FreeList
    = Returns (Target', NrFreed', FreeList') s' ->
    0 <= Target' /\ 0 <= NrFreed' /\ NrFreed' + Target' <= B.
Proof.
  intros HP HB. induction fuel as [|fuel IH];
    intros s ce T N F T' N' F' s' HT HN HB' H.
  - destruct ce; [discriminate|]. cbn [trim_walk] in H.
    injection H as <- <- _ _. auto.
  - destruct ce as [current|]; cbn [trim_walk] in H.
    2:{ injection H as <- <- _ _. auto. }
    destruct (Flink (VacbLruListHead s) current) as [next|]; [|discriminate].
    destruct (Vacbs s !! current) as [c|]; [|discriminate].
    destruct (CacheMaps s !! SharedCacheMap c) as [m0|]; [|discriminate].
    destruct (CcRosVacbIncRefCount s current) as [r1 s1| | |]; try discriminate.
    cbn [bind] in H.
    match type of H with
    | bind ?x _ = _ => destruct x as [[] s2| | |]; try discriminate
    end.
    cbn [bind] in H.
    destruct (CcRosVacbDecRefCount s2 current) as [Refs s3| | |]; try discriminate.
    cbn [bind] in H.
    destruct (Refs <? 2).
    + destruct (Vacbs s3 !! current) as [c3|]; [|discriminate].
      destruct (CacheMaps s3 !! SharedCacheMap c3) as [m|]; [|discriminate].
      cbn [bind] in H.
      assert (Hpf : 0 <= Z.min (PagesPerVacb E) T <= T) by lia.
      apply IH in H; [exact H| | |].
      * rewrite to_ULONG_small by lia. lia.
      * rewrite to_ULONG_small by lia. lia.
      * rewrite !to_ULONG_small by lia. lia.
    + cbn [bind] in H. apply IH in H; auto.
Qed.

(** X24: CcRosTrimCache, when it returns, returns STATUS_SUCCESS and never
    reports more pages than it was asked to free, whatever the page-out does
    to the cache. *)
Theorem trim_cache_within_target (E : CC_ENV) (PageOut : CC_STATE -> Z -> CC_STATE) (fuel : nat)
  (s s' : CC_STATE) (Target st NrFreed : Z) :
  0 <= PagesPerVacb E ->
  0 <= Target < 2 ^ 32 ->
  CcRosTrimCache E PageOut fuel s Target = Returns (st, NrFreed) s' ->
  st = STATUS_SUCCESS /\ 0 <= NrFreed <= Target.
Proof.
  intros HP HT H. unfold CcRosTrimCache in H.
  destruct (trim_walk E PageOut fuel s (head (VacbLruListHead s)) Target 0 [])
    as [[[T1 N1] F1] s1| | |] eqn:Hw1; try discriminate.
  cbn [bind] in H.
  assert (H0 : 0 + Target <= Target) by lia.
  destruct (trim_walk_bound E PageOut Target HP (proj2 HT) _ _ _ _ _ _ _ _ _ _
              (proj1 HT) (Z.le_refl 0) H0 Hw1) as (HT1 & HN1 & HB1).
  assert (Hfin : forall T2 N2 F2 s2,
            0 <= T2 -> 0 <= N2 -> N2 + T2 <= Target ->
            (call _ in s3 <- trim_drain s2 F2; Returns (STATUS_SUCCESS, N2) s3)
            = Returns (st, NrFreed) s' ->
            st = STATUS_SUCCESS /\ 0 <= NrFreed <= Target).
  { intros T2 N2 F2 s2 H1 H2 H3 Hd.
    destruct (trim_drain s2 F2) as [[] s3| | |]; try discriminate.
    cbn [bind] in Hd. injection Hd as <- <- _. split; [reflexivity|lia]. }
  destruct (0 <? T1) eqn:Hpos.
  - destruct (CcRosFlushDirtyPages E fuel s1 T1 false false) as [[fst_ PF] s2| | |] eqn:Hfl;
      try discriminate.
    cbn [bind snd] in H.
    assert (HPF : 0 <= PF).
    { unfold CcRosFlushDirtyPages in Hfl.
      destruct (flush_walk E fuel s1 (DirtyVacbListHead s1) T1 0 false false)
        as [c s2'| | |] eqn:Hfw; try discriminate.
      cbn [bind] in Hfl. injection Hfl as _ <- _.
      apply (flush_walk_count E false false fuel _ _ _ _ _ _ (Z.le_refl 0) Hfw). }
    set (T1' := if PF <? T1 then PF else T1) in *.
    assert (HT1' : 0 <= T1' <= T1).
    { unfold T1'. destruct (PF <? T1) eqn:Hlt; [apply Z.ltb_lt in Hlt|]; lia. }
    destruct (negb (PF =? 0)).
    + destruct (trim_walk E PageOut fuel s2 (head (VacbLruListHead s2)) T1' N1 F1)
        as [[[T2 N2] F2] s2'| | |] eqn:Hw2; try discriminate.
      cbn [bind] in H.
      assert (H1 : N1 + T1' <= Target) by lia.
      destruct (trim_walk_bound E PageOut Target HP (proj2 HT) _ _ _ _ _ _ _ _ _ _
                  (proj1 HT1') HN1 H1 Hw2) as (HT2 & HN2 & HB2).
      apply (Hfin T2 N2 F2 s2' HT2 HN2 HB2 H).
    + cbn [bind] in H.
      assert (H1 : N1 + T1' <= Target) by lia.
      apply (Hfin T1' N1 F1 s2 (proj1 HT1') HN1 H1 H).
  - cbn [bind] in H. apply (Hfin T1 N1 F1 s1 HT1 HN1 HB1 H).
Qed.

Lemma maps_shrunk_refl (cm : gmap Z ROS_SHARED_CACHE_MAP) : maps_shrunk cm cm.
Proof. intros k m H. exists m. auto. Qed.

Lemma maps_shrunk_trans (a b c : gmap Z ROS_SHARED_CACHE_MAP) :
  maps_shrunk a b -> maps_shrunk b c -> maps_shrunk a c.
Proof.
  intros Hab Hbc k m H. destruct (Hab k m H) as (m1 & H1 & Hl1).
  destruct (Hbc k m1 H1) as (m2 & H2 & Hl2). exists m2. auto.
Qed.

Lemma maps_shrunk_remove (cm : gmap Z ROS_SHARED_CACHE_MAP) (k c : Z)
  (m : ROS_SHARED_CACHE_MAP) :
  cm !! k = Some m ->
  maps_shrunk cm (<[k := with_VacbList m (RemoveEntryList (CacheMapVacbListHead m) c)]> cm).
Proof.
  intros Hk k' m' H'. destruct (Z.eq_dec k' k) as [->|Hne].
  - rewrite lookup_insert_eq. eexists. split; [reflexivity|].
    cbn [with_VacbList CacheMapVacbListHead]. intros x Hx.
    apply remove_entry_in in Hx. rewrite Hk in H'. injection H' as <-. tauto.
  - rewrite lookup_insert_ne by congruence. exists m'. auto.
Qed.

Lemma trim_amount (P T n : Z) :
  0 <= P -> 0 <= T -> 0 <= n ->
  Z.min P T + Z.min (n * P) (T - Z.min P T) = Z.min ((n + 1) * P) T.
Proof. intros HP HT Hn. nia. Qed.

(** The walk of CcRosTrimCache over an LRU list of windows at rest unlinks
    every one of them. *)
Lemma trim_walk_idle (E : CC_ENV) (PageOut : CC_STATE -> Z -> CC_STATE) :
  0 <= PagesPerVacb E ->
  forall l fuel s Target NrFreed FreeList,
    VacbLruListHead s = l ->
    NoDup l ->
    (forall p, In p l -> idle_window s p) ->
    (length l <= fuel)%nat ->
    0 <= Target -> 0 <= NrFreed -> NrFreed + Target < 2 ^ 32 ->
    exists s',
      trim_walk E PageOut fuel s (head l) Target NrFreed FreeList
      = Returns (Target - Z.min (Z.of_nat (length l) * PagesPerVacb E) Target,
                 NrFreed + Z.min (Z.of_nat (length l) * PagesPerVacb E) Target,
                 rev l ++ FreeList) s'
      /\ VacbLruListHead s' = []
      /\ Vacbs s' = Vacbs s
      /\ DirtyVacbListHead s' = DirtyVacbListHead s
      /\ maps_shrunk (CacheMaps s) (CacheMaps s')
      /\ (forall p v, In p l -> Vacbs s !! p = Some v ->
            exists m', CacheMaps s' !! SharedCacheMap v = Some m'
                       /\ ~ In p (CacheMapVacbListHead m')).
Proof.
  intros HP. induction l as [|c rest IH];
    intros fuel s T N F Hl Hnd Hidle Hfuel HT HN HB.
  - exists s. cbn [head length rev app]. cbn [Z.of_nat].
    rewrite Z.mul_0_l, Z.min_l, Z.sub_0_r, Z.add_0_r by lia.
    split; [destruct fuel; reflexivity|].
    split; [exact Hl|]. split; [reflexivity|]. split; [reflexivity|].
    split; [apply maps_shrunk_refl|]. intros p v [].
  - destruct fuel as [|fuel]; [cbn in Hfuel; lia|].
    apply NoDup_cons in Hnd. destruct Hnd as (Hc & Hnd). rewrite list_elem_of_In in Hc.
    destruct (Hidle c (or_introl eq_refl)) as (v & m & Hv & Hr & Hmc & Hm).
    cbn [head trim_walk]. rewrite Hl. cbn [Flink]. rewrite Z.eqb_refl, Hv, Hm.
    rewrite (inc_ref_spec s c v Hv). cbn [bind]. fold (referenced v).
    rewrite Hmc. change (0 <? to_LONG 0) with false. cbn [andb bind].
    rewrite (dec_referenced s c v Hv) by (rewrite Hr; lia). cbn [bind].
    rewrite Hr. change (1 <? 2) with true. cbv iota.
    rewrite Hv, Hm. cbn [bind].
    assert (Hpf : 0 <= Z.min (PagesPerVacb E) T <= T) by lia.
    rewrite (to_ULONG_small (T - Z.min (PagesPerVacb E) T)) by lia.
    rewrite (to_ULONG_small (N + Z.min (PagesPerVacb E) T)) by lia.
    set (s3b := set_lru_list _ _).
    assert (Hlru : VacbLruListHead s3b = rest).
    { unfold s3b, set_lru_list, set_map. cbn [VacbLruListHead]. rewrite Hl.
      unfold RemoveEntryList. cbn [List.filter]. rewrite Z.eqb_refl. cbn [negb].
      apply (remove_entry_absent rest c Hc). }
    assert (Hvs : Vacbs s3b = Vacbs s) by reflexivity.
    assert (Hcm : CacheMaps s3b
                  = <[SharedCacheMap v := with_VacbList m
                                            (RemoveEntryList (CacheMapVacbListHead m) c)]>
                      (CacheMaps s)) by reflexivity.
    assert (Hshr : maps_shrunk (CacheMaps s) (CacheMaps s3b)).
    { rewrite Hcm. apply maps_shrunk_remove. exact Hm. }
    assert (Hidle' : forall p, In p rest -> idle_window s3b p).
    { intros p Hp. destruct (Hidle p (or_intror Hp)) as (v' & m' & Hv' & Hr' & Hmc' & Hm').
      destruct (Hshr _ _ Hm') as (m'' & Hm'' & _).
      exists v', m''. rewrite Hvs. auto. }
    destruct (IH fuel s3b (T - Z.min (PagesPerVacb E) T) (N + Z.min (PagesPerVacb E) T)
                (InsertHeadList F c) Hlru Hnd Hidle' ltac:(cbn in Hfuel; lia)
                ltac:(lia) ltac:(lia) ltac:(lia))
      as (s' & Hrun & Hl' & Hvs' & Hd' & Hshr' & Hgone).
    exists s'. rewrite Hrun.
    split.
    { f_equal. cbn [length rev]. rewrite Nat2Z.inj_succ.
      pose proof (trim_amount (PagesPerVacb E) T (Z.of_nat (length rest)) HP HT
                    ltac:(lia)) as Ha.
      replace (Z.succ (Z.of_nat (length rest))) with (Z.of_nat (length rest) + 1) by lia.
      unfold InsertHeadList. rewrite <- app_assoc. cbn [app].
      rewrite <- Ha. f_equal. f_equal; lia. }
    split; [exact Hl'|]. split; [congruence|]. split; [rewrite Hd'; reflexivity|].
    split; [apply (maps_shrunk_trans _ _ _ Hshr Hshr')|].
    intros p w Hp Hw. destruct Hp as [<-|Hp].
    + rewrite Hv in Hw. injection Hw as <-.
      assert (Hhere : CacheMaps s3b !! SharedCacheMap v
                      = Some (with_VacbList m (RemoveEntryList (CacheMapVacbListHead m) c))).
      { rewrite Hcm. apply lookup_insert_eq. }
      destruct (Hshr' _ _ Hhere) as (m' & Hm' & Hsub).
      exists m'. split; [exact Hm'|]. intros Hin. apply Hsub in Hin.
      cbn [with_VacbList CacheMapVacbListHead] in Hin. apply remove_entry_in in Hin.
      destruct Hin as (_ & Hin). congruence.
    + apply (Hgone p w Hp). rewrite Hvs. exact Hw.
Qed.

Lemma trim_drain_idle (l : list Z) :
  forall s,
    NoDup l ->
    (forall p, In p l -> exists v, Vacbs s !! p = Some v /\ ReferenceCount v = 1) ->
    exists s',
      trim_drain s l = Returns tt s'
      /\ (forall p, In p l -> Vacbs s' !! p = None)
      /\ (forall q, ~ In q l -> Vacbs s' !! q = Vacbs s !! q)
      /\ CacheMaps s' = CacheMaps s
      /\ VacbLruListHead s' = VacbLruListHead s.
Proof.
  induction l as [|c rest IH]; intros s Hnd Hall.
  - exists s. cbn [trim_drain]. repeat split; auto. intros p [].
  - apply NoDup_cons in Hnd. destruct Hnd as (Hc & Hnd). rewrite list_elem_of_In in Hc.
    destruct (Hall c (or_introl eq_refl)) as (v & Hv & Hr).
    cbn [trim_drain]. rewrite (dec_ref_spec s c v Hv). cbn [bind].
    rewrite Hr. change (to_ULONG (1 - 1) =? 0) with true. cbv iota.
    set (s1 := CcRosInternalFreeVacb _ c).
    assert (Hs1 : forall q, q <> c -> Vacbs s1 !! q = Vacbs s !! q).
    { intros q Hq. unfold s1, CcRosInternalFreeVacb, set_vacb. cbn [Vacbs].
      rewrite lookup_delete_ne by congruence. apply lookup_insert_ne. congruence. }
    assert (Hs1c : Vacbs s1 !! c = None).
    { unfold s1, CcRosInternalFreeVacb. cbn [Vacbs]. apply lookup_delete_eq. }
    destruct (IH s1 Hnd) as (s' & Hrun & Hgone & Hkeep & Hcm & Hlru).
    { intros p Hp. rewrite Hs1 by (intros ->; contradiction).
      apply Hall. right; exact Hp. }
    exists s'. split; [exact Hrun|].
    split.
    { intros p [<-|Hp]; [|apply Hgone; exact Hp].
      rewrite (Hkeep c Hc). exact Hs1c. }
    split.
    { intros q Hq. rewrite Hkeep by (intros Hin; apply Hq; right; exact Hin).
      apply Hs1. intros ->. apply Hq. left; reflexivity. }
    split; [rewrite Hcm; reflexivity|rewrite Hlru; reflexivity].
Qed.

(** X25: when no window is dirty and every window of the LRU list is at
    rest (not mapped, one reference), CcRosTrimCache evicts them all,
    whatever the target, even a target of zero: each is taken off the LRU
    list and off the list of its map and freed, the other windows are left
    alone, and the pages reported are those of the evicted windows, capped
    by the target. *)
Theorem trim_cache_evicts_idle (E : CC_ENV) (PageOut : CC_STATE -> Z -> CC_STATE) (fuel : nat)
  (s : CC_STATE) (Target : Z) :
  0 <= PagesPerVacb E ->
  0 <= Target < 2 ^ 32 ->
  NoDup (VacbLruListHead s) ->
  DirtyVacbListHead s = [] ->
  (forall p, In p (VacbLruListHead s) -> idle_window s p) ->
  (length (VacbLruListHead s) < fuel)%nat ->
  exists s',
    CcRosTrimCache E PageOut fuel s Target
    = Returns (STATUS_SUCCESS,
               Z.min (Z.of_nat (length (VacbLruListHead s)) * PagesPerVacb E) Target) s'
    /\ VacbLruListHead s' = []
    /\ (forall p, In p (VacbLruListHead s) -> Vacbs s' !! p = None)
    /\ (forall q, ~ In q (VacbLruListHead s) -> Vacbs s' !! q = Vacbs s !! q)
    /\ (forall p v, In p (VacbLruListHead s) -> Vacbs s !! p = Some v ->
          exists m', CacheMaps s' !! SharedCacheMap v = Some m'
                     /\ ~ In p (CacheMapVacbListHead m')).
Proof.
  intros HP HT Hnd Hdirty Hidle Hfuel. unfold CcRosTrimCache.
  destruct (trim_walk_idle E PageOut HP (VacbLruListHead s) fuel s Target 0 []
              eq_refl Hnd Hidle ltac:(lia) ltac:(lia) ltac:(lia) ltac:(lia))
    as (s1 & Hrun & Hl1 & Hvs1 & Hd1 & Hshr & Hgone).
  rewrite Hrun. cbn [bind]. rewrite app_nil_r, Z.add_0_l.
  set (amount := Z.min (Z.of_nat (length (VacbLruListHead s)) * PagesPerVacb E) Target).
  assert (Hdrain : exists s',
            trim_drain s1 (rev (VacbLruListHead s)) = Returns tt s'
            /\ (forall p, In p (VacbLruListHead s) -> Vacbs s' !! p = None)
            /\ (forall q, ~ In q (VacbLruListHead s) -> Vacbs s' !! q = Vacbs s !! q)
            /\ CacheMaps s' = CacheMaps s1
            /\ VacbLruListHead s' = []).
  { destruct (trim_drain_idle (rev (VacbLruListHead s)) s1) as (s' & Hr & Hg & Hk & Hc & Hl).
    - apply NoDup_ListNoDup, List.NoDup_rev, NoDup_ListNoDup. exact Hnd.
    - intros p Hp. apply in_rev in Hp. rewrite Hvs1.
      destruct (Hidle p Hp) as (v & m & Hv & Hr & _). eauto.
    - exists s'. split; [exact Hr|].
      split; [intros p Hp; apply Hg; apply in_rev in Hp; exact Hp|].
      split.
      { intros q Hq. rewrite Hk, Hvs1; [reflexivity|].
        intros Hin. apply Hq. apply in_rev. exact Hin. }
      split; [exact Hc|]. rewrite Hl. exact Hl1. }
  destruct Hdrain as (s' & Hdr & Hg & Hk & Hc & Hl).
  assert (Hflush : forall T, CcRosFlushDirtyPages E fuel s1 T false false
                             = Returns (STATUS_SUCCESS, 0) s1).
  { intros T. unfold CcRosFlushDirtyPages. rewrite Hd1, Hdirty.
    destruct fuel as [|fuel]; [lia|]. reflexivity. }
  exists s'.
  split.
  { destruct (0 <? Target - amount).
    - rewrite Hflush. cbn [bind snd]. change (negb (0 =? 0)) with false. cbv iota.
      cbn [bind]. rewrite Hdr. reflexivity.
    - cbn [bind]. rewrite Hdr. reflexivity. }
  split; [exact Hl|]. split; [exact Hg|]. split; [exact Hk|].
  intros p v Hp Hv. rewrite Hc. apply (Hgone p v Hp Hv).
Qed.

Lemma trim_cache_within_target_witness : STATUS_SUCCESS = STATUS_SUCCESS /\ 0 <= 10 <= 10.
Proof.
  pose (E := demo_cc_env STATUS_SUCCESS).
  pose (s0 := cc_state_of demo_cache (CcRosRequestVacb E demo_cache 0x500 0 0x900)).
  pose (s := cc_state_of s0 (CcRosReleaseVacb E s0 0x500 0x900 true false false)).
  apply (trim_cache_within_target E (fun s _ => s) 2 s
           (cc_state_of s (CcRosTrimCache E (fun s _ => s) 2 s 10)) 10 STATUS_SUCCESS 10).
  - vm_compute. discriminate.
  - vm_compute. split; [discriminate|reflexivity].
  - vm_compute. reflexivity.
Defined.

Lemma trim_cache_evicts_idle_witness :
  let E := demo_cc_env STATUS_SUCCESS in
  let s0 := cc_state_of demo_cache (CcRosRequestVacb E demo_cache 0x500 0 0x900) in
  let s := cc_state_of s0 (CcRosReleaseVacb E s0 0x500 0x900 true false false) in
  exists s',
    CcRosTrimCache E (fun s _ => s) 2 s 0
    = Returns (STATUS_SUCCESS,
               Z.min (Z.of_nat (length (VacbLruListHead s)) * PagesPerVacb E) 0) s'
    /\ VacbLruListHead s' = []
    /\ (forall p, In p (VacbLruListHead s) -> Vacbs s' !! p = None)
    /\ (forall q, ~ In q (VacbLruListHead s) -> Vacbs s' !! q = Vacbs s !! q)
    /\ (forall p v, In p (VacbLruListHead s) -> Vacbs s !! p = Some v ->
          exists m', CacheMaps s' !! SharedCacheMap v = Some m'
                     /\ ~ In p (CacheMapVacbListHead m')).
Proof.
  intros E s0 s.
  assert (Hl : VacbLruListHead s = [0x900]) by (vm_compute; reflexivity).
  apply (trim_cache_evicts_idle E (fun s _ => s) 2 s 0).
  - vm_compute. discriminate.
  - vm_compute. split; [discriminate|reflexivity].
  - rewrite Hl. apply NoDup_singleton.
  - vm_compute. reflexivity.
  - rewrite Hl. intros p [<-|[]].
    exists (mkVacb 0x80090000 true false false 0 0 0x500 1 0),
           (mkMap 0x100000 0x100000 0 [0x900] 0 0).
    split; [vm_compute; reflexivity|]. split; [reflexivity|]. split; [reflexivity|].
    vm_compute. reflexivity.
  - rewrite Hl. cbn [length]. lia.
Defined.

(** X26: the window a successful CcRosCreateVacb hands out for an offset is
    the one a later CcRosLookupVacb of that offset finds on the list of the
    map. *)
Theorem create_then_lookup (E : CC_ENV) (s s' : CC_STATE) (map off fresh st p : Z)
  (m : ROS_SHARED_CACHE_MAP) :
  0 < VACB_MAPPING_GRANULARITY E ->
  CacheMaps s !! map = Some m ->
  map_list_ok E (Vacbs s) 0 (CacheMapVacbListHead m) ->
  0 <= off ->
  Vacbs s !! fresh = None ->
  CcRosCreateVacb E s map off fresh = Returns (st, p) s' ->
  NT_SUCCESS st = true ->
  exists v',
    Vacbs s' !! p = Some v'
    /\ CcRosLookupVacb E s' map off = Returns p (set_vacb s' p (referenced v')).
Proof.
  intros HG Hm Hok Hoff Hfresh H Hst.
  destruct (create_vacb_shape E s s' map off fresh st p m HG Hm Hok Hoff Hfresh H Hst)
    as (m' & v' & Hm' & Hok' & _ & Hin & Hv' & Hcov & _).
  exists v'. split; [exact Hv'|].
  unfold CcRosLookupVacb. rewrite Hm'.
  apply (lookup_walk_complete E s' 0 _ off p v' HG Hok' Hin Hv' Hcov).
Qed.

Lemma create_then_lookup_witness :
  let E := demo_cc_env STATUS_SUCCESS in
  let s := cc_state_of demo_cache (CcRosRequestVacb E demo_cache 0x500 0x80000 0x900) in
  let s' := cc_state_of s (CcRosCreateVacb E s 0x500 0x41234 0x901) in
  exists v',
    Vacbs s' !! 0x901 = Some v'
    /\ CcRosLookupVacb E s' 0x500 0x41234 = Returns 0x901 (set_vacb s' 0x901 (referenced v')).
Proof.
  intros E s s'.
  apply (create_then_lookup E s s' 0x500 0x41234 0x901 STATUS_SUCCESS 0x901
           (mkMap 0x100000 0x100000 0 [0x900] 0 0)).
  - reflexivity.
  - vm_compute. reflexivity.
  - apply (map_list_ok_cons E (Vacbs s) 0 0x900
             (mkVacb 0x80090000 false false false 0 0x80000 0x500 2 0) []).
    + discriminate.
    + vm_compute. reflexivity.
    + vm_compute. discriminate.
    + vm_compute. reflexivity.
    + exact I.
  - discriminate.
  - vm_compute. reflexivity.
  - vm_compute. reflexivity.
  - reflexivity.
Defined.

(** * Stock objects *)

Lemma stock_bit_clear (h : Z) :
  GDI_HANDLE_IS_STOCKOBJ h = false -> Z.land h GDI_HANDLE_STOCK_MASK = 0.
Proof.
  unfold GDI_HANDLE_IS_STOCKOBJ. intros H. apply negb_false_iff, Z.eqb_eq in H. exact H.
Qed.

Lemma old_type_no_stock (h t : Z) :
  0 <= h < 2 ^ 32 ->
  GDI_HANDLE_IS_STOCKOBJ h = false ->
  Z.land (stock_OldType h t) GDI_ENTRY_STOCK_MASK = 0.
Proof.
  intros Hh Hs. apply stock_bit_clear in Hs.
  unfold stock_OldType. rewrite (to_ULONG_small h Hh).
  rewrite !Z.land_lor_distr_l, <- !Z.land_assoc.
  change (Z.land GDI_HANDLE_BASETYPE_MASK GDI_ENTRY_STOCK_MASK) with 0.
  change (Z.land GDI_ENTRY_FLAGS_MASK GDI_ENTRY_STOCK_MASK) with 0.
  rewrite !Z.land_0_r, Z.lor_0_l, Z.lor_0_r.
  change GDI_ENTRY_STOCK_MASK with (Z.shiftr GDI_HANDLE_STOCK_MASK GDI_ENTRY_UPPER_SHIFT).
  rewrite <- Z.shiftr_land, Hs. reflexivity.
Qed.

Lemma new_type_differs (h t : Z) :
  0 <= h < 2 ^ 32 ->
  GDI_HANDLE_IS_STOCKOBJ h = false ->
  Z.lor (stock_OldType h t) GDI_ENTRY_STOCK_MASK <> stock_OldType h t.
Proof.
  intros Hh Hs Heq. pose proof (old_type_no_stock h t Hh Hs) as H0.
  rewrite <- Heq in H0. rewrite Z.land_lor_distr_l, Z.land_diag in H0.
  apply Z.lor_eq_0_iff in H0. destruct H0 as [_ H0]. discriminate.
Qed.

Lemma old_type_again (h t : Z) :
  0 <= h < 2 ^ 32 ->
  stock_OldType h (Z.lor (stock_OldType h t) GDI_ENTRY_STOCK_MASK) = stock_OldType h t.
Proof.
  intros Hh. unfold stock_OldType at 1 3. f_equal.
  rewrite Z.land_lor_distr_l.
  change (Z.land GDI_ENTRY_STOCK_MASK GDI_ENTRY_FLAGS_MASK) with 0. rewrite Z.lor_0_r.
  unfold stock_OldType. rewrite (to_ULONG_small h Hh).
  rewrite !Z.land_lor_distr_l, <- !Z.land_assoc.
  change (Z.land GDI_HANDLE_BASETYPE_MASK GDI_ENTRY_FLAGS_MASK) with 0.
  rewrite Z.land_0_r, Z.lor_0_l, Z.land_diag.
  assert (Hz : Z.land (Z.shiftr h GDI_ENTRY_UPPER_SHIFT) GDI_ENTRY_FLAGS_MASK = 0).
  { apply Z.bits_inj'. intros n Hn. rewrite Z.land_spec, Z.bits_0.
    destruct (Z.ltb_spec n 16).
    - change GDI_ENTRY_FLAGS_MASK with (Z.shiftl 0xff 24).
      rewrite (Z.shiftl_spec_low 0xff 24 n) by lia. apply andb_false_r.
    - rewrite Z.shiftr_spec by lia. change GDI_ENTRY_UPPER_SHIFT with 16.
      rewrite (Z.bits_above_log2 h (n + 16)); [reflexivity|lia|].
      destruct (Z.eq_dec h 0) as [->|Hne]; [cbn; lia|].
      assert (Z.log2 h < 32) by (apply Z.log2_lt_pow2; lia). lia. }
  rewrite Hz. apply Z.lor_0_l.
Qed.

Lemma shl32_lor_stock (a : Z) :
  shl32 (Z.lor a GDI_ENTRY_STOCK_MASK) 16 = Z.lor (shl32 a 16) GDI_HANDLE_STOCK_MASK.
Proof.
  rewrite !shl32_as_shiftl, Z.land_lor_distr_l, Z.shiftl_lor. reflexivity.
Qed.

Lemma old_type_upper (h t : Z) :
  0 <= h < 2 ^ 32 ->
  shl32 (stock_OldType h t) 16 = GDI_HANDLE_GET_UPPER h.
Proof.
  intros Hh. rewrite shl32_as_shiftl. unfold stock_OldType, GDI_HANDLE_GET_UPPER.
  rewrite (to_ULONG_small h Hh).
  apply Z.bits_inj'. intros n Hn.
  change GDI_HANDLE_UPPER_MASK with (Z.shiftl (Z.ones 16) 16).
  rewrite Z.land_spec.
  destruct (Z.ltb_spec n 16).
  - rewrite !Z.shiftl_spec_low by lia. rewrite andb_false_r. reflexivity.
  - rewrite !Z.shiftl_spec by lia. rewrite Z.land_spec, !Z.lor_spec, !Z.land_spec.
    rewrite Z.shiftr_spec by lia. change GDI_ENTRY_UPPER_SHIFT with 16.
    replace (n - 16 + 16) with n by lia.
    destruct (Z.ltb_spec n 32).
    + rewrite (Z.ones_spec_low 16 (n - 16)) by lia.
      change GDI_HANDLE_BASETYPE_MASK with (Z.shiftl 0x1f 16).
      rewrite (Z.shiftl_spec_low 0x1f 16 (n - 16)) by lia.
      change GDI_ENTRY_FLAGS_MASK with (Z.shiftl 0xff 24).
      rewrite (Z.shiftl_spec_low 0xff 24 (n - 16)) by lia.
      rewrite !andb_false_r, !andb_true_r, orb_false_r. reflexivity.
    + rewrite (Z.ones_spec_high 16 (n - 16)) by lia. rewrite !andb_false_r.
      reflexivity.
Qed.

Lemma upper_lor_stock (h : Z) :
  GDI_HANDLE_GET_UPPER (Z.lor h GDI_HANDLE_STOCK_MASK)
  = Z.lor (GDI_HANDLE_GET_UPPER h) GDI_HANDLE_STOCK_MASK.
Proof. unfold GDI_HANDLE_GET_UPPER. rewrite Z.land_lor_distr_l. reflexivity. Qed.

Lemma type_lor_stock (h : Z) :
  GDI_HANDLE_GET_TYPE (Z.lor h GDI_HANDLE_STOCK_MASK) = GDI_HANDLE_GET_TYPE h.
Proof.
  unfold GDI_HANDLE_GET_TYPE. rewrite Z.land_lor_distr_l.
  change (Z.land GDI_HANDLE_STOCK_MASK GDI_HANDLE_TYPE_MASK) with 0. apply Z.lor_0_r.
Qed.

Lemma index_lor_stock (E : GDI_ENV) (h : Z) :
  0 <= GDI_HANDLE_INDEX_MASK E < 2 ^ 16 ->
  GDI_HANDLE_GET_INDEX E (Z.lor h GDI_HANDLE_STOCK_MASK) = GDI_HANDLE_GET_INDEX E h.
Proof.
  intros Hm. unfold GDI_HANDLE_GET_INDEX. rewrite Z.land_lor_distr_l.
  assert (Hmm : Z.land (GDI_HANDLE_INDEX_MASK E) (Z.ones 16) = GDI_HANDLE_INDEX_MASK E).
  { rewrite Z.land_ones by lia. apply Z.mod_small. exact Hm. }
  rewrite <- Hmm at 2. rewrite (Z.land_comm (GDI_HANDLE_INDEX_MASK E)), Z.land_assoc.
  change (Z.land GDI_HANDLE_STOCK_MASK (Z.ones 16)) with 0.
  rewrite Z.land_0_l. apply Z.lor_0_r.
Qed.

Lemma is_stock_lor (h : Z) : GDI_HANDLE_IS_STOCKOBJ (Z.lor h GDI_HANDLE_STOCK_MASK) = true.
Proof.
  unfold GDI_HANDLE_IS_STOCKOBJ. rewrite Z.land_lor_distr_l, Z.land_diag.
  apply negb_true_iff, Z.eqb_neq. intros H. apply Z.lor_eq_0_iff in H.
  destruct H as [_ H]. discriminate.
Qed.

Lemma lor_stock_differs (a : Z) :
  Z.land a GDI_HANDLE_STOCK_MASK = 0 -> Z.lor a GDI_HANDLE_STOCK_MASK <> a.
Proof.
  intros H0 Heq. rewrite <- Heq in H0. rewrite Z.land_lor_distr_l, Z.land_diag in H0.
  apply Z.lor_eq_0_iff in H0. destruct H0 as [_ H0]. discriminate.
Qed.

Lemma locked_pid_differs (pid : Z) :
  Z.land pid (Z.lnot 1) = pid -> Z.lor pid 1 <> pid.
Proof.
  intros H Heq.
  assert (Hb : Z.testbit pid 0 = false).
  { rewrite <- H, Z.land_spec. change (Z.testbit (Z.lnot 1) 0) with false.
    apply andb_false_r. }
  rewrite <- Heq, Z.lor_spec in Hb. change (Z.testbit 1 0) with true in Hb.
  rewrite orb_true_r in Hb. discriminate.
Qed.

(** X27: GDIOBJ_ConvertToStockObj on a handle of the caller's process
    whose slot carries the type the handle gives, with a body that no other
    thread holds, returns TRUE and rewrites the handle with the stock flag.
    The slot then has no owner and the stock flag in its type, the body
    carries the new handle, and the handle count of the process is taken
    down when the process is found. The new handle validates in every
    process, cannot be freed, and the old handle no longer validates. *)
Theorem convert_to_stock_globalises (E : GDI_ENV) (lookup_ok : bool) (fuel : nat)
  (s : GDI_STATE) (h : Z) (e : GDI_TABLE_ENTRY) (o : BASEOBJECT) :
  0 <= h < 2 ^ 32 ->
  GDI_HANDLE_IS_STOCKOBJ h = false ->
  0 <= GDI_HANDLE_INDEX_MASK E < 2 ^ 16 ->
  entry_at s (GDI_HANDLE_GET_INDEX E h) = Some e ->
  ProcessId e = PsGetCurrentProcessId E ->
  Type_ e = stock_OldType h (Type_ e) ->
  KernelData e <> 0 ->
  Objects s !! KernelData e = Some o ->
  cExclusiveLock o = 0 \/ Tid o = PsGetCurrentThreadWin32Thread E ->
  let h' := Z.lor h GDI_HANDLE_STOCK_MASK in
  exists s',
    GDIOBJ_ConvertToStockObj E lookup_ok (S fuel) s h = Returns (true, h') s'
    /\ GDI_HANDLE_IS_STOCKOBJ h' = true
    /\ entry_at s' (GDI_HANDLE_GET_INDEX E h)
       = Some (mkEntry (KernelData e) 0 (Z.lor (Type_ e) GDI_ENTRY_STOCK_MASK) (UserData e))
    /\ Objects s' !! KernelData e
       = Some (mkBody h' (ulShareCount o) (cExclusiveLock o) (Tid o) (BaseFlags o))
    /\ GDIHandleCount s'
       = (if negb (PsGetCurrentProcessId E =? 0) && lookup_ok
          then option_map (fun c => to_LONG (c + -1)) (GDIHandleCount s)
          else GDIHandleCount s)
    /\ (forall E2, GDI_HANDLE_INDEX_MASK E2 = GDI_HANDLE_INDEX_MASK E ->
          GDIOBJ_ValidateHandle E2 s' h' (GDI_HANDLE_GET_TYPE h) = Some true)
    /\ GDIOBJ_ValidateHandle E s' h (GDI_HANDLE_GET_TYPE h) = Some false
    /\ (forall E2 ty, GDIOBJ_FreeObjByHandle E2 s' h' ty = Returns false s').
Proof.
  intros Hh Hns Hmask He Hpid Hty Hkd Ho Hlock h'.
  unfold GDIOBJ_ConvertToStockObj. rewrite Hns. cbn [negb convert_loop].
  rewrite He, Hpid, Z.eqb_refl.
  assert (Heq : (Type_ e =? stock_OldType h (Type_ e)) = true)
    by (apply Z.eqb_eq; exact Hty).
  rewrite Heq. apply Z.eqb_neq in Hkd. rewrite Hkd. cbn [andb negb].
  unfold set_entry at 1. cbn [Objects]. rewrite Ho.
  assert (Hl : (cExclusiveLock o =? 0) || (Tid o =? PsGetCurrentThreadWin32Thread E) = true).
  { destruct Hlock as [->| ->]; [reflexivity|]. rewrite Z.eqb_refl. apply orb_true_r. }
  rewrite Hl. rewrite (to_ULONG_small h Hh). fold h'.
  rewrite <- Hty.
  eexists. split; [reflexivity|].
  split; [apply is_stock_lor|].
  assert (Hent : forall s0 x y,
            entry_at s0 (GDI_HANDLE_GET_INDEX E h) = Some x ->
            entry_at (set_entry s0 (GDI_HANDLE_GET_INDEX E h) y) (GDI_HANDLE_GET_INDEX E h)
            = Some y).
  { intros s0 x y Hx. apply (entry_at_set_entry_eq s0 _ y x Hx). }
  match goal with
  | |- entry_at (set_entry ?s3 _ ?y) _ = _ /\ _ =>
      assert (He3 : entry_at s3 (GDI_HANDLE_GET_INDEX E h)
                    = Some (mkEntry (KernelData e) (Z.lor (PsGetCurrentProcessId E) 1)
                              (Z.lor (Type_ e) GDI_ENTRY_STOCK_MASK) (UserData e)))
  end.
  { destruct (negb (PsGetCurrentProcessId E =? GDI_GLOBAL_PROCESS) && lookup_ok);
      unfold set_object, bump_handle_count; cbn [Entries];
      apply (Hent s e _ He). }
  pose proof (Hent _ _ (mkEntry (KernelData e) GDI_GLOBAL_PROCESS
                          (Z.lor (Type_ e) GDI_ENTRY_STOCK_MASK) (UserData e)) He3) as Hfin.
  split; [exact Hfin|].
  split.
  { unfold set_entry, set_object. cbn [Objects]. apply lookup_insert_eq. }
  split.
  { unfold GDI_GLOBAL_PROCESS.
    destruct (negb (PsGetCurrentProcessId E =? 0) && lookup_ok); reflexivity. }
  assert (Hup : shl32 (Z.lor (Type_ e) GDI_ENTRY_STOCK_MASK) GDI_ENTRY_UPPER_SHIFT
                = GDI_HANDLE_GET_UPPER h').
  { change GDI_ENTRY_UPPER_SHIFT with 16. rewrite shl32_lor_stock.
    rewrite Hty, (old_type_upper h _ Hh). symmetry. apply upper_lor_stock. }
  split.
  { intros E2 HE2. unfold GDIOBJ_ValidateHandle.
    fold (GDI_HANDLE_GET_TYPE h'). unfold h' at 1. rewrite type_lor_stock, Z.eqb_refl.
    assert (Hidx : GDI_HANDLE_GET_INDEX E2 h' = GDI_HANDLE_GET_INDEX E h).
    { unfold h'. rewrite index_lor_stock by (rewrite HE2; exact Hmask).
      unfold GDI_HANDLE_GET_INDEX. rewrite HE2. reflexivity. }
    rewrite Hidx, Hfin. cbn [Type_ ProcessId]. rewrite Hup, Z.eqb_refl.
    reflexivity. }
  split.
  { unfold GDIOBJ_ValidateHandle. fold (GDI_HANDLE_GET_TYPE h). rewrite Z.eqb_refl.
    rewrite Hfin. cbn [Type_ ProcessId]. rewrite Hup. unfold h'. rewrite upper_lor_stock.
    destruct (Z.lor (GDI_HANDLE_GET_UPPER h) GDI_HANDLE_STOCK_MASK =? GDI_HANDLE_GET_UPPER h)
      eqn:Hc; [|reflexivity].
    apply Z.eqb_eq in Hc. exfalso. revert Hc. apply lor_stock_differs.
    unfold GDI_HANDLE_GET_UPPER. rewrite <- Z.land_assoc.
    change (Z.land GDI_HANDLE_UPPER_MASK GDI_HANDLE_STOCK_MASK) with GDI_HANDLE_STOCK_MASK.
    apply stock_bit_clear. exact Hns. }
  intros E2 ty. unfold GDIOBJ_FreeObjByHandle, h'. rewrite is_stock_lor. reflexivity.
Qed.

(** X28: when another thread holds the body, GDIOBJ_ConvertToStockObj has
    already put the stock flag into the slot's type when it backs off, so
    its second pass does not recognise the slot: it returns FALSE with the
    handle as it was and leaves the slot locked, with the stock flag, and
    the body untouched. From then on GDIOBJ_LockObj, GDIOBJ_FreeObjByHandle
    and GDIOBJ_ConvertToStockObj itself wait on that handle without end. *)
Theorem convert_to_stock_contended (E : GDI_ENV) (lookup_ok : bool) (fuel : nat)
  (s : GDI_STATE) (h : Z) (e : GDI_TABLE_ENTRY) (o : BASEOBJECT) :
  0 <= h < 2 ^ 32 ->
  GDI_HANDLE_IS_STOCKOBJ h = false ->
  GDI_HANDLE_GET_TYPE h <> 0 ->
  GDI_HANDLE_GET_INDEX E h < GDI_HANDLE_COUNT E ->
  entry_at s (GDI_HANDLE_GET_INDEX E h) = Some e ->
  ProcessId e = PsGetCurrentProcessId E ->
  Z.land (PsGetCurrentProcessId E) (Z.lnot 1) = PsGetCurrentProcessId E ->
  Type_ e = stock_OldType h (Type_ e) ->
  KernelData e <> 0 ->
  Objects s !! KernelData e = Some o ->
  cExclusiveLock o <> 0 ->
  Tid o <> PsGetCurrentThreadWin32Thread E ->
  exists s',
    GDIOBJ_ConvertToStockObj E lookup_ok (S (S fuel)) s h = Returns (false, h) s'
    /\ entry_at s' (GDI_HANDLE_GET_INDEX E h)
       = Some (mkEntry (KernelData e) (Z.lor (PsGetCurrentProcessId E) 1)
                 (Z.lor (Type_ e) GDI_ENTRY_STOCK_MASK) (UserData e))
    /\ Objects s' = Objects s
    /\ GDIOBJ_LockObj E s' h GDI_OBJECT_TYPE_DONTCARE = Spins
    /\ GDIOBJ_FreeObjByHandle E s' h GDI_OBJECT_TYPE_DONTCARE = Spins
    /\ (forall fuel', GDIOBJ_ConvertToStockObj E lookup_ok fuel' s' h = Spins).
Proof.
  intros Hh Hns Hty0 Hidx He Hpid Heven Hty Hkd Ho Hlk Htid.
  set (idx := GDI_HANDLE_GET_INDEX E h) in *.
  set (pid := PsGetCurrentProcessId E) in *.
  set (T := Type_ e) in *.
  assert (Hent : forall s0 x y, entry_at s0 idx = Some x ->
                   entry_at (set_entry s0 idx y) idx = Some y).
  { intros s0 x y Hx. apply (entry_at_set_entry_eq s0 _ y x Hx). }
  assert (Hlockne : (Z.lor pid 1 =? pid) = false).
  { apply Z.eqb_neq. apply locked_pid_differs. exact Heven. }
  unfold GDIOBJ_ConvertToStockObj. rewrite Hns. cbn [negb].
  (* first pass *)
  cbn [convert_loop]. fold idx pid. rewrite He, Hpid, Z.eqb_refl. fold T.
  assert (Heq : (T =? stock_OldType h T) = true) by (apply Z.eqb_eq; exact Hty).
  rewrite Heq. pose proof Hkd as Hkd'. apply Z.eqb_neq in Hkd'. rewrite Hkd'.
  cbn [andb negb]. unfold set_entry at 1. cbn [Objects]. rewrite Ho.
  apply Z.eqb_neq in Hlk, Htid. rewrite Hlk, Htid. cbn [orb].
  rewrite <- Hty.
  (* second pass *)
  set (s1 := set_entry (set_entry s idx _) idx _).
  assert (He1 : entry_at s1 idx
                = Some (mkEntry (KernelData e) pid (Z.lor T GDI_ENTRY_STOCK_MASK)
                          (UserData e))).
  { unfold s1. eapply Hent. eapply Hent. exact He. }
  rewrite He1. cbn [ProcessId Type_ KernelData UserData]. rewrite Z.eqb_refl.
  assert (Hold : stock_OldType h (Z.lor T GDI_ENTRY_STOCK_MASK) = T).
  { rewrite Hty at 1. rewrite (old_type_again h T Hh). symmetry. exact Hty. }
  rewrite Hold.
  assert (Hne : (Z.lor T GDI_ENTRY_STOCK_MASK =? T) = false).
  { apply Z.eqb_neq. rewrite Hty. apply (new_type_differs h T Hh Hns). }
  rewrite Hne. cbn [andb].
  set (s2 := set_entry s1 idx _).
  assert (He2 : entry_at s2 idx
                = Some (mkEntry (KernelData e) (Z.lor pid 1)
                          (Z.lor T GDI_ENTRY_STOCK_MASK) (UserData e))).
  { unfold s2. eapply Hent. exact He1. }
  exists s2. split; [reflexivity|]. split; [exact He2|]. split; [reflexivity|].
  assert (Hmasked : Z.land (Z.lor pid 1) (Z.lnot 1) = pid).
  { rewrite Z.land_lor_distr_l, Heven. change (Z.land 1 (Z.lnot 1)) with 0.
    apply Z.lor_0_r. }
  split.
  { unfold GDIOBJ_LockObj. fold idx pid.
    destruct (GDI_HANDLE_COUNT E <=? idx) eqn:Hc; [apply Z.leb_le in Hc; lia|].
    unfold lock_type_mismatch. rewrite Z.eqb_refl. cbn [negb andb orb].
    apply Z.eqb_neq in Hty0. rewrite Hty0.
    rewrite He2. cbn [ProcessId]. rewrite Hmasked, Heven, Z.eqb_refl. cbn [negb andb].
    rewrite Hlockne. reflexivity. }
  split.
  { unfold GDIOBJ_FreeObjByHandle. rewrite Hns.
    change (clear_bits GDI_OBJECT_TYPE_DONTCARE GDI_OBJECT_TYPE_SILENT)
      with GDI_OBJECT_TYPE_DONTCARE.
    rewrite Z.eqb_refl. cbn [negb andb orb].
    apply Z.eqb_neq in Hty0. rewrite Hty0. fold idx pid.
    rewrite He2. cbn [ProcessId]. rewrite Hlockne, Z.eqb_refl. reflexivity. }
  intros [|fuel']; [reflexivity|].
  cbn [convert_loop]. fold idx pid. rewrite He2. cbn [ProcessId].
  rewrite Hlockne, Z.eqb_refl. reflexivity.
Qed.

Lemma convert_to_stock_globalises_witness :
  let E := demo_env in
  let s := state_of demo_table
             (GDIOBJ_AllocObjWithHandle demo_env demo_table GDI_OBJECT_TYPE_BRUSH 0x1000) in
  let h := 0x0010000A in
  let e := mkEntry 0x1000 4 0x100010 0 in
  let o := mkBody 0x0010000A 0 1 0x30 0 in
  let h' := Z.lor h GDI_HANDLE_STOCK_MASK in
  exists s',
    GDIOBJ_ConvertToStockObj E true 1 s h = Returns (true, h') s'
    /\ GDI_HANDLE_IS_STOCKOBJ h' = true
    /\ entry_at s' (GDI_HANDLE_GET_INDEX E h)
       = Some (mkEntry (KernelData e) 0 (Z.lor (Type_ e) GDI_ENTRY_STOCK_MASK) (UserData e))
    /\ Objects s' !! KernelData e
       = Some (mkBody h' (ulShareCount o) (cExclusiveLock o) (Tid o) (BaseFlags o))
    /\ GDIHandleCount s'
       = (if negb (PsGetCurrentProcessId E =? 0) && true
          then option_map (fun c => to_LONG (c + -1)) (GDIHandleCount s)
          else GDIHandleCount s)
    /\ (forall E2, GDI_HANDLE_INDEX_MASK E2 = GDI_HANDLE_INDEX_MASK E ->
          GDIOBJ_ValidateHandle E2 s' h' (GDI_HANDLE_GET_TYPE h) = Some true)
    /\ GDIOBJ_ValidateHandle E s' h (GDI_HANDLE_GET_TYPE h) = Some false
    /\ (forall E2 ty, GDIOBJ_FreeObjByHandle E2 s' h' ty = Returns false s').
Proof.
  intros E s h e o.
  apply (convert_to_stock_globalises E true 0 s h e o).
  - vm_compute. split; [discriminate|reflexivity].
  - reflexivity.
  - vm_compute. split; [discriminate|reflexivity].
  - vm_compute. reflexivity.
  - reflexivity.
  - vm_compute. reflexivity.
  - discriminate.
  - vm_compute. reflexivity.
  - right. reflexivity.
Defined.

Lemma convert_to_stock_contended_witness :
  let E := mkGdiEnv 16384 0xFFFF 4 0x31 (fun _ => true) (fun _ => true) (fun _ => true) in
  let s := state_of demo_table
             (GDIOBJ_AllocObjWithHandle demo_env demo_table GDI_OBJECT_TYPE_BRUSH 0x1000) in
  let h := 0x0010000A in
  let e := mkEntry 0x1000 4 0x100010 0 in
  exists s',
    GDIOBJ_ConvertToStockObj E true 2 s h = Returns (false, h) s'
    /\ entry_at s' (GDI_HANDLE_GET_INDEX E h)
       = Some (mkEntry (KernelData e) (Z.lor (PsGetCurrentProcessId E) 1)
                 (Z.lor (Type_ e) GDI_ENTRY_STOCK_MASK) (UserData e))
    /\ Objects s' = Objects s
    /\ GDIOBJ_LockObj E s' h GDI_OBJECT_TYPE_DONTCARE = Spins
    /\ GDIOBJ_FreeObjByHandle E s' h GDI_OBJECT_TYPE_DONTCARE = Spins
    /\ (forall fuel', GDIOBJ_ConvertToStockObj E true fuel' s' h = Spins).
Proof.
  intros E s h e.
  apply (convert_to_stock_contended E true 0 s h e (mkBody 0x0010000A 0 1 0x30 0)).
  - vm_compute. split; [discriminate|reflexivity].
  - reflexivity.
  - vm_compute. discriminate.
  - vm_compute. reflexivity.
  - vm_compute. reflexivity.
  - reflexivity.
  - reflexivity.
  - vm_compute. reflexivity.
  - discriminate.
  - vm_compute. reflexivity.
  - discriminate.
  - vm_compute. discriminate.
Defined.

(** X29: GDIOBJ_ShareLockObj does not look at the exclusive lock. On a
    handle that names an unlocked slot of the caller's process, or a global
    one, it returns the body with the share count raised by one and nothing
    else changed, also when another thread holds the body exclusively, in
    which case GDIOBJ_LockObj on the same handle waits. *)
Theorem share_lock_ignores_exclusive (E : GDI_ENV) (s : GDI_STATE) (h ty : Z)
  (e : GDI_TABLE_ENTRY) (o : BASEOBJECT) :
  GDI_HANDLE_GET_INDEX E h < GDI_HANDLE_COUNT E ->
  lock_type_mismatch h ty = false ->
  entry_at s (GDI_HANDLE_GET_INDEX E h) = Some e ->
  Z.land (ProcessId e) (Z.lnot 1) = ProcessId e ->
  ProcessId e = 0 \/ ProcessId e = Z.land (PsGetCurrentProcessId E) (Z.lnot 1) ->
  KernelData e <> 0 ->
  shl32 (Type_ e) GDI_ENTRY_UPPER_SHIFT = GDI_HANDLE_GET_UPPER h ->
  Objects s !! KernelData e = Some o ->
  GDIOBJ_ShareLockObj E s h ty
  = Returns (KernelData e)
      (set_object s (KernelData e)
         (mkBody (hHmgr o) (to_ULONG (ulShareCount o + 1)) (cExclusiveLock o) (Tid o)
                 (BaseFlags o)))
  /\ (cExclusiveLock o <> 0 -> Tid o <> PsGetCurrentThreadWin32Thread E ->
      GDIOBJ_LockObj E s h ty = Spins).
Proof.
  intros Hidx Hty He Hun Hown Hkd Hup Ho.
  assert (Hc : (GDI_HANDLE_COUNT E <=? GDI_HANDLE_GET_INDEX E h) = false)
    by (apply Z.leb_gt; exact Hidx).
  assert (Hpass : negb (Z.land (PsGetCurrentProcessId E) (Z.lnot 1) =? ProcessId e)
                  && negb (ProcessId e =? 0) = false).
  { destruct Hown as [-> | ->]; [apply andb_false_r|].
    rewrite Z.eqb_refl. reflexivity. }
  apply Z.eqb_neq in Hkd.
  split.
  - unfold GDIOBJ_ShareLockObj. rewrite Hc, Hty, He. cbv zeta.
    rewrite Hun, Hpass, Z.eqb_refl, Hkd, Hup, Z.eqb_refl. cbn [negb andb].
    rewrite Ho. reflexivity.
  - intros Hlk Htid. unfold GDIOBJ_LockObj. rewrite Hc, Hty, He. cbv zeta.
    rewrite Hun, Hpass, Z.eqb_refl, Hkd, Hup, Z.eqb_refl. cbn [negb andb].
    rewrite Ho. apply Z.eqb_neq in Hlk, Htid. rewrite Hlk, Htid. reflexivity.
Qed.

Lemma share_lock_ignores_exclusive_witness :
  let E := mkGdiEnv 16384 0xFFFF 4 0x31 (fun _ => true) (fun _ => true) (fun _ => true) in
  let s := state_of demo_table
             (GDIOBJ_AllocObjWithHandle demo_env demo_table GDI_OBJECT_TYPE_BRUSH 0x1000) in
  let e := mkEntry 0x1000 4 0x100010 0 in
  let o := mkBody 0x0010000A 0 1 0x30 0 in
  GDIOBJ_ShareLockObj E s 0x0010000A GDI_OBJECT_TYPE_BRUSH
  = Returns (KernelData e)
      (set_object s (KernelData e)
         (mkBody (hHmgr o) (to_ULONG (ulShareCount o + 1)) (cExclusiveLock o) (Tid o)
                 (BaseFlags o)))
  /\ (cExclusiveLock o <> 0 -> Tid o <> PsGetCurrentThreadWin32Thread E ->
      GDIOBJ_LockObj E s 0x0010000A GDI_OBJECT_TYPE_BRUSH = Spins).
Proof.
  intros E s e o.
  apply (share_lock_ignores_exclusive E s 0x0010000A GDI_OBJECT_TYPE_BRUSH e o).
  - vm_compute. reflexivity.
  - vm_compute. reflexivity.
  - vm_compute. reflexivity.
  - reflexivity.
  - right. reflexivity.
  - discriminate.
  - vm_compute. reflexivity.
  - vm_compute. reflexivity.
Defined.

(** * The status block of CcFlushCache *)

(** One turn of the loop of CcFlushCache on a dirty window whose write-back
    fails: the status goes into the block and the cache is as before. *)
Lemma flush_cache_walk_failure (E : CC_ENV) (s s1 : CC_STATE) (map Offset R p : Z)
  (Io : option (Z * Z)) (v : ROS_VACB) (n : nat) :
  0 < R ->
  CcRosLookupVacb E s map Offset = Returns p s1 ->
  p <> 0 ->
  Vacbs s !! p = Some v ->
  Dirty v = true ->
  1 < ReferenceCount v < 2 ^ 32 - 1 ->
  NT_SUCCESS (CcWriteVirtualAddress E s1 p) = false ->
  flush_cache_walk E (S n) s map Offset R Io
  = flush_cache_walk E n s map (Offset + VACB_MAPPING_GRANULARITY E)
      (R - Z.min R (VACB_MAPPING_GRANULARITY E))
      (set_io_status Io (CcWriteVirtualAddress E s1 p)).
Proof.
  intros HR Hlook Hp Hv Hd Hr Hst.
  destruct (lookup_vacb_hit E s s1 map Offset p v Hlook Hp Hv) as (_ & Hs1).
  cbn [flush_cache_walk].
  assert (Hpos : (0 <? R) = true) by (apply Z.ltb_lt; exact HR).
  rewrite Hpos. cbn [negb]. rewrite Hlook. cbn [bind].
  apply Z.eqb_neq in Hp. rewrite Hp.
  assert (Hl1 : Vacbs s1 !! p = Some (referenced v)) by (rewrite Hs1; apply set_vacb_lookup).
  rewrite Hl1. unfold referenced at 1. cbn [with_ReferenceCount Dirty]. rewrite Hd.
  unfold CcRosFlushVacb. rewrite Hst. cbn [negb bind]. rewrite Hl1.
  assert (Hr1 : ReferenceCount (referenced v) = ReferenceCount v + 1).
  { unfold referenced. cbn [with_ReferenceCount ReferenceCount].
    apply to_ULONG_small. lia. }
  rewrite (release_plain E s1 map p (Dirty (referenced v)) (referenced v) Hl1)
    by first [ (unfold referenced; cbn [with_ReferenceCount Dirty]; rewrite Hd; reflexivity)
             | (rewrite Hr1; lia) ].
  cbn [bind].
  assert (Hback : set_vacb s1 p
                    (with_ReferenceCount (referenced v) (ReferenceCount (referenced v) - 1))
                  = s).
  { rewrite Hs1, set_vacb_twice, Hr1.
    replace (ReferenceCount v + 1 - 1) with (ReferenceCount v) by lia.
    unfold referenced, with_ReferenceCount.
    cbn [BaseAddress Valid Dirty PageOut MappedCount FileOffset SharedCacheMap
         ReferenceCount PinCount].
    destruct v; cbn. apply set_vacb_same. exact Hv. }
  rewrite Hback, Hst. reflexivity.
Qed.

(** X30: when the write-back fails for two dirty windows of the range, the
    status block CcFlushCache leaves carries the status of the second
    failure, not of the first: every failure overwrites the status. The
    cache is left as it was. *)
Theorem flush_cache_last_failure (E : CC_ENV) (s s1 s2 : CC_STATE)
  (map off Length p1 p2 : Z) (io : Z * Z) (v1 v2 : ROS_VACB) (m : ROS_SHARED_CACHE_MAP) :
  map <> 0 ->
  CacheMaps s !! map = Some m ->
  0 < VACB_MAPPING_GRANULARITY E < Length ->
  Length <= 2 * VACB_MAPPING_GRANULARITY E ->
  CcRosLookupVacb E s map off = Returns p1 s1 ->
  CcRosLookupVacb E s map (off + VACB_MAPPING_GRANULARITY E) = Returns p2 s2 ->
  p1 <> 0 -> p2 <> 0 ->
  Vacbs s !! p1 = Some v1 -> Vacbs s !! p2 = Some v2 ->
  Dirty v1 = true -> Dirty v2 = true ->
  1 < ReferenceCount v1 < 2 ^ 32 - 1 ->
  1 < ReferenceCount v2 < 2 ^ 32 - 1 ->
  NT_SUCCESS (CcWriteVirtualAddress E s1 p1) = false ->
  NT_SUCCESS (CcWriteVirtualAddress E s2 p2) = false ->
  CcFlushCache E s map (Some off) Length (Some io)
  = Returns (Some (CcWriteVirtualAddress E s2 p2, 0)) s.
Proof.
  intros Hmap Hm HG HL Hl1 Hl2 Hp1 Hp2 Hv1 Hv2 Hd1 Hd2 Hr1 Hr2 Hst1 Hst2.
  unfold CcFlushCache. apply Z.eqb_neq in Hmap. rewrite Hmap, Hm.
  assert (Hq : 1 <= Length / VACB_MAPPING_GRANULARITY E).
  { apply Z.div_le_lower_bound; lia. }
  assert (Hfuel : Z.to_nat (Length / VACB_MAPPING_GRANULARITY E + 1)
                  = S (S (Z.to_nat (Length / VACB_MAPPING_GRANULARITY E - 1)))) by lia.
  rewrite Hfuel.
  assert (HL1 : 0 < Length) by lia.
  assert (HL2 : 0 < Length - VACB_MAPPING_GRANULARITY E) by lia.
  rewrite (flush_cache_walk_failure E s s1 map off Length p1 _ v1 _
             HL1 Hl1 Hp1 Hv1 Hd1 Hr1 Hst1).
  rewrite Z.min_r by lia.
  rewrite (flush_cache_walk_failure E s s2 map (off + VACB_MAPPING_GRANULARITY E)
             (Length - VACB_MAPPING_GRANULARITY E) p2 _ v2 _
             HL2 Hl2 Hp2 Hv2 Hd2 Hr2 Hst2).
  rewrite Z.min_l by lia. rewrite Z.sub_diag.
  cbn [set_io_status].
  destruct (Z.to_nat (Length / VACB_MAPPING_GRANULARITY E - 1)); reflexivity.
Qed.

Lemma flush_cache_last_failure_witness :
  let E := mkCcEnv 0x40000 0x1000 (fun _ _ _ => true)
             (fun _ vacb => if vacb =? 0x900 then STATUS_UNSUCCESSFUL
                            else STATUS_INVALID_PARAMETER)
             (fun _ vacb => (STATUS_SUCCESS, 0x80000000 + vacb * 0x100))
             (fun _ i => i + 1) (fun _ _ _ => STATUS_SUCCESS) in
  let s0 := cc_state_of demo_cache (CcRosRequestVacb E demo_cache 0x500 0 0x900) in
  let s1 := cc_state_of s0 (CcRosReleaseVacb E s0 0x500 0x900 true true false) in
  let s2 := cc_state_of s1 (CcRosRequestVacb E s1 0x500 0x40000 0x901) in
  let s := cc_state_of s2 (CcRosReleaseVacb E s2 0x500 0x901 true true false) in
  CcFlushCache E s 0x500 (Some 0) 0x80000 (Some (7, 7))
  = Returns (Some (CcWriteVirtualAddress E
                     (cc_state_of s (CcRosLookupVacb E s 0x500 (0 + VACB_MAPPING_GRANULARITY E)))
                     0x901, 0)) s.
Proof.
  intros E s0 s1 s2 s.
  apply (flush_cache_last_failure E s
           (cc_state_of s (CcRosLookupVacb E s 0x500 0))
           (cc_state_of s (CcRosLookupVacb E s 0x500 (0 + VACB_MAPPING_GRANULARITY E)))
           0x500 0 0x80000 0x900 0x901 (7, 7)
           (mkVacb 0x80090000 true true false 0 0 0x500 2 0)
           (mkVacb 0x80090100 true true false 0 0x40000 0x500 2 0)
           (mkMap 0x100000 0x100000 128 [0x900; 0x901] 0 0)).
  - discriminate.
  - vm_compute. reflexivity.
  - vm_compute. split; reflexivity.
  - vm_compute. discriminate.
  - vm_compute. reflexivity.
  - vm_compute. reflexivity.
  - discriminate.
  - discriminate.
  - vm_compute. reflexivity.
  - vm_compute. reflexivity.
  - reflexivity.
  - reflexivity.
  - vm_compute. split; reflexivity.
  - vm_compute. split; reflexivity.
  - vm_compute. reflexivity.
  - vm_compute. reflexivity.
Defined.
